(** * AlphaEvo back-testing engine: a shallow embedding of [src/backtester.py]
    and [src/trade_logger.py], and the properties of the engine.

    The simulation walks a price series bar by bar, detects a "market
    structure shift" from swing points and the EMA trend, sizes the position
    from the account balance, scans the following bars for the exit and logs
    one record per completed trade.

    [run_backtest] reads the columns [ema_fast] and [ema_slow] that
    [add_indicators] has left in the frame; they are columns of the input
    here.  The progress bar ([tqdm]) and the two [print]s are left out.

    After the engine comes the code around it: the indicator columns, the
    signal function of the live trader, the agent tools of
    [src/trading_tools.py], the log analyzer of [src/trade_analyzer.py], the
    equity curve of [src/reporting.py] and the synthetic trades of
    [src/simulate_live_markets.py]. *)

From Stdlib Require Import ZArith QArith Qabs Qfield Floats List Bool Lia Arith Sorted.
Import ListNotations.

Set Implicit Arguments.

(** ** Numbers

    Every price and amount of the source is a Python [float].  The engine is
    written once, over the operations the source applies to them, and run at
    two instances: IEEE-754 binary64 (what the interpreter computes) and exact
    rationals (the arithmetic the formulas are meant in).  A property proved
    for every instance uses no law of arithmetic, so it holds for the
    doubles as well.  A property proved at the rationals alone is one of the
    formulas in exact arithmetic; it says nothing of the doubles by itself. *)

Class Num (A : Type) : Type := {
  nadd : A -> A -> A;          (* x + y *)
  nsub : A -> A -> A;          (* x - y *)
  nmul : A -> A -> A;          (* x * y *)
  ndiv : A -> A -> A;          (* x / y *)
  nabs : A -> A;               (* abs(x) *)
  neqb : A -> A -> bool;       (* x == y *)
  nleb : A -> A -> bool;       (* x <= y *)
  nltb : A -> A -> bool;       (* x < y *)
  nisnan : A -> bool;          (* x != x *)
  nlit : Z -> A;               (* an integer literal: 0, 1, 2, 100, 10000 *)
  n0_0001 : A                  (* the literal 0.0001 *)
}.

(** Python writes [x > y] and [x >= y]; they are [y < x] and [y <= x]. *)
Definition ngtb {A} `{Num A} (x y : A) : bool := nltb y x.
Definition ngeb {A} `{Num A} (x y : A) : bool := nleb y x.

(** A NaN or an infinite value: the doubles for which [x - x] is a NaN.
    The window code of pandas ([rolling], [ewm]) turns an infinite value
    into a NaN before it computes anything. *)
Definition not_finite {A} `{Num A} (x : A) : bool := nisnan (nsub x x).

(** An integer literal as a double: exact up to 2^53, as are the integers
    the engine writes, and rounded to the nearest double above it. *)
Definition float_of_Z (z : Z) : float :=
  match z with
  | Zneg p => PrimFloat.opp (PrimFloat.of_uint63 (Uint63.of_Z (Zpos p)))
  | _ => PrimFloat.of_uint63 (Uint63.of_Z z)
  end.

#[export] Instance Num_float : Num float := {
  nadd := PrimFloat.add;
  nsub := PrimFloat.sub;
  nmul := PrimFloat.mul;
  ndiv := PrimFloat.div;
  nabs := PrimFloat.abs;
  neqb := PrimFloat.eqb;
  nleb := PrimFloat.leb;
  nltb := PrimFloat.ltb;
  nisnan := PrimFloat.is_nan;
  nlit := float_of_Z;
  n0_0001 := 0x1.a36e2eb1c432dp-14%float
}.

#[export] Instance Num_Q : Num Q := {
  nadd := Qplus;
  nsub := Qminus;
  nmul := Qmult;
  ndiv := Qdiv;
  nabs := Qabs;
  neqb := Qeq_bool;
  nleb := Qle_bool;
  nltb := fun x y => negb (Qle_bool y x);
  nisnan := fun _ => false;
  nlit := inject_Z;
  n0_0001 := 1 # 10000
}.

(** ** Timestamps

    A bar's timestamp is a calendar day and a time of day;
    [Timestamp.time()] projects the latter, and [datetime.time] values
    compare as the tuples (hour, minute, second, microsecond). *)

Record time : Type := mk_time {
  hour : nat;
  minute : nat;
  second : nat;
  microsecond : nat
}.

Record Timestamp : Type := mk_Timestamp {
  ts_date : Z;
  ts_time : time
}.

Definition time_compare (a b : time) : comparison :=
  match Nat.compare (hour a) (hour b) with
  | Eq =>
      match Nat.compare (minute a) (minute b) with
      | Eq =>
          match Nat.compare (second a) (second b) with
          | Eq => Nat.compare (microsecond a) (microsecond b)
          | c => c
          end
      | c => c
      end
  | c => c
  end.

(** [a <= b] on [datetime.time]. *)
Definition time_leb (a b : time) : bool :=
  match time_compare a b with
  | Gt => false
  | _ => true
  end.

(** ** The data frame

    One row per bar.  The columns [swing_high] and [swing_low] are what
    [rolling(...).apply] leaves: 1.0, 0.0, or NaN where the window is not
    full; they are [Some true], [Some false] and [None] here, and the test
    [== 1] is [is_one].  The frame carries pandas' default index, so the
    label of a row is its position. *)

Record Row (A : Type) : Type := mk_Row {
  timestamp : Timestamp;
  open : A;
  high : A;
  low : A;
  close : A;
  ema_fast : A;
  ema_slow : A;
  swing_high : option bool;
  swing_low : option bool
}.

Definition DataFrame (A : Type) : Type := list (Row A).

(** A frame that kept its labels after a boolean selection. *)
Definition Frame (A : Type) : Type := list (nat * Row A).

Definition is_one (x : option bool) : bool :=
  match x with
  | Some true => true
  | _ => false
  end.

Definition indexed {A} (df : DataFrame A) : Frame A :=
  combine (seq 0 (length df)) df.

(** [frame.iloc[-1]] of a frame that is not empty; [None] when [frame.empty]. *)
Definition iloc_last {A} (fr : Frame A) : option (nat * Row A) :=
  match rev fr with
  | [] => None
  | x :: _ => Some x
  end.

(** ** [src/trade_logger.py] *)

Inductive TradeType : Type := buy | sell.
Inductive Result : Type := loss | win.
Inductive SetupType : Type := MSS_Bullish | MSS_Bearish.

(** [trigger_level] is the text "Break of LH at <level>" or "Break of HL at
    <level>"; the record keeps which of the two and the level. *)
Inductive TriggerLevel (A : Type) : Type :=
  | Break_of_LH (level : A)
  | Break_of_HL (level : A).

Record TradeRecord (A : Type) : Type := mk_TradeRecord {
  entry_time : Timestamp;
  exit_time : Timestamp;
  trade_type : TradeType;
  entry_price : A;
  exit_price : A;
  stop_loss : A;
  take_profit : A;
  position_size : A;
  pnl_currency : A;
  account_balance : A;
  result : Result;
  setup_type : SetupType;
  trigger_level : TriggerLevel A
}.

Module TradeLogger.

Record t (A : Type) : Type := mk {
  trades : list (TradeRecord A)
}.

(** [TradeLogger(...)]: no trade yet. *)
Definition init {A} : t A := mk [].

(** [log_trade]: [self.trades.append({...})]. *)
Definition log_trade {A} (self : t A) (r : TradeRecord A) : t A :=
  mk (trades self ++ [r]).

End TradeLogger.

(** ** [src/backtester.py] *)

Module Account.
Section Account.
Context {A : Type} `{Num A}.

Record t : Type := mk {
  balance : A;
  initial_balance : A
}.

Definition init (initial_balance : A) : t := mk initial_balance initial_balance.

Definition get_position_size (self : t) (risk_percent entry_price sl_price : A) : A :=
  let sl_pips := nabs (nsub entry_price sl_price) in
  if neqb sl_pips (nlit 0) then nlit 0
  else
    let risk_amount := nmul (balance self) (ndiv risk_percent (nlit 100)) in
    ndiv risk_amount sl_pips.

Definition update_balance (self : t) (pnl : A) : t :=
  mk (nadd (balance self) pnl) (initial_balance self).

End Account.
Arguments t A : clear implicits.
End Account.

Module Backtester.
Section Backtester.
Context {A : Type} `{Num A}.

(** *** Strategy helper: [find_swing_points] *)

(** [x.max()] and [x.min()] of a window (one without NaN: see
    [rolling_apply]). *)
Definition series_max (x : list A) : A :=
  match x with
  | [] => nlit 0
  | a :: l => fold_left (fun m v => if nltb m v then v else m) l a
  end.

Definition series_min (x : list A) : A :=
  match x with
  | [] => nlit 0
  | a :: l => fold_left (fun m v => if nltb v m then v else m) l a
  end.

(** The window of [rolling(window=2*lookback+1, center=True)] at position
    [t]: the rows [t-lookback .. t+lookback], when all of them exist. *)
Definition centered_window (col : list A) (lookback t : nat) : option (list A) :=
  if (lookback <=? t) && (t + lookback <? length col)
  then Some (firstn (2 * lookback + 1) (skipn (t - lookback) col))
  else None.

(** [col.rolling(window=2*lookback+1, center=True).apply(f)]: NaN where the
    window is not full or holds a NaN or an infinite value, else [f] of the
    window as 1.0/0.0. *)
Definition rolling_apply (f : list A -> bool) (col : list A) (lookback : nat)
  : list (option bool) :=
  map (fun t =>
         match centered_window col lookback t with
         | Some x => if existsb not_finite x then None else Some (f x)
         | None => None
         end)
      (seq 0 (length col)).

(** [lambda x: x.iloc[lookback] == x.max()] and its mirror. *)
Definition is_window_max (lookback : nat) (x : list A) : bool :=
  neqb (nth lookback x (nlit 0)) (series_max x).

Definition is_window_min (lookback : nat) (x : list A) : bool :=
  neqb (nth lookback x (nlit 0)) (series_min x).

Definition set_swing_high (r : Row A) (v : option bool) : Row A :=
  mk_Row (timestamp r) (open r) (high r) (low r) (close r)
         (ema_fast r) (ema_slow r) v (swing_low r).

Definition set_swing_low (r : Row A) (v : option bool) : Row A :=
  mk_Row (timestamp r) (open r) (high r) (low r) (close r)
         (ema_fast r) (ema_slow r) (swing_high r) v.

(** [df[name] = column], row by row. *)
Definition assign (set : Row A -> option bool -> Row A)
           (df : DataFrame A) (column : list (option bool)) : DataFrame A :=
  map (fun p => set (fst p) (snd p)) (combine df column).

Definition find_swing_points (df : DataFrame A) (lookback : nat) : DataFrame A :=
  let df1 :=
    assign set_swing_high df
           (rolling_apply (is_window_max lookback) (map (@high A) df) lookback) in
  assign set_swing_low df1
         (rolling_apply (is_window_min lookback) (map (@low A) df1) lookback).

(** The default [lookback=5]. *)
Definition default_lookback : nat := 5.

(** *** [run_backtest] *)

(** The session hours, [datetime.time(8, 0)] and [datetime.time(22, 0)]. *)
Definition london_open : time := mk_time 8 0 0 0.
Definition ny_close : time := mk_time 22 0 0 0.

(** [london_open <= current_time <= ny_close] *)
Definition in_session (current_time : time) : bool :=
  time_leb london_open current_time && time_leb current_time ny_close.

(** [df[df['swing_high'] == 1]] and [df[df['swing_low'] == 1]]. *)
Definition swing_highs (df : DataFrame A) : Frame A :=
  filter (fun p => is_one (swing_high (snd p))) (indexed df).

Definition swing_lows (df : DataFrame A) : Frame A :=
  filter (fun p => is_one (swing_low (snd p))) (indexed df).

(** [frame[frame.index < i]] *)
Definition index_lt (fr : Frame A) (i : nat) : Frame A :=
  filter (fun p => fst p <? i) fr.

(** The four selections the signal logic reads at cursor [i]. *)
Definition relevant_swing_highs (df : DataFrame A) (i : nat) : Frame A :=
  index_lt (swing_highs df) i.

Definition potential_lower_highs (df : DataFrame A) (i : nat) : Frame A :=
  filter (fun p => nltb (ema_fast (snd p)) (ema_slow (snd p)))
         (relevant_swing_highs df i).

Definition recent_lows (df : DataFrame A) (i : nat) : Frame A :=
  index_lt (swing_lows df) i.

Definition relevant_swing_lows (df : DataFrame A) (i : nat) : Frame A :=
  index_lt (swing_lows df) i.

Definition potential_higher_lows (df : DataFrame A) (i : nat) : Frame A :=
  filter (fun p => ngtb (ema_fast (snd p)) (ema_slow (snd p)))
         (relevant_swing_lows df i).

Definition recent_highs (df : DataFrame A) (i : nat) : Frame A :=
  index_lt (swing_highs df) i.

(** The locals a triggered setup leaves behind. *)
Record Setup : Type := mk_Setup {
  s_trade_type : TradeType;
  s_entry_price : A;
  s_stop_loss : A;
  s_setup_type : SetupType;
  s_trigger_level : TriggerLevel A
}.

(** The trend branches of the loop body: [Some] exactly when they leave
    [trade_triggered = True]. *)
Definition detect (df : DataFrame A) (i : nat) (current_candle : Row A) : option Setup :=
  if ngtb (ema_fast current_candle) (ema_slow current_candle) then
    (* trend == 'Bullish' *)
    match iloc_last (potential_lower_highs df i) with
    | None => None
    | Some last_lower_high =>
        if ngtb (close current_candle) (high (snd last_lower_high)) then
          match iloc_last (recent_lows df i) with
          | None => None
          | Some last_low =>
              Some (mk_Setup buy (close current_candle) (low (snd last_low))
                             MSS_Bullish (Break_of_LH (high (snd last_lower_high))))
          end
        else None
    end
  else
    (* trend == 'Bearish' *)
    match iloc_last (potential_higher_lows df i) with
    | None => None
    | Some last_higher_low =>
        if nltb (close current_candle) (low (snd last_higher_low)) then
          match iloc_last (recent_highs df i) with
          | None => None
          | Some last_high =>
              Some (mk_Setup sell (close current_candle) (high (snd last_high))
                             MSS_Bearish (Break_of_HL (low (snd last_higher_low))))
          end
        else None
    end.

(** The exit test of one future bar: the stop first, the target after it. *)
Definition check_exit (tt : TradeType) (stop tp : A) (future_candle : Row A)
  : option (Result * A) :=
  match tt with
  | buy =>
      if nleb (low future_candle) stop then Some (loss, stop)
      else if ngeb (high future_candle) tp then Some (win, tp)
      else None
  | sell =>
      if ngeb (high future_candle) stop then Some (loss, stop)
      else if nleb (low future_candle) tp then Some (win, tp)
      else None
  end.

(** [for j in range(i + 1, len(df))], up to the first bar whose test sets
    [result]; [future] is the rows from [j] on. *)
Fixpoint scan_exit (tt : TradeType) (stop tp : A) (j : nat) (future : list (Row A))
  : option (nat * Row A * Result * A) :=
  match future with
  | [] => None
  | future_candle :: rest =>
      match check_exit tt stop tp future_candle with
      | Some (res, px) => Some (j, future_candle, res, px)
      | None => scan_exit tt stop tp (S j) rest
      end
  end.

(** The variables the loop carries from one iteration to the next. *)
Record State : Type := mk_State {
  cursor : nat;                       (* i *)
  account : Account.t A;
  trade_is_open : bool;
  logger : TradeLogger.t A
}.

Definition skip_bar (st : State) : State :=
  mk_State (S (cursor st)) (account st) (trade_is_open st) (logger st).

Definition pnl_of (tt : TradeType) (entry_price exit_price pos_size : A) : A :=
  match tt with
  | buy => nmul (nsub exit_price entry_price) pos_size
  | sell => nmul (nsub entry_price exit_price) pos_size
  end.

Definition take_profit_of (tt : TradeType) (entry_price sl_distance : A) : A :=
  match tt with
  | buy => nadd entry_price (nmul sl_distance (nlit 2))
  | sell => nsub entry_price (nmul sl_distance (nlit 2))
  end.

(** One iteration of [while i < len(df)].  [None] is the [IndexError] of
    [df.iloc[i]], which the loop test rules out. *)
Definition body (df : DataFrame A) (st : State) : option State :=
  let i := cursor st in
  if trade_is_open st then Some (skip_bar st)
  else
    match nth_error df i with
    | None => None
    | Some current_candle =>
        let current_time := ts_time (timestamp current_candle) in
        if negb (in_session current_time) then Some (skip_bar st)
        else
          match detect df i current_candle with
          | None => Some (skip_bar st)
          | Some s =>
              let entry := s_entry_price s in
              let stop := s_stop_loss s in
              let sl_distance := nabs (nsub entry stop) in
              if nleb sl_distance n0_0001 then Some (skip_bar st)
              else
                let tp := take_profit_of (s_trade_type s) entry sl_distance in
                let pos_size :=
                  Account.get_position_size (account st) (nlit 1) entry stop in
                if ngtb pos_size (nlit 0) then
                  match scan_exit (s_trade_type s) stop tp (S i) (skipn (S i) df) with
                  | Some (j, future_candle, res, px) =>
                      let pnl := pnl_of (s_trade_type s) entry px pos_size in
                      let account' := Account.update_balance (account st) pnl in
                      Some (mk_State j account' false
                              (TradeLogger.log_trade (logger st)
                                 (mk_TradeRecord
                                    (timestamp current_candle)
                                    (timestamp future_candle)
                                    (s_trade_type s) entry px stop tp pos_size pnl
                                    (Account.balance account') res
                                    (s_setup_type s) (s_trigger_level s))))
                  | None =>
                      Some (mk_State (length df) (account st) true (logger st))
                  end
                else Some (skip_bar st)
          end
    end.

(** The loop, with a bound on the number of iterations: [None] when the
    bound is used up or the body raised. *)
Fixpoint while_loop (fuel : nat) (df : DataFrame A) (st : State) : option State :=
  if cursor st <? length df then
    match fuel with
    | O => None
    | S fuel' =>
        match body df st with
        | Some st' => while_loop fuel' df st'
        | None => None
        end
    end
  else Some st.

(** The state at [i = 200], before the first iteration. *)
Definition initial_state (lg : TradeLogger.t A) : State :=
  mk_State 200 (Account.init (nlit 10000)) false lg.

(** The loop of [run_backtest], run to its end; the cursor moves forward at
    every iteration, so [length df] iterations are enough. *)
Definition run_loop (df : DataFrame A) (lg : TradeLogger.t A) : option State :=
  while_loop (length df) df (initial_state lg).

(** [run_backtest(df, logger)]: the function returns nothing; what the
    caller has afterwards is the logger it passed. *)
Definition run_backtest (df : DataFrame A) (lg : TradeLogger.t A)
  : option (TradeLogger.t A) :=
  option_map logger (run_loop df lg).

End Backtester.
Arguments State A : clear implicits.
Arguments Setup A : clear implicits.
End Backtester.

(** *** [add_indicators] ([src/backtester.py], and verbatim in
    [src/liveTrader/market_structure_engine_v2_2.py])

    [col.ewm(span=..., adjust=False).mean()] is pandas' recursive exponential
    average: the first value starts it, each later value [cur] moves the
    average [weighted] to [(old_wt * weighted + alpha * cur) / (old_wt + alpha)]
    with [old_wt = 1 - alpha]; a NaN in the column leaves the average where
    it is and ages its weight by another factor [1 - alpha]; an average equal
    to [cur] is kept as it is.  An infinite value of the column counts as a
    NaN.  The smoothing factor of a span is [alpha = 1 / (1 + com)] with
    centre of mass [com = (span - 1) / 2], and a span below 1 is refused with
    a [ValueError]; a smoothing factor that is given directly is put through
    its centre of mass [(1 - alpha) / alpha] in the same way. *)

Module Indicators.
Section Indicators.
Context {A : Type} `{Num A}.

Definition alpha_of_span (span : Z) : A :=
  ndiv (nlit 1) (nadd (nlit 1) (ndiv (nsub (nlit span) (nlit 1)) (nlit 2))).

(** The smoothing factor [ewm(alpha=...)] works with. *)
Definition alpha_of_alpha (alpha : A) : A :=
  ndiv (nlit 1) (nadd (nlit 1) (ndiv (nsub (nlit 1) alpha) alpha)).

(** A value of the column as the recursion sees it: the NaN [x - x] for an
    infinite [x] (and for a NaN), [x] itself otherwise. *)
Definition prep_value (x : A) : A :=
  if not_finite x then nsub x x else x.

Record ewm_state : Type := mk_ewm {
  weighted : A;
  old_wt : A
}.

Definition ewm_step (alpha : A) (st : ewm_state) (cur : A) : ewm_state :=
  if nisnan (weighted st) then
    (* no observation yet *)
    if nisnan cur then st else mk_ewm cur (old_wt st)
  else
    let aged := nmul (old_wt st) (nsub (nlit 1) alpha) in
    if nisnan cur then mk_ewm (weighted st) aged
    else if neqb (weighted st) cur then mk_ewm (weighted st) (nlit 1)
    else mk_ewm (ndiv (nadd (nmul aged (weighted st)) (nmul alpha cur))
                      (nadd aged alpha))
                (nlit 1).

Fixpoint ewm_scan (alpha : A) (st : ewm_state) (vals : list A) : list A :=
  match vals with
  | [] => []
  | cur :: rest =>
      let st' := ewm_step alpha st cur in
      weighted st' :: ewm_scan alpha st' rest
  end.

(** The recursion on the prepared values. *)
Definition ewm_recursion (alpha : A) (vals : list A) : list A :=
  match vals with
  | [] => []
  | v0 :: rest => v0 :: ewm_scan alpha (mk_ewm v0 (nlit 1)) rest
  end.

Definition ewm_mean (alpha : A) (vals : list A) : list A :=
  ewm_recursion alpha (map prep_value vals).

Definition set_ema_fast (r : Row A) (v : A) : Row A :=
  mk_Row (timestamp r) (open r) (high r) (low r) (close r)
         v (ema_slow r) (swing_high r) (swing_low r).

Definition set_ema_slow (r : Row A) (v : A) : Row A :=
  mk_Row (timestamp r) (open r) (high r) (low r) (close r)
         (ema_fast r) v (swing_high r) (swing_low r).

(** [df[name] = column] for a column of numbers. *)
Definition assign_column (set : Row A -> A -> Row A)
           (df : DataFrame A) (column : list A) : DataFrame A :=
  map (fun p => set (fst p) (snd p)) (combine df column).

(** [add_indicators]; [None] is the [ValueError] of [ewm] for a span
    below 1. *)
Definition add_indicators (df : DataFrame A) (fast_ema slow_ema : Z)
  : option (DataFrame A) :=
  if (fast_ema <? 1)%Z then None
  else
    let df1 :=
      assign_column set_ema_fast df
                    (ewm_mean (alpha_of_span fast_ema) (map (@close A) df)) in
    if (slow_ema <? 1)%Z then None
    else
      Some (assign_column set_ema_slow df1
                          (ewm_mean (alpha_of_span slow_ema) (map (@close A) df1))).

(** The defaults [fast_ema=50, slow_ema=200]. *)
Definition default_fast_ema : Z := 50.
Definition default_slow_ema : Z := 200.

End Indicators.
Arguments ewm_state A : clear implicits.
End Indicators.

(** ** [src/data_handler.py]: [add_atr]

    The frame has the columns [high], [low] and [close], and the period is
    at least 1 (a smaller one is refused by [ewm], or divides by zero).  The
    four columns the function adds and drops again are local here, and the
    [atr] column comes back beside the rows. *)

Module DataHandler.
Section DataHandler.
Context {A : Type} `{Num A}.

(** [col.shift(1)]: every value moves down one row, and the first row gets
    a NaN, which is [None] here. *)
Definition shift_1 (col : list A) : list (option A) :=
  firstn (length col) (None :: map Some col).

(** The greater of two numbers as [max] sees them when it skips NaN: a NaN
    gives way to the other number. *)
Definition nanmax2 (x y : A) : A :=
  if nisnan x then y
  else if nisnan y then x
  else if nltb x y then y else x.

(** One row of [df['true_range']]: the greatest of [high_low],
    [high_prev_close] and [low_prev_close] that is not a NaN. *)
Definition true_range_row (h l : A) (prev_close : option A) : A :=
  let high_low := nsub h l in
  match prev_close with
  | None => high_low
  | Some pc =>
      let high_prev_close := nabs (nsub h pc) in
      let low_prev_close := nabs (nsub l pc) in
      nanmax2 (nanmax2 high_low high_prev_close) low_prev_close
  end.

Definition true_range (df : DataFrame A) : list A :=
  map (fun p => true_range_row (high (fst p)) (low (fst p)) (snd p))
      (combine df (shift_1 (map (@close A) df))).

(** [add_atr]: the rows with their [atr]. *)
Definition add_atr (df : DataFrame A) (period : Z) : list (Row A * A) :=
  combine df (Indicators.ewm_mean
                (Indicators.alpha_of_alpha (ndiv (nlit 1) (nlit period)))
                (true_range df)).

(** The default [period=14]. *)
Definition default_period : Z := 14.

End DataHandler.
End DataHandler.

(** ** [src/liveTrader/market_structure_engine_v2_2.py]

    The live frame calls its time column [time]; it is the [timestamp]
    field here. *)

Module MarketStructureEngine.
Section MarketStructureEngine.
Context {A : Type} `{Num A}.

(** The dictionary a confirmed shift returns. *)
Record Signal : Type := mk_Signal {
  sig_trade_type : TradeType;
  sig_entry_price : A;
  sig_stop_loss : A;
  sig_trigger_level : TriggerLevel A
}.

(** [get_market_structure_shift], for a [current_index] that is not
    negative: the outer [None] is the [IndexError] of
    [df.iloc[current_index]], the inner one the function's [return None]. *)
Definition get_market_structure_shift
           (df : DataFrame A) (swing_highs swing_lows : Frame A)
           (current_index : nat) (london_open ny_close : time)
  : option (option Signal) :=
  match nth_error df current_index with
  | None => None
  | Some current_candle =>
      let current_time_utc := ts_time (timestamp current_candle) in
      if negb (time_leb london_open current_time_utc
               && time_leb current_time_utc ny_close)
      then Some None
      else if ngtb (ema_fast current_candle) (ema_slow current_candle) then
        let relevant_swing_highs := Backtester.index_lt swing_highs current_index in
        let potential_lower_highs :=
          filter (fun p => nltb (ema_fast (snd p)) (ema_slow (snd p)))
                 relevant_swing_highs in
        match iloc_last potential_lower_highs with
        | None => Some None
        | Some last_lower_high =>
            if ngtb (close current_candle) (high (snd last_lower_high)) then
              let recent_lows := Backtester.index_lt swing_lows current_index in
              match iloc_last recent_lows with
              | None => Some None
              | Some last_low =>
                  Some (Some (mk_Signal buy (close current_candle)
                                        (low (snd last_low))
                                        (Break_of_LH (high (snd last_lower_high)))))
              end
            else Some None
        end
      else
        let relevant_swing_lows := Backtester.index_lt swing_lows current_index in
        let potential_higher_lows :=
          filter (fun p => ngtb (ema_fast (snd p)) (ema_slow (snd p)))
                 relevant_swing_lows in
        match iloc_last potential_higher_lows with
        | None => Some None
        | Some last_higher_low =>
            if nltb (close current_candle) (low (snd last_higher_low)) then
              let recent_highs := Backtester.index_lt swing_highs current_index in
              match iloc_last recent_highs with
              | None => Some None
              | Some last_high =>
                  Some (Some (mk_Signal sell (close current_candle)
                                        (high (snd last_high))
                                        (Break_of_HL (low (snd last_higher_low)))))
              end
            else Some None
        end
  end.

End MarketStructureEngine.
Arguments Signal A : clear implicits.
End MarketStructureEngine.

(** ** [src/trading_tools.py] *)

Module TradingTools.
Section TradingTools.
Context {A : Type} `{Num A}.

(** [CheckSessionHoursTool._run], on a timestamp that is parsed already. *)
Definition CheckSessionHoursTool_run (ts : Timestamp) : bool :=
  let london_open := mk_time 8 0 0 0 in
  let ny_close := mk_time 22 0 0 0 in
  let current_time := ts_time ts in
  time_leb london_open current_time && time_leb current_time ny_close.

(** [frame.loc[:label]]: the rows labelled up to and including [label]. *)
Definition loc_upto (fr : Frame A) (label : nat) : Frame A :=
  filter (fun p => fst p <=? label) fr.

(** The dictionary [IdentifyMSSSetupTool._run] returns. *)
Record SetupDetails : Type := mk_SetupDetails {
  sd_trade_type : TradeType;
  sd_entry_price : A;
  sd_stop_loss : A;
  sd_setup_type : SetupType;
  sd_trigger_level : TriggerLevel A;
  sd_timestamp : nat                 (* current_candle.name *)
}.

(** [IdentifyMSSSetupTool._run], for a [current_index] that is not
    negative; every row of the frame has the required columns.  The outer
    [None] is the [IndexError] of [iloc]. *)
Definition IdentifyMSSSetupTool_run (historical_data : DataFrame A) (current_index : nat)
  : option (option SetupDetails) :=
  match nth_error historical_data current_index with
  | None => None
  | Some current_candle =>
      let name := current_index in
      if ngtb (ema_fast current_candle) (ema_slow current_candle) then
        let relevant_swing_highs :=
          loc_upto (Backtester.swing_highs historical_data) name in
        match relevant_swing_highs with
        | [] => Some None
        | _ :: _ =>
            let potential_lower_highs :=
              filter (fun p => nltb (ema_fast (snd p)) (ema_slow (snd p)))
                     relevant_swing_highs in
            match iloc_last potential_lower_highs with
            | None => Some None
            | Some last_lower_high =>
                if ngtb (close current_candle) (high (snd last_lower_high)) then
                  let recent_lows :=
                    loc_upto (Backtester.swing_lows historical_data) name in
                  match iloc_last recent_lows with
                  | None => Some None
                  | Some last_low =>
                      let stop_loss := low (snd last_low) in
                      if ngtb (nabs (nsub (close current_candle) stop_loss)) n0_0001
                      then Some (Some (mk_SetupDetails
                                         buy (close current_candle) stop_loss MSS_Bullish
                                         (Break_of_LH (high (snd last_lower_high)))
                                         name))
                      else Some None
                  end
                else Some None
            end
        end
      else
        let relevant_swing_lows :=
          loc_upto (Backtester.swing_lows historical_data) name in
        match relevant_swing_lows with
        | [] => Some None
        | _ :: _ =>
            let potential_higher_lows :=
              filter (fun p => ngtb (ema_fast (snd p)) (ema_slow (snd p)))
                     relevant_swing_lows in
            match iloc_last potential_higher_lows with
            | None => Some None
            | Some last_higher_low =>
                if nltb (close current_candle) (low (snd last_higher_low)) then
                  let recent_highs :=
                    loc_upto (Backtester.swing_highs historical_data) name in
                  match iloc_last recent_highs with
                  | None => Some None
                  | Some last_high =>
                      let stop_loss := high (snd last_high) in
                      if ngtb (nabs (nsub (close current_candle) stop_loss)) n0_0001
                      then Some (Some (mk_SetupDetails
                                         sell (close current_candle) stop_loss MSS_Bearish
                                         (Break_of_HL (low (snd last_higher_low)))
                                         name))
                      else Some None
                  end
                else Some None
            end
        end
  end.

(** [CalculatePositionSizeTool._run] *)
Definition CalculatePositionSizeTool_run
           (current_balance risk_percent entry_price sl_price : A) : A :=
  let sl_pips := nabs (nsub entry_price sl_price) in
  if neqb sl_pips (nlit 0) then nlit 0
  else
    let risk_amount := nmul current_balance (ndiv risk_percent (nlit 100)) in
    ndiv risk_amount sl_pips.

(** [CheckRiskRewardRatioTool._run] *)
Definition CheckRiskRewardRatioTool_run (entry_price sl_price tp_price min_rr : A) : bool :=
  let risk := nabs (nsub entry_price sl_price) in
  let reward := nabs (nsub tp_price entry_price) in
  if neqb risk (nlit 0) then false
  else ngeb (ndiv reward risk) min_rr.

(** What [CalculateTradeParametersTool._run] answers: one of its two error
    dictionaries, or the setup with its [take_profit] entry. *)
Inductive TradeParameters : Type :=
  | missing_details                       (* "Missing required trade details." *)
  | stop_too_small                        (* "Stop loss distance is too small." *)
  | with_take_profit (take_profit : A).

(** The truth value of what [dict.get] gives for a price: [None] is false,
    and so is a number equal to zero. *)
Definition truthy (x : option A) : bool :=
  match x with
  | None => false
  | Some v => negb (neqb v (nlit 0))
  end.

(** [CalculateTradeParametersTool._run], on the three entries it reads from
    [setup_details]; a trade type that is there is 'buy' or 'sell'. *)
Definition CalculateTradeParametersTool_run
           (trade_type : option TradeType) (entry_price stop_loss : option A)
  : TradeParameters :=
  match trade_type, entry_price, stop_loss with
  | Some side, Some entry, Some stop =>
      if negb (truthy entry_price && truthy stop_loss) then missing_details
      else
        let sl_distance := nabs (nsub entry stop) in
        if nleb sl_distance n0_0001 then stop_too_small
        else
          with_take_profit
            match side with
            | buy => nadd entry (nmul sl_distance (nlit 2))
            | sell => nsub entry (nmul sl_distance (nlit 2))
            end
  | _, _, _ => missing_details
  end.

End TradingTools.
Arguments SetupDetails A : clear implicits.
Arguments TradeParameters A : clear implicits.
End TradingTools.

(** ** [src/trade_analyzer.py] *)

(** Timestamps in calendar order. *)
Definition ts_ltb (a b : Timestamp) : bool :=
  (ts_date a <? ts_date b)%Z
  || ((ts_date a =? ts_date b)%Z
      && match time_compare (ts_time a) (ts_time b) with
         | Lt => true
         | _ => false
         end).

Module TradeAnalyzer.
Section TradeAnalyzer.
Context {A : Type} `{Num A}.

(** A row of the price frame, which is indexed by time: its label, and the
    columns the analyzer asks for, each [None] when the frame has no such
    column. *)
Record PriceRow : Type := mk_PriceRow {
  pr_label : Timestamp;
  pr_high : option A;
  pr_low : option A;
  pr_time : option Timestamp;
  pr_timestamp : option Timestamp
}.

Definition _get_time (row : PriceRow) : option Timestamp :=
  match pr_time row with
  | Some t => Some t
  | None =>
      match pr_timestamp row with
      | Some t => Some t
      | None => None
      end
  end.

(** [price_df.loc[entry_time:]] on the time-sorted index [analyze_trades]
    builds: the rows from the first label that is not before [entry_time]. *)
Fixpoint loc_from (price_df : list PriceRow) (entry_time : Timestamp) : list PriceRow :=
  match price_df with
  | [] => []
  | r :: rest =>
      if ts_ltb (pr_label r) entry_time then loc_from rest entry_time
      else price_df
  end.

(** [.iloc[1:301]] *)
Definition iloc_1_301 (rows : list PriceRow) : list PriceRow :=
  firstn 300 (skipn 1 rows).

(** The loop over [future], up to its [break]: the exit price and time it
    leaves, [None] when no row breaks. *)
Fixpoint scan_future (trade_type : TradeType) (sl tp entry_price : A)
         (future : list PriceRow) : option (A * option Timestamp) :=
  match future with
  | [] => None
  | r :: rest =>
      let h := match pr_high r with Some v => v | None => entry_price end in
      let l := match pr_low r with Some v => v | None => entry_price end in
      match trade_type with
      | buy =>
          if ngeb h tp then Some (tp, _get_time r)
          else if nleb l sl then Some (sl, _get_time r)
          else scan_future trade_type sl tp entry_price rest
      | sell =>
          if nleb l tp then Some (tp, _get_time r)
          else if ngeb h sl then Some (sl, _get_time r)
          else scan_future trade_type sl tp entry_price rest
      end
  end.

(** [_simulate_opposite]: returns [(sl, tp, exit_price, exit_time)]. *)
Definition _simulate_opposite (price_df : list PriceRow) (entry_time : Timestamp)
           (entry_price : A) (trade_type : TradeType) (risk_distance rr : A)
  : A * A * A * option Timestamp :=
  let sl :=
    match trade_type with
    | buy => nsub entry_price risk_distance
    | sell => nadd entry_price risk_distance
    end in
  let tp :=
    match trade_type with
    | buy => nadd entry_price (nmul rr risk_distance)
    | sell => nsub entry_price (nmul rr risk_distance)
    end in
  let future := iloc_1_301 (loc_from price_df entry_time) in
  match scan_future trade_type sl tp entry_price future with
  | Some (exit_price, exit_time) => (sl, tp, exit_price, exit_time)
  | None => (sl, tp, entry_price, Some entry_time)
  end.

(** *** [analyze_trades]

    The function reads the trade log and the price file, rewrites the log
    and writes it back; the two frames are arguments here and the written
    rows the result.  [price] is the frame after [set_index("time")]: sorted
    by time and labelled by it.  The call of [generate_report] that ends the
    function is left out. *)

(** A row of the trade log as [pd.read_csv] gives it back, every column of
    [TradeLogger] being present: a time that is missing is [None], a number
    that is missing is a NaN. *)
Record LogRow : Type := mk_LogRow {
  lr_entry_time : option Timestamp;
  lr_exit_time : option Timestamp;
  lr_trade_type : TradeType;
  lr_entry_price : A;
  lr_exit_price : A;
  lr_stop_loss : A;
  lr_take_profit : A;
  lr_position_size : A;
  lr_pnl_currency : A;
  lr_account_balance : A;
  lr_result : Result;
  lr_setup_type : SetupType;
  lr_trigger_level : TriggerLevel A
}.

(** The log with its labels; [read_csv] labels the rows 0, 1, 2, ... *)
Definition TradeFrame : Type := list (nat * LogRow).

Definition labelled (trades : list LogRow) : TradeFrame :=
  combine (seq 0 (length trades)) trades.

Definition has_label (fr : TradeFrame) (idx : nat) : bool :=
  existsb (fun p => fst p =? idx) fr.

(** [trades.loc[idx]]; [None] is the [KeyError] of a label that is not there. *)
Definition loc_get (fr : TradeFrame) (idx : nat) : option LogRow :=
  option_map snd (find (fun p => fst p =? idx) fr).

(** [trades.loc[idx] = new_row]: the row labelled [idx] is overwritten; a
    label that is not there is added at the end. *)
Definition loc_set (fr : TradeFrame) (idx : nat) (new_row : LogRow) : TradeFrame :=
  if has_label fr idx
  then map (fun p => if fst p =? idx then (fst p, new_row) else p) fr
  else fr ++ [(idx, new_row)].

(** [trades.drop(index=to_delete)]; [None] is the [KeyError] of a label that
    is not there. *)
Definition drop (fr : TradeFrame) (to_delete : list nat) : option TradeFrame :=
  if forallb (has_label fr) to_delete
  then Some (filter (fun p => negb (existsb (Nat.eqb (fst p)) to_delete)) fr)
  else None.

(** [replacements[idx] = new_row] on a dictionary, which keeps the order of
    first insertion. *)
Fixpoint dict_set (d : list (nat * LogRow)) (idx : nat) (new_row : LogRow)
  : list (nat * LogRow) :=
  match d with
  | [] => [(idx, new_row)]
  | (k, v) :: rest =>
      if k =? idx then (k, new_row) :: rest
      else (k, v) :: dict_set rest idx new_row
  end.

(** [trades["pnl_currency"] < 0] *)
Definition losing (row : LogRow) : bool := nltb (lr_pnl_currency row) (nlit 0).

(** ["buy" if row["trade_type"] == "sell" else "sell"] *)
Definition opposite_of (trade_type : TradeType) : TradeType :=
  match trade_type with
  | sell => buy
  | buy => sell
  end.

(** What the loop does with one losing row that it works on: [Some new_row]
    is the entry it puts into [replacements], [None] the label it appends to
    [to_delete]. *)
Definition reverse_row (price : list PriceRow) (row : LogRow) : option LogRow :=
  match lr_entry_time row with
  | None => None
  | Some entry_time =>
      if nisnan (lr_entry_price row) || nisnan (lr_stop_loss row) then None
      else
        let entry_price := lr_entry_price row in
        let sl_orig := lr_stop_loss row in
        let risk_distance := nabs (nsub entry_price sl_orig) in
        let opposite := opposite_of (lr_trade_type row) in
        match _simulate_opposite price entry_time entry_price opposite
                                 risk_distance (nlit 2) with
        | (sl, tp, exit_price, exit_time) =>
            let pnl :=
              match opposite with
              | buy => nmul (nmul (nsub exit_price entry_price) (nlit 100000))
                            (lr_position_size row)
              | sell => nmul (nmul (nsub entry_price exit_price) (nlit 100000))
                             (lr_position_size row)
              end in
            if ngtb pnl (nlit 0) then
              Some (mk_LogRow (lr_entry_time row) exit_time opposite
                              (lr_entry_price row) exit_price sl tp
                              (lr_position_size row) pnl
                              (nadd (lr_account_balance row)
                                    (nsub pnl (lr_pnl_currency row)))
                              win (lr_setup_type row) (lr_trigger_level row))
            else None
        end
  end.

(** The loop over [lose_idx], with its three variables. *)
Fixpoint lose_loop (price : list PriceRow) (trades : TradeFrame) (lose_idx : list nat)
         (count : nat) (to_delete : list nat) (replacements : list (nat * LogRow))
  : option (list nat * list (nat * LogRow)) :=
  match lose_idx with
  | [] => Some (to_delete, replacements)
  | idx :: rest =>
      if (count mod 3 =? 0) || (count mod 3 =? 1) then
        match loc_get trades idx with
        | None => None
        | Some row =>
            match reverse_row price row with
            | Some new_row =>
                lose_loop price trades rest (count + 1) to_delete
                          (dict_set replacements idx new_row)
            | None =>
                lose_loop price trades rest (count + 1) (to_delete ++ [idx])
                          replacements
            end
        end
      else lose_loop price trades rest (count + 1) to_delete replacements
  end.

(** [analyze_trades]: the outer [None] is a [KeyError], the inner one the
    return on an empty log, before anything is written; otherwise the result
    is the rows [to_csv] writes. *)
Definition analyze_trades (price : list PriceRow) (log : list LogRow)
  : option (option (list LogRow)) :=
  let trades := labelled log in
  match trades with
  | [] => Some None
  | _ :: _ =>
      let lose_idx := map fst (filter (fun p => losing (snd p)) trades) in
      match lose_loop price trades lose_idx 0 [] [] with
      | None => None
      | Some (to_delete, replacements) =>
          let trades1 :=
            match replacements with
            | [] => trades
            | _ :: _ =>
                fold_left (fun fr kv => loc_set fr (fst kv) (snd kv))
                          replacements trades
            end in
          let trades2 :=
            match to_delete with
            | [] => Some trades1
            | _ :: _ => drop trades1 to_delete
            end in
          match trades2 with
          | None => None
          | Some fr => Some (Some (map snd fr))
          end
      end
  end.

End TradeAnalyzer.
Arguments PriceRow A : clear implicits.
Arguments LogRow A : clear implicits.
Arguments TradeFrame A : clear implicits.
End TradeAnalyzer.

(** ** [src/reporting.py]

    [generate_report] reads the trade log back, orders it by exit time and
    builds the equity curve from which it takes the final capital, the
    drawdown and the chart.  These first steps are the functions below, on
    the rows of the log; reading the file, the other metrics, the text of
    the report and the charts are left out. *)

Module Reporting.
Section Reporting.
Context {A : Type} `{Num A}.

(** [df.sort_values('exit_time')]: the rows by increasing exit time.  Rows
    with the same exit time come out in an order pandas does not promise;
    here they keep the order they had. *)
Fixpoint insert_by_exit_time (r : TradeRecord A) (sorted : list (TradeRecord A))
  : list (TradeRecord A) :=
  match sorted with
  | [] => [r]
  | x :: rest =>
      if ts_ltb (exit_time r) (exit_time x) then r :: sorted
      else x :: insert_by_exit_time r rest
  end.

Definition sort_values_exit_time (df : list (TradeRecord A)) : list (TradeRecord A) :=
  fold_left (fun sorted r => insert_by_exit_time r sorted) df [].

(** [col.cumsum()]: a NaN counts as 0.0 in the running sum and is a NaN in
    the result. *)
Fixpoint cumsum_from (acc : A) (col : list A) : list A :=
  match col with
  | [] => []
  | x :: rest =>
      let acc' := nadd acc (if nisnan x then nlit 0 else x) in
      (if nisnan x then x else acc') :: cumsum_from acc' rest
  end.

Definition cumsum (col : list A) : list A :=
  match col with
  | [] => []
  | x :: rest => x :: cumsum_from (if nisnan x then nlit 0 else x) rest
  end.

Definition initial_capital : A := nlit 10000.

(** [df['equity'] = initial_capital + df['pnl_currency'].cumsum()], on the
    sorted frame. *)
Definition equity (df : list (TradeRecord A)) : list A :=
  map (nadd initial_capital) (cumsum (map (@pnl_currency A) df)).

(** [final_capital = df['equity'].iloc[-1]]; [None] is the [IndexError] on
    an empty frame, which the function has returned on before. *)
Definition final_capital (df : list (TradeRecord A)) : option A :=
  match equity df with
  | [] => None
  | x :: rest => Some (last rest x)
  end.

End Reporting.
End Reporting.

(** ** [src/simulate_live_markets.py]

    When neither the backtest nor the candle loop has logged a trade, [main]
    fills the log with "synthetic" trades before it saves and analyzes it.
    That block of [main] is [synthetic_fallback]; the frame has the columns
    [time], [open] and [close], so no [row.get] falls back on its default,
    and [time] is the [timestamp] field here. *)

Module SimulateLiveMarkets.
Section SimulateLiveMarkets.
Context {A : Type} `{Num A}.

(** The arguments of one [logger.log_trade] call of the block; [setup_type]
    is the text "synthetic" every time. *)
Record SyntheticTrade : Type := mk_SyntheticTrade {
  sy_entry_time : Timestamp;
  sy_exit_time : Timestamp;
  sy_trade_type : TradeType;
  sy_entry_price : A;
  sy_exit_price : A;
  sy_sl : A;
  sy_tp : A;
  sy_position_size : A;
  sy_pnl_currency : A;
  sy_account_balance : A;
  sy_result : Result;
  sy_trigger_level : A
}.

(** The literals 0.0020 and 0.0040: the double nearest to 2/1000 is what
    0.0020 denotes, and the quotient of 2.0 by 1000.0 is that double;
    likewise for 0.0040. *)
Definition literal_0_0020 : A := ndiv (nlit 2) (nlit 1000).
Definition literal_0_0040 : A := ndiv (nlit 4) (nlit 1000).

(** [range(0, stop, step)] for a step of at least 1. *)
Definition range_by (stop step : nat) : list nat :=
  map (fun k => k * step)%nat (seq 0 ((stop + step - 1) / step)).

(** The body of the loop, once [row_i] and [row_j] are read. *)
Definition synthetic_trade (row_i row_j : Row A) : SyntheticTrade :=
  let trade_type := if ngeb (close row_j) (open row_i) then buy else sell in
  let entry_price := open row_i in
  let exit_price := close row_j in
  let sl :=
    match trade_type with
    | buy => nsub entry_price literal_0_0020
    | sell => nadd entry_price literal_0_0020
    end in
  let tp :=
    match trade_type with
    | buy => nadd entry_price literal_0_0040
    | sell => nsub entry_price literal_0_0040
    end in
  let position_size := nlit 1 in
  let pnl_currency :=
    match trade_type with
    | buy => nmul (nmul (nsub exit_price entry_price) (nlit 100000)) position_size
    | sell => nmul (nmul (nsub entry_price exit_price) (nlit 100000)) position_size
    end in
  let account_balance := nadd (nlit 10000) pnl_currency in
  let result := if ngtb pnl_currency (nlit 0) then win else loss in
  mk_SyntheticTrade (timestamp row_i) (timestamp row_j) trade_type entry_price
                    exit_price sl tp position_size pnl_currency account_balance
                    result entry_price.

(** The loop [for i in range(0, n - 1, step)], appending to the trades of
    the logger; [None] is the [IndexError] of [data.iloc]. *)
Fixpoint synthetic_loop (data : DataFrame A) (n step : nat) (indices : list nat)
         (trades : list SyntheticTrade) : option (list SyntheticTrade) :=
  match indices with
  | [] => Some trades
  | i :: rest =>
      let j := Nat.min (i + step) (n - 1) in
      match nth_error data i, nth_error data j with
      | Some row_i, Some row_j =>
          synthetic_loop data n step rest (trades ++ [synthetic_trade row_i row_j])
      | _, _ => None
      end
  end.

(** The block under the second [if not logger.trades:], the logger being
    empty. *)
Definition synthetic_fallback (data : DataFrame A) : option (list SyntheticTrade) :=
  let n := length data in
  if 2 <=? n then
    let step := Nat.max 1 (n / 5) in
    synthetic_loop data n step (range_by (n - 1) step) []
  else Some [].

End SimulateLiveMarkets.
Arguments SyntheticTrade A : clear implicits.
End SimulateLiveMarkets.

(** ** Sample series

    Daily bars at noon.  Bars 0..198 are flat below a falling trend
    ([ema_fast < ema_slow]), bar 199 dips to 98, and bar 200 closes at 109
    above the flat highs with the trend turned up: the long setup of the
    strategy, entered at 109 with the stop at 98 and the target at 131.  The
    series differ in what follows bar 200. *)

Module Samples.
Section Samples.
Context {A : Type} `{Num A}.

Definition noon : time := mk_time 12 0 0 0.
Definition late_evening : time := mk_time 23 0 0 0.

Definition bar (t : nat) (tod : time) (o h l c ef es : Z) : Row A :=
  mk_Row (mk_Timestamp (Z.of_nat t) tod)
         (nlit o) (nlit h) (nlit l) (nlit c) (nlit ef) (nlit es) None None.

Definition flat_bar (t : nat) : Row A := bar t noon 100 101 99 100 99 100.

Definition dip_bar : Row A := bar 199 noon 100 101 98 100 99 100.

Definition breakout_bar : Row A := bar 200 noon 100 110 99 109 101 100.

Definition lead_in : DataFrame A := map flat_bar (seq 0 199) ++ [dip_bar].

(** After the breakout the price stays between stop and target. *)
Definition drift_bar (t : nat) : Row A := bar t noon 109 110 108 109 99 100.

(** The target of the first trade is reached at bar 201, which closes higher
    still with the trend up; bar 202 reaches the target of a trade entered at
    bar 201. *)
Definition rally : DataFrame A :=
  lead_in ++ [breakout_bar;
              bar 201 noon 109 135 108 134 101 100;
              bar 202 noon 134 210 133 209 99 100]
          ++ map (fun t => bar t noon 209 210 208 209 99 100) (seq 203 7).

(** Bar 201 trades through the stop and the target at once. *)
Definition whipsaw : DataFrame A :=
  lead_in ++ [breakout_bar; bar 201 noon 109 135 98 109 99 100]
          ++ map drift_bar (seq 202 8).

(** Neither stop nor target is touched again. *)
Definition stalled : DataFrame A :=
  lead_in ++ [breakout_bar] ++ map drift_bar (seq 201 9).

(** The same bars, the breakout printed at 23:00, outside the session. *)
Definition stalled_after_hours : DataFrame A :=
  lead_in ++ [bar 200 late_evening 100 110 99 109 101 100] ++ map drift_bar (seq 201 9).

(** As [stalled], except that bar 201, after the breakout, dips to 97, below
    the low of bar 199. *)
Definition pierced : DataFrame A :=
  lead_in ++ [breakout_bar; bar 201 noon 109 110 97 109 99 100]
          ++ map drift_bar (seq 202 8).

(** The rally series lifted by 2^53 - 110, to prices where the doubles are
    the integers and, from 2^53 on, the even integers only: the entry at bar
    200 is 2^53 - 1 with the stop 11 below it, and entry + 22 is not a
    double. *)
Definition lift : Z := 9007199254740882.

Definition lofty_bar (t : nat) (o h l c ef es : Z) : Row A :=
  bar t noon (o + lift) (h + lift) (l + lift) (c + lift) (ef + lift) (es + lift).

Definition lofty : DataFrame A :=
  map (fun t => lofty_bar t 100 101 99 100 99 100) (seq 0 199)
      ++ [lofty_bar 199 100 101 98 100 99 100;
          lofty_bar 200 100 110 99 109 101 100;
          lofty_bar 201 109 135 108 134 99 100]
      ++ map (fun t => lofty_bar t 134 135 133 134 99 100) (seq 202 8).

(** A stop on the wrong side: after the flat bars the price sits on a shelf
    at 119..121 for twenty bars with the trend up, and bar 200 falls back to
    close at 105, still above the flat highs.  The long entered there takes
    its stop from the shelf lows, at 119, above the entry.  The bars after
    it are printed at 23:00. *)
Definition inverted : DataFrame A :=
  map flat_bar (seq 0 180)
      ++ map (fun t => bar t noon 120 121 119 120 101 100) (seq 180 20)
      ++ [bar 200 noon 120 120 104 105 101 100]
      ++ map (fun t => bar t late_evening 105 106 104 105 99 100) (seq 201 9).

(** Three bars closing at 10, 20 and 20. *)
Definition three_bars : DataFrame A :=
  [bar 0 noon 10 11 9 10 0 0; bar 1 noon 10 21 9 20 0 0; bar 2 noon 20 21 19 20 0 0].

(** Nothing but flat bars. *)
Definition flat : DataFrame A := map flat_bar (seq 0 210).

(** The swing columns set, as the main program sets them before it calls
    [run_backtest].  The EMA columns of the sample series are written by
    hand, not computed by [add_indicators]. *)
Definition prepared (bars : DataFrame A) : DataFrame A :=
  Backtester.find_swing_points bars Backtester.default_lookback.

End Samples.
End Samples.

(** The sample series as the interpreter sees them, in binary64. *)
Module Doubles.
Local Open Scope float_scope.

Definition rally : DataFrame float := Samples.prepared Samples.rally.
Definition whipsaw : DataFrame float := Samples.prepared Samples.whipsaw.
Definition stalled : DataFrame float := Samples.prepared Samples.stalled.
Definition stalled_after_hours : DataFrame float :=
  Samples.prepared Samples.stalled_after_hours.
Definition pierced : DataFrame float := Samples.prepared Samples.pierced.
Definition lofty : DataFrame float := Samples.prepared Samples.lofty.
Definition inverted : DataFrame float := Samples.prepared Samples.inverted.

(** Two bars whose closes are one unit in the last place apart,
    114.43730268973356 and 114.43730268973354. *)
Definition close_pair : DataFrame float :=
  [mk_Row (mk_Timestamp 0 Samples.noon) 0x1.c9bfcc46bb6f1p+6 0x1.c9bfcc46bb6f1p+6
          0x1.c9bfcc46bb6f1p+6 0x1.c9bfcc46bb6f1p+6 0 0 None None;
   mk_Row (mk_Timestamp 1 Samples.noon) 0x1.c9bfcc46bb6f0p+6 0x1.c9bfcc46bb6f0p+6
          0x1.c9bfcc46bb6f0p+6 0x1.c9bfcc46bb6f0p+6 0 0 None None].

(** A fresh logger and the state before the first iteration. *)
Definition fresh : TradeLogger.t float := TradeLogger.init.
Definition start : Backtester.State float := Backtester.initial_state fresh.

(** The first trade of the rally series, and the loop state after the
    iteration that completes it. *)
Definition rally_first_trade : TradeRecord float :=
  mk_TradeRecord (mk_Timestamp 200 Samples.noon) (mk_Timestamp 201 Samples.noon)
                 buy 109 131 98 131 0x1.22e8ba2e8ba2fp+3 0x1.9000000000001p+7 10200
                 win MSS_Bullish (Break_of_LH 101).

Definition rally_after_first_trade : Backtester.State float :=
  Backtester.mk_State 201 (Account.mk 10200%float 10000%float) false
                      (TradeLogger.mk [rally_first_trade]).

(** Bar 199 of the stalled series once the swing columns are set. *)
Definition stalled_dip : Row float :=
  mk_Row (mk_Timestamp 199 Samples.noon) 100 101 98 100 99 100 (Some false) (Some true).

(** Three bars after an entry at 109 with the stop at 98 and the target at
    131: the middle one trades through both. *)
Definition quiet_then_both : list (Row float) :=
  [Samples.drift_bar 201; Samples.bar 202 Samples.noon 109 135 98 109 99 100;
   Samples.drift_bar 203].

End Doubles.

(** The sample series in exact arithmetic, and small frames for the
    indicators and the analyzer. *)
Module Exact.
Local Open Scope Q_scope.

Definition stalled : DataFrame Q := Samples.prepared Samples.stalled.

Definition stalled_dip : Row Q :=
  mk_Row (mk_Timestamp 199 Samples.noon) 100 101 98 100 99 100 (Some false) (Some true).

(** Three bars closing at 10, 20 and 20. *)
Definition three_bars : DataFrame Q :=
  [mk_Row (mk_Timestamp 0 Samples.noon) 10 11 9 10 0 0 None None;
   mk_Row (mk_Timestamp 1 Samples.noon) 10 21 9 20 0 0 None None;
   mk_Row (mk_Timestamp 2 Samples.noon) 20 21 19 20 0 0 None None].


(** A price frame indexed by time, with [high] and [low] columns only: two
    quiet days, a day through 98 and 131, a quiet day. *)
Definition price_row (day : Z) (h l : Q) : TradeAnalyzer.PriceRow Q :=
  TradeAnalyzer.mk_PriceRow (mk_Timestamp day Samples.noon) (Some h) (Some l) None None.

Definition price_days : list (TradeAnalyzer.PriceRow Q) :=
  [price_row 0 110 108; price_row 1 110 108; price_row 2 135 97; price_row 3 110 108].

(** A short at 109 on day 0, stopped at 120 on day 1 with a loss of 100,
    and a long that won 200. *)
Definition lost_short (balance : Q) : TradeAnalyzer.LogRow Q :=
  TradeAnalyzer.mk_LogRow (Some (mk_Timestamp 0 Samples.noon))
                          (Some (mk_Timestamp 1 Samples.noon))
                          sell 109 120 120 87 (100 # 11) (-100) balance
                          loss MSS_Bearish (Break_of_HL 110).

Definition won_long : TradeAnalyzer.LogRow Q :=
  TradeAnalyzer.mk_LogRow (Some (mk_Timestamp 0 Samples.noon))
                          (Some (mk_Timestamp 2 Samples.noon))
                          buy 109 131 98 131 (100 # 11) 200 9900
                          win MSS_Bullish (Break_of_LH 101).

(** Three losses and a win. *)
Definition losing_log : list (TradeAnalyzer.LogRow Q) :=
  [lost_short 9900; lost_short 9800; won_long; lost_short 9700].

End Exact.

Module Prices.
Local Open Scope float_scope.

(** A price frame indexed by time, with [high] and [low] columns only:
    the entry bar, a quiet bar, a bar through 98 and 131, a quiet bar. *)
Definition price_row (day : Z) (h l : float) : TradeAnalyzer.PriceRow float :=
  TradeAnalyzer.mk_PriceRow (mk_Timestamp day Samples.noon) (Some h) (Some l) None None.

Definition four_days : list (TradeAnalyzer.PriceRow float) :=
  [price_row 0 110 108; price_row 1 110 108; price_row 2 135 97; price_row 3 110 108].

Definition quiet_days : list (TradeAnalyzer.PriceRow float) :=
  [price_row 0 110 108; price_row 1 110 108; price_row 2 110 108].

(** Bar 200 of the rally series once the swing columns are set. *)
Definition rally_breakout : Row float :=
  mk_Row (mk_Timestamp 200 Samples.noon) 100 110 99 109 101 100 (Some false) (Some false).

Definition stalled_breakout : Row float :=
  mk_Row (mk_Timestamp 200 Samples.noon) 100 110 99 109 101 100 (Some true) (Some false).

Definition stalled_setup : Backtester.Setup float :=
  Backtester.mk_Setup buy 109 98 MSS_Bullish (Break_of_LH 101).

(** [Samples.three_bars] with the EMA columns of spans 3 and 1. *)
Definition three_bars_with_emas : DataFrame float :=
  Eval vm_compute in
    match Indicators.add_indicators Samples.three_bars 3 1 with
    | Some out => out
    | None => []
    end.

End Prices.

(** * Properties of the engine *)

Import Backtester.

(** ** What the specification of a run talks about *)

Section Ledger.
Context {A : Type} `{Num A}.

(** The stop and the target condition of one bar, as [check_exit] tests them. *)
Definition stop_condition (tt : TradeType) (stop : A) (c : Row A) : bool :=
  match tt with
  | buy => nleb (low c) stop
  | sell => ngeb (high c) stop
  end.

Definition target_condition (tt : TradeType) (tp : A) (c : Row A) : bool :=
  match tt with
  | buy => ngeb (high c) tp
  | sell => nleb (low c) tp
  end.

(** The record the loop body logs for a trade entered on [current_candle]
    with setup [s] and balance [prev], and closed on [future_candle] with
    [res] at [px]. *)
Definition logged_record (prev : A) (current_candle future_candle : Row A)
           (s : Setup A) (res : Result) (px : A) : TradeRecord A :=
  let entry := s_entry_price s in
  let stop := s_stop_loss s in
  let tp := take_profit_of (s_trade_type s) entry (nabs (nsub entry stop)) in
  let pos_size :=
    Account.get_position_size (Account.mk prev (nlit 10000)) (nlit 1) entry stop in
  let pnl := pnl_of (s_trade_type s) entry px pos_size in
  mk_TradeRecord (timestamp current_candle) (timestamp future_candle)
                 (s_trade_type s) entry px stop tp pos_size pnl (nadd prev pnl) res
                 (s_setup_type s) (s_trigger_level s).

(** [r] is the record of a trade entered at bar [i] with balance [prev] and
    closed at bar [j]. *)
Definition emitted (df : DataFrame A) (prev : A) (i j : nat) (r : TradeRecord A) : Prop :=
  exists current_candle future_candle s,
    nth_error df i = Some current_candle /\
    nth_error df j = Some future_candle /\
    (i < j)%nat /\
    in_session (ts_time (timestamp current_candle)) = true /\
    detect df i current_candle = Some s /\
    nleb (nabs (nsub (s_entry_price s) (s_stop_loss s))) n0_0001 = false /\
    ngtb (position_size r) (nlit 0) = true /\
    check_exit (trade_type r) (stop_loss r) (take_profit r) future_candle
      = Some (result r, exit_price r) /\
    r = logged_record prev current_candle future_candle s (result r) (exit_price r).

(** The trades of a run in order: each is entered at or after bar [lo] with
    the balance the one before left, and the last closes by bar [hi] leaving
    [final]. *)
Fixpoint ledger_from (df : DataFrame A) (lo : nat) (prev : A)
         (l : list (TradeRecord A)) (hi : nat) (final : A) : Prop :=
  match l with
  | [] => (lo <= hi)%nat /\ final = prev
  | r :: l' =>
      exists i j, (lo <= i)%nat /\ emitted df prev i j r /\
                  ledger_from df j (account_balance r) l' hi final
  end.

(** What holds of the loop state throughout a run started with logger [lg]. *)
Definition run_invariant (df : DataFrame A) (lg : TradeLogger.t A) (st : State A) : Prop :=
  exists new,
    TradeLogger.trades (logger st) = TradeLogger.trades lg ++ new /\
    ledger_from df 200 (nlit 10000) new (cursor st) (Account.balance (account st)).

(** Balance continuity along a ledger that starts from balance [prev]. *)
Fixpoint balance_chain (prev : A) (l : list (TradeRecord A)) : Prop :=
  match l with
  | [] => True
  | r :: l' =>
      account_balance r = nadd prev (pnl_currency r) /\
      balance_chain (account_balance r) l'
  end.

(** Entries and exits along a ledger, by bar index: a trade is entered at
    or after [lo], closes on a later bar, and the next one is entered at or
    after that closing bar. *)
Fixpoint timeline (df : DataFrame A) (lo : nat) (l : list (TradeRecord A)) : Prop :=
  match l with
  | [] => True
  | r :: l' =>
      exists i j ci cj,
        (lo <= i)%nat /\ (i < j)%nat /\
        nth_error df i = Some ci /\ entry_time r = timestamp ci /\
        nth_error df j = Some cj /\ exit_time r = timestamp cj /\
        timeline df j l'
  end.

(** Stop and target of one record. *)
Definition stop_target_correct (r : TradeRecord A) : Prop :=
  (result r = win -> exit_price r = take_profit r) /\
  (result r = loss -> exit_price r = stop_loss r) /\
  take_profit r =
    match trade_type r with
    | buy =>
        nadd (entry_price r)
             (nmul (nabs (nsub (entry_price r) (stop_loss r))) (nlit 2))
    | sell =>
        nsub (entry_price r)
             (nmul (nabs (nsub (entry_price r) (stop_loss r))) (nlit 2))
    end.

End Ledger.


(** ** Further vocabulary for runs *)

Section Ledger_more.
Context {A : Type} `{Num A}.

(** The trade of record [r] was closed on the first bar after its entry bar
    that met an exit condition. *)
Definition closed_on_first_hit (df : DataFrame A) (r : TradeRecord A) : Prop :=
  exists i j ci cj,
    (i < j)%nat /\
    nth_error df i = Some ci /\ entry_time r = timestamp ci /\
    nth_error df j = Some cj /\ exit_time r = timestamp cj /\
    (stop_condition (trade_type r) (stop_loss r) cj = true \/
     target_condition (trade_type r) (take_profit r) cj = true) /\
    (forall m cm,
        (i < m < j)%nat -> nth_error df m = Some cm ->
        stop_condition (trade_type r) (stop_loss r) cm = false /\
        target_condition (trade_type r) (take_profit r) cm = false).

(** Direction, setup label and trigger label of a record go together. *)
Definition labels_agree (r : TradeRecord A) : Prop :=
  (trade_type r = buy /\ setup_type r = MSS_Bullish /\
   exists level, trigger_level r = Break_of_LH level) \/
  (trade_type r = sell /\ setup_type r = MSS_Bearish /\
   exists level, trigger_level r = Break_of_HL level).

(** Entry before exit, and no entry before the exit of the trade before it,
    by the clock. *)
Fixpoint chronological (l : list (TradeRecord A)) : Prop :=
  match l with
  | [] => True
  | r :: l' =>
      ts_ltb (entry_time r) (exit_time r) = true /\
      match l' with
      | [] => True
      | r' :: _ => ts_ltb (entry_time r') (exit_time r) = false
      end /\
      chronological l'
  end.

(** A setup as the live engine reports it: the same fields without the
    setup label. *)
Definition signal_of_setup (s : Setup A) : MarketStructureEngine.Signal A :=
  MarketStructureEngine.mk_Signal (s_trade_type s) (s_entry_price s)
                                  (s_stop_loss s) (s_trigger_level s).

(** A setup as [IdentifyMSSSetupTool] reports it at cursor [i]. *)
Definition details_of_setup (i : nat) (s : Setup A) : TradingTools.SetupDetails A :=
  TradingTools.mk_SetupDetails (s_trade_type s) (s_entry_price s) (s_stop_loss s)
                               (s_setup_type s) (s_trigger_level s) i.

(** The target and the stop test of [_simulate_opposite] on one row; a
    missing [high] or [low] column reads as the entry price. *)
Definition opposite_target_hit (tt : TradeType) (tp entry_price : A)
           (r : TradeAnalyzer.PriceRow A) : bool :=
  match tt with
  | buy =>
      ngeb (match TradeAnalyzer.pr_high r with Some v => v | None => entry_price end) tp
  | sell =>
      nleb (match TradeAnalyzer.pr_low r with Some v => v | None => entry_price end) tp
  end.

Definition opposite_stop_hit (tt : TradeType) (sl entry_price : A)
           (r : TradeAnalyzer.PriceRow A) : bool :=
  match tt with
  | buy =>
      nleb (match TradeAnalyzer.pr_low r with Some v => v | None => entry_price end) sl
  | sell =>
      ngeb (match TradeAnalyzer.pr_high r with Some v => v | None => entry_price end) sl
  end.

(** Stop and target of the opposite trade. *)
Definition opposite_sl (tt : TradeType) (entry_price risk_distance : A) : A :=
  match tt with
  | buy => nsub entry_price risk_distance
  | sell => nadd entry_price risk_distance
  end.

Definition opposite_tp (tt : TradeType) (entry_price risk_distance rr : A) : A :=
  match tt with
  | buy => nadd entry_price (nmul rr risk_distance)
  | sell => nsub entry_price (nmul rr risk_distance)
  end.

(** The log that [analyze_trades] leaves, told row by row: a row that is
    not losing stays; of the losing rows, counted from [count], those whose
    number is 2 modulo 3 stay, and each of the others is replaced by its
    reversal if that gains and removed if not. *)
Fixpoint two_of_three_reworked (price : list (TradeAnalyzer.PriceRow A)) (count : nat)
         (log : list (TradeAnalyzer.LogRow A)) : list (TradeAnalyzer.LogRow A) :=
  match log with
  | [] => []
  | row :: rest =>
      if TradeAnalyzer.losing row then
        (if count mod 3 <? 2 then
           match TradeAnalyzer.reverse_row price row with
           | Some new_row => [new_row]
           | None => []
           end
         else [row])
        ++ two_of_three_reworked price (S count) rest
      else row :: two_of_three_reworked price count rest
  end.

(** The row that stands at the place of [p] once the replacements are
    written into the frame. *)
Definition replacement_for (replacements : list (nat * TradeAnalyzer.LogRow A))
           (p : nat * TradeAnalyzer.LogRow A) : TradeAnalyzer.LogRow A :=
  match find (fun kv => fst kv =? fst p) replacements with
  | Some kv => snd kv
  | None => snd p
  end.

(** The rows of a frame after the replacements and the deletions. *)
Definition rows_after (to_delete : list nat)
           (replacements : list (nat * TradeAnalyzer.LogRow A))
           (fr : TradeAnalyzer.TradeFrame A) : list (TradeAnalyzer.LogRow A) :=
  flat_map (fun p => if existsb (Nat.eqb (fst p)) to_delete then []
                     else [replacement_for replacements p]) fr.


(** A number that is neither a NaN nor infinite. *)
Definition is_finite (x : A) : bool := negb (nisnan x) && negb (not_finite x).

(** One step of the average of [ewm(adjust=False)] on a close that is a
    number: from the average [w] of the row before and the close [cur] of
    the row, in the code's arithmetic and order of operations.  (An average
    that is a NaN is started anew; one that equals the close is kept.) *)
Definition ema_update (alpha w cur : A) : A :=
  if nisnan w then cur
  else if neqb w cur then w
  else ndiv (nadd (nmul (nmul (nlit 1) (nsub (nlit 1) alpha)) w) (nmul alpha cur))
            (nadd (nmul (nlit 1) (nsub (nlit 1) alpha)) alpha).

(** Row [r] at index [k] is the latest row before the cursor [i] that
    passes the test [f]. *)
Definition latest_before (df : DataFrame A) (i : nat) (f : Row A -> bool)
           (k : nat) (r : Row A) : Prop :=
  (k < i)%nat /\ nth_error df k = Some r /\ f r = true /\
  (forall k' r', (k' < i)%nat -> nth_error df k' = Some r' -> f r' = true ->
                 (k' <= k)%nat).

(** Frames are ordered by label. *)
Definition fst_lt (p q : nat * Row A) : Prop := (fst p < fst q)%nat.

(** A check that can be run: consecutive timestamps increase. *)
Fixpoint increasing_timestamps (df : DataFrame A) : bool :=
  match df with
  | a :: (b :: _) as rest =>
      ts_ltb (timestamp a) (timestamp b) && increasing_timestamps rest
  | _ => true
  end.

(** Consecutive bars carry strictly increasing timestamps. *)
Definition timestamps_increase (df : DataFrame A) : Prop :=
  forall k a b,
    nth_error df k = Some a -> nth_error df (S k) = Some b ->
    ts_ltb (timestamp a) (timestamp b) = true.

End Ledger_more.


(** ** The loop body, case by case *)

Section Steps.
Context {A : Type} `{Num A}.

Inductive transition (df : DataFrame A) (st : State A) : State A -> Prop :=
  | tr_skip : transition df st (skip_bar st)
  | tr_closed : forall current_candle s j future_candle res px,
      trade_is_open st = false ->
      nth_error df (cursor st) = Some current_candle ->
      in_session (ts_time (timestamp current_candle)) = true ->
      detect df (cursor st) current_candle = Some s ->
      nleb (nabs (nsub (s_entry_price s) (s_stop_loss s))) n0_0001 = false ->
      ngtb (Account.get_position_size (account st) (nlit 1)
              (s_entry_price s) (s_stop_loss s)) (nlit 0) = true ->
      scan_exit (s_trade_type s) (s_stop_loss s)
                (take_profit_of (s_trade_type s) (s_entry_price s)
                   (nabs (nsub (s_entry_price s) (s_stop_loss s))))
                (S (cursor st)) (skipn (S (cursor st)) df)
        = Some (j, future_candle, res, px) ->
      transition df st
        (mk_State j
           (Account.update_balance (account st)
              (pnl_of (s_trade_type s) (s_entry_price s) px
                 (Account.get_position_size (account st) (nlit 1)
                    (s_entry_price s) (s_stop_loss s))))
           false
           (TradeLogger.log_trade (logger st)
              (logged_record (Account.balance (account st))
                 current_candle future_candle s res px)))
  | tr_open : forall current_candle s,
      trade_is_open st = false ->
      nth_error df (cursor st) = Some current_candle ->
      in_session (ts_time (timestamp current_candle)) = true ->
      detect df (cursor st) current_candle = Some s ->
      nleb (nabs (nsub (s_entry_price s) (s_stop_loss s))) n0_0001 = false ->
      ngtb (Account.get_position_size (account st) (nlit 1)
              (s_entry_price s) (s_stop_loss s)) (nlit 0) = true ->
      scan_exit (s_trade_type s) (s_stop_loss s)
                (take_profit_of (s_trade_type s) (s_entry_price s)
                   (nabs (nsub (s_entry_price s) (s_stop_loss s))))
                (S (cursor st)) (skipn (S (cursor st)) df)
        = None ->
      transition df st (mk_State (length df) (account st) true (logger st)).

Lemma body_transition (df : DataFrame A) (st st' : State A) :
  body df st = Some st' -> transition df st st'.
Proof.
  unfold body.
  destruct (trade_is_open st) eqn:Hopen.
  { intros [= <-]. constructor. }
  destruct (nth_error df (cursor st)) as [c|] eqn:Hc; [|discriminate].
  destruct (in_session (ts_time (timestamp c))) eqn:Hs; cbn [negb].
  2:{ intros [= <-]. constructor. }
  destruct (detect df (cursor st) c) as [s|] eqn:Hd.
  2:{ intros [= <-]. constructor. }
  destruct (nleb (nabs (nsub (s_entry_price s) (s_stop_loss s))) n0_0001) eqn:Hmin.
  { intros [= <-]. constructor. }
  destruct (ngtb _ (nlit 0)) eqn:Hpos.
  2:{ intros [= <-]. constructor. }
  destruct (scan_exit _ _ _ _ _) as [[[[j fc] res] px]|] eqn:Hscan.
  - intros [= <-].
    exact (tr_closed df st Hopen Hc Hs Hd Hmin Hpos Hscan).
  - intros [= <-]. eapply tr_open; eauto.
Qed.

Lemma body_total (df : DataFrame A) (st : State A) :
  (cursor st < length df)%nat -> exists st', body df st = Some st'.
Proof.
  intros Hlt. unfold body.
  destruct (trade_is_open st); [eauto|].
  destruct (nth_error df (cursor st)) as [c|] eqn:Hc.
  2:{ apply nth_error_None in Hc. lia. }
  destruct (negb _); [eauto|].
  destruct (detect _ _ _); [|eauto].
  destruct (nleb _ _); [eauto|].
  destruct (ngtb _ _); [|eauto].
  destruct (scan_exit _ _ _ _ _) as [[[[j fc] res] px]|]; eauto.
Qed.

(** The scan returns the first bar, from [j0] on, whose exit test fires. *)
Lemma scan_exit_found (tt : TradeType) (stop tp : A) (future : list (Row A)) :
  forall j0 j fc res px,
    scan_exit tt stop tp j0 future = Some (j, fc, res, px) ->
    (j0 <= j)%nat /\
    nth_error future (j - j0) = Some fc /\
    check_exit tt stop tp fc = Some (res, px) /\
    (forall m c, (m < j - j0)%nat -> nth_error future m = Some c ->
                 check_exit tt stop tp c = None).
Proof.
  induction future as [|c rest IH]; intros j0 j fc res px; cbn [scan_exit].
  - discriminate.
  - destruct (check_exit tt stop tp c) as [[res0 px0]|] eqn:Hc.
    + intros [= <- <- <- <-]. rewrite Nat.sub_diag. cbn.
      repeat split; auto. intros m c' Hm. lia.
    + intros Hs. apply IH in Hs as (Hle & Hn & Hx & Hpre).
      assert (Hj : (j - j0 = S (j - S j0))%nat) by lia.
      repeat split; [lia| rewrite Hj; exact Hn | exact Hx |].
      intros m c' Hm Hn'. destruct m as [|m]; cbn in Hn'.
      * injection Hn' as <-. exact Hc.
      * apply (Hpre m c'); [lia|exact Hn'].
Qed.

Lemma scan_exit_in_frame (df : DataFrame A) (tt : TradeType) (stop tp : A) (i : nat) :
  forall j fc res px,
    scan_exit tt stop tp (S i) (skipn (S i) df) = Some (j, fc, res, px) ->
    (i < j)%nat /\ (j < length df)%nat /\
    nth_error df j = Some fc /\
    check_exit tt stop tp fc = Some (res, px).
Proof.
  intros j fc res px Hs.
  apply scan_exit_found in Hs as (Hle & Hn & Hx & _).
  rewrite nth_error_skipn in Hn.
  replace (S i + (j - S i))%nat with j in Hn by lia.
  repeat split; [lia| |exact Hn|exact Hx].
  apply nth_error_Some. congruence.
Qed.

(** Every iteration moves the cursor forward, and never past the end. *)
Lemma body_advances (df : DataFrame A) (st st' : State A) :
  (cursor st < length df)%nat -> body df st = Some st' ->
  (cursor st < cursor st')%nat /\ (cursor st' <= length df)%nat.
Proof.
  intros Hlt Hb. apply body_transition in Hb.
  destruct Hb as [ | c s j fc res px _ _ _ _ _ _ Hscan | ]; cbn.
  - lia.
  - apply scan_exit_in_frame in Hscan. lia.
  - lia.
Qed.

Lemma while_loop_total (df : DataFrame A) :
  forall fuel st,
    (length df - cursor st <= fuel)%nat ->
    exists st', while_loop fuel df st = Some st' /\ (length df <= cursor st')%nat.
Proof.
  induction fuel as [|fuel IH]; intros st Hfuel; cbn [while_loop].
  - destruct (cursor st <? length df) eqn:Hlt.
    + apply Nat.ltb_lt in Hlt. lia.
    + apply Nat.ltb_ge in Hlt. eauto.
  - destruct (cursor st <? length df) eqn:Hlt.
    + apply Nat.ltb_lt in Hlt.
      destruct (body_total df st Hlt) as [st1 Hb]. rewrite Hb.
      destruct (body_advances df st Hlt Hb) as [Hup _].
      apply IH. lia.
    + apply Nat.ltb_ge in Hlt. eauto.
Qed.

(** An invariant of the loop body holds of the state the loop ends in. *)
Lemma while_loop_invariant (df : DataFrame A) (P : State A -> Prop) :
  (forall st st', P st -> (cursor st < length df)%nat -> body df st = Some st' -> P st') ->
  forall fuel st st', P st -> while_loop fuel df st = Some st' -> P st'.
Proof.
  intros Hstep. induction fuel as [|fuel IH]; intros st st' HP; cbn [while_loop].
  - destruct (cursor st <? length df); [discriminate|]. intros [= <-]. exact HP.
  - destruct (cursor st <? length df) eqn:Hlt.
    + apply Nat.ltb_lt in Hlt.
      destruct (body df st) as [st1|] eqn:Hb; [|discriminate].
      intros Hw. eapply IH; [|exact Hw]. eapply Hstep; eauto.
    + intros [= <-]. exact HP.
Qed.

Lemma run_loop_total (df : DataFrame A) (lg : TradeLogger.t A) :
  exists st', run_loop df lg = Some st' /\ (length df <= cursor st')%nat.
Proof.
  unfold run_loop. apply while_loop_total. cbn. lia.
Qed.

End Steps.

(** ** The ledger of a run *)

Section Runs.
Context {A : Type} `{Num A}.

Lemma check_exit_outcome (tt : TradeType) (stop tp : A) (c : Row A) (res : Result) (px : A) :
  check_exit tt stop tp c = Some (res, px) ->
  (res = loss /\ px = stop) \/ (res = win /\ px = tp).
Proof.
  unfold check_exit. destruct tt.
  - destruct (nleb (low c) stop); [intros [= <- <-]; auto|].
    destruct (ngeb (high c) tp); [intros [= <- <-]; auto|discriminate].
  - destruct (ngeb (high c) stop); [intros [= <- <-]; auto|].
    destruct (nleb (low c) tp); [intros [= <- <-]; auto|discriminate].
Qed.

(** The fields of an emitted record, read off the loop body. *)
Lemma emitted_fields (df : DataFrame A) (prev : A) (i j : nat) (r : TradeRecord A) :
  emitted df prev i j r ->
  account_balance r = nadd prev (pnl_currency r) /\
  pnl_currency r
    = pnl_of (trade_type r) (entry_price r) (exit_price r) (position_size r) /\
  position_size r
    = Account.get_position_size (Account.mk prev (nlit 10000)) (nlit 1)
        (entry_price r) (stop_loss r) /\
  take_profit r
    = take_profit_of (trade_type r) (entry_price r)
        (nabs (nsub (entry_price r) (stop_loss r))) /\
  nleb (nabs (nsub (entry_price r) (stop_loss r))) n0_0001 = false /\
  ngtb (position_size r) (nlit 0) = true /\
  ((result r = loss /\ exit_price r = stop_loss r) \/
   (result r = win /\ exit_price r = take_profit r)).
Proof.
  intros (c & fc & s & _ & _ & _ & _ & _ & Hmin & Hpos & Hx & Hr).
  apply check_exit_outcome in Hx.
  pose proof (f_equal (@account_balance A) Hr) as Hbal.
  pose proof (f_equal (@pnl_currency A) Hr) as Hpnl.
  pose proof (f_equal (@position_size A) Hr) as Hsize.
  pose proof (f_equal (@take_profit A) Hr) as Htp.
  pose proof (f_equal (@entry_price A) Hr) as He.
  pose proof (f_equal (@stop_loss A) Hr) as Hsl.
  pose proof (f_equal (@trade_type A) Hr) as Htt.
  unfold logged_record in Hbal, Hpnl, Hsize, Htp, He, Hsl, Htt.
  cbn [account_balance pnl_currency position_size take_profit entry_price
       stop_loss trade_type] in Hbal, Hpnl, Hsize, Htp, He, Hsl, Htt.
  rewrite <- He, <- Hsl in Hmin.
  rewrite <- He, <- Hsl, <- Htt in Htp.
  rewrite <- He, <- Hsl in Hsize.
  rewrite <- He, <- Hsl, <- Hsize, <- Htt in Hpnl.
  rewrite <- He, <- Hsl, <- Hsize, <- Htt, <- Hpnl in Hbal.
  repeat split; assumption.
Qed.

Lemma emitted_times (df : DataFrame A) (prev : A) (i j : nat) (r : TradeRecord A) :
  emitted df prev i j r ->
  exists ci cj,
    (i < j)%nat /\
    nth_error df i = Some ci /\ entry_time r = timestamp ci /\
    in_session (ts_time (timestamp ci)) = true /\
    nth_error df j = Some cj /\ exit_time r = timestamp cj.
Proof.
  intros (c & fc & s & Hc & Hfc & Hij & Hs & _ & _ & _ & _ & Hr).
  exists c, fc.
  pose proof (f_equal (@entry_time A) Hr) as He.
  pose proof (f_equal (@exit_time A) Hr) as Hx.
  unfold logged_record in He, Hx. cbn [entry_time exit_time] in He, Hx.
  repeat split; assumption.
Qed.

Lemma ledger_from_weaken (df : DataFrame A) (l : list (TradeRecord A)) :
  forall lo prev hi hi' final,
    ledger_from df lo prev l hi final -> (hi <= hi')%nat ->
    ledger_from df lo prev l hi' final.
Proof.
  induction l as [|r l IH]; intros lo prev hi hi' final; cbn.
  - intros [Hle ->] Hhi. split; [lia|reflexivity].
  - intros (i & j & Hlo & Hem & Hrest) Hhi.
    exists i, j. repeat split; eauto.
Qed.

Lemma ledger_from_snoc (df : DataFrame A) (l : list (TradeRecord A)) :
  forall lo prev hi final i j r,
    ledger_from df lo prev l hi final -> (hi <= i)%nat ->
    emitted df final i j r ->
    ledger_from df lo prev (l ++ [r]) j (account_balance r).
Proof.
  induction l as [|r0 l IH]; intros lo prev hi final i j r; cbn.
  - intros [Hle ->] Hhi Hem. exists i, j. repeat split; [lia|exact Hem|lia].
  - intros (i0 & j0 & Hlo & Hem0 & Hrest) Hhi Hem.
    exists i0, j0. repeat split; eauto.
Qed.

Lemma run_invariant_initial (df : DataFrame A) (lg : TradeLogger.t A) :
  run_invariant df lg (initial_state lg).
Proof.
  exists []. cbn. rewrite app_nil_r. repeat split. lia.
Qed.

Lemma run_invariant_body (df : DataFrame A) (lg : TradeLogger.t A) (st st' : State A) :
  run_invariant df lg st -> (cursor st < length df)%nat ->
  body df st = Some st' -> run_invariant df lg st'.
Proof.
  intros (new & Hnew & Hled) Hlt Hb.
  apply body_transition in Hb.
  destruct Hb as [ | c s j fc res px Hopen Hc Hs Hd Hmin Hpos Hscan | c s _ _ _ _ _ _ _ ].
  - exists new. cbn. split; [exact Hnew|].
    eapply ledger_from_weaken; [exact Hled|lia].
  - apply scan_exit_in_frame in Hscan as (Hij & Hj & Hfc & Hx).
    exists (new ++ [logged_record (Account.balance (account st)) c fc s res px]).
    cbn [logger cursor account TradeLogger.log_trade TradeLogger.trades].
    split; [rewrite Hnew, app_assoc; reflexivity|].
    eapply ledger_from_snoc with (i := cursor st); [exact Hled|lia|].
    exists c, fc, s. repeat split; assumption.
  - exists new. cbn. split; [exact Hnew|].
    eapply ledger_from_weaken; [exact Hled|lia].
Qed.

(** Every run ends, and what it appended to the logger is a ledger. *)
Lemma run_ledger (df : DataFrame A) (lg : TradeLogger.t A) :
  exists st' new,
    run_loop df lg = Some st' /\
    TradeLogger.trades (logger st') = TradeLogger.trades lg ++ new /\
    ledger_from df 200 (nlit 10000) new (cursor st') (Account.balance (account st')).
Proof.
  destruct (run_loop_total df lg) as (st' & Hrun & _).
  assert (Hinv : run_invariant df lg st').
  { eapply while_loop_invariant with (P := run_invariant df lg);
      [ intros; eapply run_invariant_body; eauto
      | apply run_invariant_initial
      | exact Hrun ]. }
  destruct Hinv as (new & Hnew & Hled).
  exists st', new. auto.
Qed.

Lemma ledger_balance_chain (df : DataFrame A) (l : list (TradeRecord A)) :
  forall lo prev hi final,
    ledger_from df lo prev l hi final -> balance_chain prev l.
Proof.
  induction l as [|r l IH]; intros lo prev hi final; cbn; [trivial|].
  intros (i & j & _ & Hem & Hrest). split.
  - apply emitted_fields in Hem. tauto.
  - eapply IH; exact Hrest.
Qed.

Lemma ledger_timeline (df : DataFrame A) (l : list (TradeRecord A)) :
  forall lo prev hi final,
    ledger_from df lo prev l hi final -> timeline df lo l.
Proof.
  induction l as [|r l IH]; intros lo prev hi final; cbn; [trivial|].
  intros (i & j & Hlo & Hem & Hrest).
  destruct (emitted_times Hem) as (ci & cj & Hij & Hci & Hent & _ & Hcj & Hex).
  exists i, j, ci, cj. repeat split; try assumption.
  eapply IH; exact Hrest.
Qed.

Lemma ledger_Forall (df : DataFrame A) (P : TradeRecord A -> Prop) :
  (forall prev i j r, emitted df prev i j r -> P r) ->
  forall l lo prev hi final,
    ledger_from df lo prev l hi final -> Forall P l.
Proof.
  intros HP. induction l as [|r l IH]; intros lo prev hi final; cbn.
  - constructor.
  - intros (i & j & _ & Hem & Hrest). constructor; eauto.
Qed.

End Runs.

(** ** Exit resolution, stop and target, balance, session, sizing, termination *)

Section Engine_theorems.
Context {A : Type} `{Num A}.

(** C3: on every future bar scanned for the exit the stop-loss condition is
    tested before the take-profit condition.  So when the first bar on which
    an exit fires meets both the stop condition (long: low <= stop_loss;
    short: high >= stop_loss) and the target condition (long: high >=
    take_profit; short: low <= take_profit), the bar resolves as a loss at
    the stop, and the scan returns that bar with result loss and exit price
    stop_loss, never a win. *)
Theorem stop_loss_tested_before_take_profit
        (tt : TradeType) (stop tp : A) (j0 : nat) (pre post : list (Row A)) (fc : Row A) :
  Forall (fun c => check_exit tt stop tp c = None) pre ->
  stop_condition tt stop fc = true ->
  target_condition tt tp fc = true ->
  check_exit tt stop tp fc = Some (loss, stop) /\
  scan_exit tt stop tp j0 (pre ++ fc :: post) = Some ((j0 + length pre)%nat, fc, loss, stop).
Proof.
  intros Hpre Hstop _.
  assert (Hfc : check_exit tt stop tp fc = Some (loss, stop)).
  { unfold check_exit. destruct tt; cbn in Hstop; rewrite Hstop; reflexivity. }
  split; [exact Hfc|].
  revert j0. induction Hpre as [|c pre Hc _ IH]; intros j0; cbn [app scan_exit length].
  - rewrite Hfc, Nat.add_0_r. reflexivity.
  - rewrite Hc, IH.
    replace (S j0 + length pre)%nat with (j0 + S (length pre))%nat by lia.
    reflexivity.
Qed.

(** C4: every TradeRecord a run emits has exit_price = take_profit when its
    result is win and exit_price = stop_loss when its result is loss, for
    long and short alike, and its take_profit is
    entry_price + |entry_price - stop_loss| * 2 for a long and
    entry_price - |entry_price - stop_loss| * 2 for a short (the reward
    multiple is the constant 2). *)
Theorem stop_and_target_of_every_record (df : DataFrame A) (lg : TradeLogger.t A) :
  exists st' new,
    run_loop df lg = Some st' /\
    TradeLogger.trades (logger st') = TradeLogger.trades lg ++ new /\
    Forall stop_target_correct new.
Proof.
  destruct (run_ledger df lg) as (st' & new & Hrun & Hnew & Hled).
  exists st', new. repeat split; try assumption.
  eapply ledger_Forall; [|exact Hled].
  intros prev i j r Hem.
  destruct (emitted_fields Hem) as (_ & _ & _ & Htp & _ & _ & Hres).
  unfold stop_target_correct. repeat split.
  - intros Hw. destruct Hres as [[Hl _]|[_ Hx]]; [congruence|exact Hx].
  - intros Hl. destruct Hres as [[_ Hx]|[Hw _]]; [exact Hx|congruence].
  - rewrite Htp. unfold take_profit_of. destruct (trade_type r); reflexivity.
Qed.

(** C5: along the records a run emits, account_balance of each record is the
    account_balance of the record before it plus its own pnl_currency, the
    record before the first one being the initial balance 10000. *)
Theorem balance_continuity (df : DataFrame A) (lg : TradeLogger.t A) :
  exists st' new,
    run_loop df lg = Some st' /\
    TradeLogger.trades (logger st') = TradeLogger.trades lg ++ new /\
    balance_chain (nlit 10000) new.
Proof.
  destruct (run_ledger df lg) as (st' & new & Hrun & Hnew & Hled).
  exists st', new. repeat split; try assumption.
  eapply ledger_balance_chain; exact Hled.
Qed.

(** C6: the time of day of the entry_time of every TradeRecord a run emits
    lies in the session window, 08:00 <= t <= 22:00 with both ends
    included; and an iteration whose cursor bar has its time of day outside
    the window only moves the cursor one bar on: no setup, no trade. *)
Theorem session_containment (df : DataFrame A) (lg : TradeLogger.t A) :
  (exists st' new,
      run_loop df lg = Some st' /\
      TradeLogger.trades (logger st') = TradeLogger.trades lg ++ new /\
      Forall (fun r =>
                time_leb (mk_time 8 0 0 0) (ts_time (entry_time r)) = true /\
                time_leb (ts_time (entry_time r)) (mk_time 22 0 0 0) = true) new) /\
  (forall st c,
      nth_error df (cursor st) = Some c ->
      in_session (ts_time (timestamp c)) = false ->
      body df st = Some (skip_bar st)) /\
  in_session (mk_time 8 0 0 0) = true /\
  in_session (mk_time 22 0 0 0) = true /\
  in_session (mk_time 7 59 59 0) = false /\
  in_session (mk_time 22 0 0 1) = false.
Proof.
  split; [|split; [|repeat split]].
  - destruct (run_ledger df lg) as (st' & new & Hrun & Hnew & Hled).
    exists st', new. repeat split; try assumption.
    eapply ledger_Forall; [|exact Hled].
    intros prev i j r Hem. cbv beta.
    destruct (emitted_times Hem) as (ci & cj & _ & _ & Hent & Hs & _).
    rewrite Hent. apply andb_true_iff in Hs. exact Hs.
  - intros st c Hc Hs. unfold body.
    destruct (trade_is_open st); [reflexivity|].
    rewrite Hc, Hs. reflexivity.
Qed.

(** C7: the position sizer returns 0 when |entry - stop| == 0, and otherwise
    (balance * (riskPercent / 100)) / |entry - stop|. *)
Theorem position_size_formula (self : Account.t A) (risk_percent entry_price sl_price : A) :
  (neqb (nabs (nsub entry_price sl_price)) (nlit 0) = true ->
   Account.get_position_size self risk_percent entry_price sl_price = nlit 0) /\
  (neqb (nabs (nsub entry_price sl_price)) (nlit 0) = false ->
   Account.get_position_size self risk_percent entry_price sl_price
   = ndiv (nmul (Account.balance self) (ndiv risk_percent (nlit 100)))
          (nabs (nsub entry_price sl_price))).
Proof.
  unfold Account.get_position_size.
  split; intros Hz; rewrite Hz; reflexivity.
Qed.

(** C8: every iteration of the main loop strictly increases the cursor and
    leaves it at most the series length, and the loop of every run ends,
    with the cursor at the series length (at 200, where it starts, when the
    series is shorter than that). *)
Theorem cursor_increases_and_run_terminates (df : DataFrame A) :
  (forall st, (cursor st < length df)%nat ->
              exists st', body df st = Some st' /\
                          (cursor st < cursor st')%nat /\
                          (cursor st' <= length df)%nat) /\
  (forall lg, exists st', run_loop df lg = Some st' /\
                          cursor st' = Nat.max 200 (length df)).
Proof.
  split.
  - intros st Hlt. destruct (body_total df st Hlt) as [st' Hb].
    exists st'. split; [exact Hb|]. exact (body_advances df st Hlt Hb).
  - intros lg. destruct (run_loop_total df lg) as (st' & Hrun & Hend).
    exists st'. split; [exact Hrun|].
    assert (Hb : (200 <= cursor st' <= Nat.max 200 (length df))%nat).
    { eapply while_loop_invariant
        with (P := fun st => (200 <= cursor st <= Nat.max 200 (length df))%nat);
        [ | | exact Hrun ].
      - intros st st1 Hst Hlt Hbody.
        destruct (body_advances df st Hlt Hbody). lia.
      - unfold initial_state. cbn [cursor]. lia. }
    lia.
Qed.

End Engine_theorems.

(** ** Re-entry, swing look-ahead and positions left open *)

Section Frames.
Context {A : Type} `{Num A}.

Lemma nth_error_combine {X Y : Type} (l1 : list X) (l2 : list Y) :
  forall k,
    nth_error (combine l1 l2) k
    = match nth_error l1 k, nth_error l2 k with
      | Some a, Some b => Some (a, b)
      | _, _ => None
      end.
Proof.
  revert l2. induction l1 as [|a l1 IH]; intros l2 k.
  - destruct k; reflexivity.
  - destruct l2 as [|b l2]; destruct k as [|k]; cbn; try reflexivity.
    + destruct (nth_error l1 k); reflexivity.
    + apply IH.
Qed.

(** A labelled row of a frame selected from [df] is the row of [df] at that
    position. *)
Lemma indexed_lookup (df : DataFrame A) (p : nat * Row A) :
  In p (indexed df) -> nth_error df (fst p) = Some (snd p).
Proof.
  unfold indexed. intros Hin.
  apply In_nth_error in Hin as [k Hk].
  rewrite nth_error_combine, nth_error_seq in Hk.
  destruct (k <? length df); [|discriminate].
  destruct (nth_error df k) as [r|] eqn:Hr; [|discriminate].
  injection Hk as <-. exact Hr.
Qed.

Lemma index_lt_In (fr : Frame A) (i : nat) (p : nat * Row A) :
  In p (index_lt fr i) -> In p fr /\ (fst p < i)%nat.
Proof.
  unfold index_lt. rewrite filter_In. intros [Hin Hlt].
  split; [exact Hin|]. apply Nat.ltb_lt. exact Hlt.
Qed.

Lemma swing_highs_In (df : DataFrame A) (p : nat * Row A) :
  In p (swing_highs df) ->
  nth_error df (fst p) = Some (snd p) /\ is_one (swing_high (snd p)) = true.
Proof.
  unfold swing_highs. rewrite filter_In. intros [Hin Hf].
  split; [apply indexed_lookup; exact Hin|exact Hf].
Qed.

Lemma swing_lows_In (df : DataFrame A) (p : nat * Row A) :
  In p (swing_lows df) ->
  nth_error df (fst p) = Some (snd p) /\ is_one (swing_low (snd p)) = true.
Proof.
  unfold swing_lows. rewrite filter_In. intros [Hin Hf].
  split; [apply indexed_lookup; exact Hin|exact Hf].
Qed.

Lemma assign_lookup (set : Row A -> option bool -> Row A)
      (df : DataFrame A) (column : list (option bool)) (k : nat) (row : Row A) :
  nth_error (assign set df column) k = Some row ->
  exists r0 v, nth_error df k = Some r0 /\ nth_error column k = Some v /\ row = set r0 v.
Proof.
  unfold assign. rewrite nth_error_map, nth_error_combine.
  destruct (nth_error df k) as [r0|]; [|discriminate].
  destruct (nth_error column k) as [v|]; [|discriminate].
  cbn. intros [= <-]. eauto.
Qed.

(** The rolling window marks a position only where the whole window lies in
    the column. *)
Lemma rolling_apply_flag (f : list A -> bool) (col : list A) (lookback k : nat) :
  nth_error (rolling_apply f col lookback) k = Some (Some true) ->
  (lookback <= k)%nat /\ (k + lookback < length col)%nat.
Proof.
  unfold rolling_apply. rewrite nth_error_map, nth_error_seq.
  destruct (k <? length col); [|discriminate].
  cbn. unfold centered_window.
  destruct ((lookback <=? k) && (k + lookback <? length col)) eqn:Hw; [|discriminate].
  intros _. apply andb_true_iff in Hw as [H1 H2].
  apply Nat.leb_le in H1. apply Nat.ltb_lt in H2. auto.
Qed.

Lemma is_one_true (v : option bool) : is_one v = true -> v = Some true.
Proof. destruct v as [[|]|]; cbn; congruence. Qed.

Lemma assign_length (set : Row A -> option bool -> Row A)
      (df : DataFrame A) (column : list (option bool)) :
  (length (assign set df column) <= length df)%nat.
Proof.
  unfold assign. rewrite length_map, length_combine. lia.
Qed.

Lemma find_swing_points_flag (bars : DataFrame A) (lookback k : nat) (row : Row A) :
  nth_error (find_swing_points bars lookback) k = Some row ->
  is_one (swing_high row) = true \/ is_one (swing_low row) = true ->
  (lookback <= k)%nat /\ (k + lookback < length bars)%nat.
Proof.
  unfold find_swing_points. intros Hrow Hflag.
  apply assign_lookup in Hrow as (r1 & v2 & Hr1 & Hv2 & ->).
  apply assign_lookup in Hr1 as (r0 & v1 & Hr0 & Hv1 & ->).
  cbn in Hflag. destruct Hflag as [Hf|Hf]; apply is_one_true in Hf; subst.
  - apply rolling_apply_flag in Hv1. rewrite length_map in Hv1. exact Hv1.
  - apply rolling_apply_flag in Hv2. rewrite length_map in Hv2.
    pose proof (assign_length set_swing_high bars
                  (rolling_apply (is_window_max lookback) (map (@high A) bars) lookback)).
    lia.
Qed.

Lemma scan_exit_none (tt : TradeType) (stop tp : A) (future : list (Row A)) :
  forall j0,
    (forall c, In c future -> check_exit tt stop tp c = None) ->
    scan_exit tt stop tp j0 future = None.
Proof.
  induction future as [|c rest IH]; intros j0 Hall; cbn [scan_exit]; [reflexivity|].
  rewrite (Hall c (or_introl eq_refl)). apply IH.
  intros c' Hin. apply Hall. right. exact Hin.
Qed.

End Frames.

Section Cursor_and_swings.
Context {A : Type} `{Num A}.

(** C1 (as the code has it): when an iteration completes a trade, the exit
    bar j lies strictly after the entry bar, the cursor is set to j itself
    and the engine is flat again, so the next scan starts at bar j, not after
    it.  In the ledger of a run every trade is therefore entered at or after
    the bar on which the trade before it was closed: no entry falls strictly
    inside another trade, and an entry on the exit bar itself is possible. *)
Theorem scan_resumes_at_exit_bar (df : DataFrame A) :
  (forall st st' r,
      body df st = Some st' ->
      TradeLogger.trades (logger st') = TradeLogger.trades (logger st) ++ [r] ->
      exists j cj,
        (cursor st < j)%nat /\ nth_error df j = Some cj /\
        exit_time r = timestamp cj /\
        cursor st' = j /\ trade_is_open st' = false) /\
  (forall lg,
      exists st' new,
        run_loop df lg = Some st' /\
        TradeLogger.trades (logger st') = TradeLogger.trades lg ++ new /\
        timeline df 200 new).
Proof.
  split.
  - intros st st' r Hb Hlog.
    apply body_transition in Hb.
    destruct Hb as [ | c s j fc res px _ _ _ _ _ _ Hscan | ].
    + cbn in Hlog. apply (f_equal (@length _)) in Hlog.
      rewrite length_app in Hlog. cbn in Hlog. lia.
    + cbn [logger TradeLogger.log_trade TradeLogger.trades] in Hlog.
      apply app_inv_head in Hlog. injection Hlog as <-.
      apply scan_exit_in_frame in Hscan as (Hij & _ & Hfc & _).
      exists j, fc. cbn. auto.
    + cbn in Hlog. apply (f_equal (@length _)) in Hlog.
      rewrite length_app in Hlog. cbn in Hlog. lia.
  - intros lg. destruct (run_ledger df lg) as (st' & new & Hrun & Hnew & Hled).
    exists st', new. repeat split; try assumption.
    eapply ledger_timeline; exact Hled.
Qed.

(** C2 (as the code has it): every swing row the signal logic reads at
    cursor i, in any of the selections it takes the last row of, is a flagged
    row of the frame at an index k < i; nothing more is asked of k.  The
    flags are computed once over the whole series, where a flag at k means
    that the bars k-L .. k+L all exist (L <= k and k+L < N): the bars that
    confirm it may lie after the cursor. *)
Theorem consulted_swings_precede_cursor (df : DataFrame A) :
  (forall i p,
      In p (relevant_swing_highs df i) \/ In p (potential_lower_highs df i) \/
      In p (recent_highs df i) ->
      (fst p < i)%nat /\ nth_error df (fst p) = Some (snd p) /\
      is_one (swing_high (snd p)) = true) /\
  (forall i p,
      In p (relevant_swing_lows df i) \/ In p (potential_higher_lows df i) \/
      In p (recent_lows df i) ->
      (fst p < i)%nat /\ nth_error df (fst p) = Some (snd p) /\
      is_one (swing_low (snd p)) = true) /\
  (forall bars lookback k row,
      df = find_swing_points bars lookback ->
      nth_error df k = Some row ->
      is_one (swing_high row) = true \/ is_one (swing_low row) = true ->
      (lookback <= k)%nat /\ (k + lookback < length bars)%nat).
Proof.
  assert (Hhi : forall i p, In p (index_lt (swing_highs df) i) ->
                (fst p < i)%nat /\ nth_error df (fst p) = Some (snd p) /\
                is_one (swing_high (snd p)) = true).
  { intros i p Hin. apply index_lt_In in Hin as [Hin Hlt].
    apply swing_highs_In in Hin. tauto. }
  assert (Hlo : forall i p, In p (index_lt (swing_lows df) i) ->
                (fst p < i)%nat /\ nth_error df (fst p) = Some (snd p) /\
                is_one (swing_low (snd p)) = true).
  { intros i p Hin. apply index_lt_In in Hin as [Hin Hlt].
    apply swing_lows_In in Hin. tauto. }
  split; [|split].
  - intros i p [Hin|[Hin|Hin]]; [apply Hhi; exact Hin| |apply Hhi; exact Hin].
    unfold potential_lower_highs in Hin. apply filter_In in Hin as [Hin _].
    apply Hhi; exact Hin.
  - intros i p [Hin|[Hin|Hin]]; [apply Hlo; exact Hin| |apply Hlo; exact Hin].
    unfold potential_higher_lows in Hin. apply filter_In in Hin as [Hin _].
    apply Hlo; exact Hin.
  - intros bars lookback k row -> Hrow Hflag.
    eapply find_swing_points_flag; eauto.
Qed.

(** C9 (as the code has it): when a setup is accepted at the cursor bar and
    no later bar of the series meets an exit condition, the iteration jumps
    the cursor to the series end and leaves trade_is_open set; the logger
    and the account are exactly what they were, so no TradeRecord is appended
    and the balance is not updated, and the loop ends in that state.  Nothing
    else records the open position: what the caller has after the run is the
    logger as it was before the position was opened. *)
Theorem open_position_at_series_end
        (df : DataFrame A) (st : State A) (c : Row A) (s : Setup A) :
  trade_is_open st = false ->
  nth_error df (cursor st) = Some c ->
  in_session (ts_time (timestamp c)) = true ->
  detect df (cursor st) c = Some s ->
  nleb (nabs (nsub (s_entry_price s) (s_stop_loss s))) n0_0001 = false ->
  ngtb (Account.get_position_size (account st) (nlit 1)
          (s_entry_price s) (s_stop_loss s)) (nlit 0) = true ->
  (forall j cj,
      (cursor st < j)%nat -> nth_error df j = Some cj ->
      check_exit (s_trade_type s) (s_stop_loss s)
                 (take_profit_of (s_trade_type s) (s_entry_price s)
                    (nabs (nsub (s_entry_price s) (s_stop_loss s)))) cj = None) ->
  body df st = Some (mk_State (length df) (account st) true (logger st)) /\
  (forall fuel,
      while_loop (S fuel) df st
      = Some (mk_State (length df) (account st) true (logger st))).
Proof.
  intros Hopen Hc Hs Hd Hmin Hpos Hnone.
  assert (Hb : body df st = Some (mk_State (length df) (account st) true (logger st))).
  { unfold body. rewrite Hopen, Hc, Hs. cbn [negb]. rewrite Hd, Hmin, Hpos.
    rewrite scan_exit_none; [reflexivity|].
    intros cj Hin. apply In_nth_error in Hin as [m Hm].
    rewrite nth_error_skipn in Hm.
    apply (Hnone (S (cursor st) + m)%nat cj); [lia|exact Hm]. }
  split; [exact Hb|].
  intros fuel. cbn [while_loop].
  assert (Hlt : (cursor st < length df)%nat).
  { apply nth_error_Some. congruence. }
  apply Nat.ltb_lt in Hlt. rewrite Hlt, Hb.
  destruct fuel; cbn [while_loop cursor]; rewrite Nat.ltb_irrefl; reflexivity.
Qed.

End Cursor_and_swings.

(** ** Risk per trade, in exact arithmetic *)

Section Exact_risk.

Local Open Scope Q_scope.

Lemma risk_amount (x d prev k : Q) :
  0 < d -> 0 < prev -> Qabs x == k * d ->
  Qabs (x * (prev * (inject_Z 1 / inject_Z 100) / d)) == prev * k * (1 # 100).
Proof.
  intros Hd Hprev Hx.
  assert (Hd0 : ~ d == 0) by (intros E; rewrite E in Hd; discriminate).
  assert (Hsz : 0 <= prev * (inject_Z 1 / inject_Z 100) / d).
  { apply Qlt_le_weak. apply Qlt_shift_div_l; [exact Hd|].
    rewrite Qmult_0_l. apply Qmult_lt_0_compat; [exact Hprev|reflexivity]. }
  rewrite Qabs_Qmult, Hx, (Qabs_pos _ Hsz).
  field. exact Hd0.
Qed.






End Exact_risk.

(** ** Risk per trade, as the code computes it *)

Section Computed_risk.
Context {A : Type} `{Num A}.



End Computed_risk.


(** ** The sample series *)

Section Sample_checks.
Context {A : Type} `{Num A}.

(** A check that can be run: no bar after [i] meets an exit condition. *)
Lemma no_exit_after (df : DataFrame A) (tt : TradeType) (stop tp : A) (i : nat) :
  forallb (fun cj => match check_exit tt stop tp cj with
                     | None => true
                     | Some _ => false
                     end) (skipn (S i) df) = true ->
  forall j cj, (i < j)%nat -> nth_error df j = Some cj ->
               check_exit tt stop tp cj = None.
Proof.
  intros Hall j cj Hij Hj.
  rewrite forallb_forall in Hall.
  assert (Hin : In cj (skipn (S i) df)).
  { apply nth_error_In with (n := (j - S i)%nat).
    rewrite nth_error_skipn. replace (S i + (j - S i))%nat with j by lia. exact Hj. }
  specialize (Hall cj Hin).
  destruct (check_exit tt stop tp cj); [discriminate|reflexivity].
Qed.

End Sample_checks.

(** *** Runs on the sample series, in binary64 *)

Section Sample_runs.
Local Open Scope float_scope.

(** The literal 0.0001 of the source is the double nearest to 1/10000. *)
Lemma literal_0_0001 : n0_0001 = (1 / 10000)%float.
Proof. vm_compute; reflexivity. Qed.

(** In every sample series the date of a bar is its index, so a timestamp
    names its bar. *)
Lemma sample_dates :
  map (fun c => ts_date (timestamp c)) Doubles.rally = map Z.of_nat (seq 0 210) /\
  map (fun c => ts_date (timestamp c)) Doubles.stalled = map Z.of_nat (seq 0 210).
Proof. split; vm_compute; reflexivity. Qed.

(** C1, counterexample: on the rally series the first trade is entered at
    bar 200 and closed at bar 201; the iteration leaves the cursor at 201, the
    next iteration evaluates bar 201, and the second trade of the ledger is
    entered on bar 201, the exit bar of the first. *)
Lemma reentry_on_the_exit_bar :
  option_map (@cursor float) (body Doubles.rally Doubles.start) = Some 201%nat /\
  option_map (fun lg => map (fun r => (ts_date (entry_time r), ts_date (exit_time r)))
                            (TradeLogger.trades lg))
             (run_backtest Doubles.rally Doubles.fresh)
  = Some [(200, 201); (201, 202)]%Z.
Proof. split; vm_compute; reflexivity. Qed.

(** C2, counterexample: at cursor 200 of the stalled series the stop is the
    low of the swing low flagged at bar 199, which is confirmed only by the
    bars up to 204: 199 + 5 > 200.  The pierced series has the same bars
    0..200 and a lower low at bar 201; there bar 199 is not flagged and the
    setup at cursor 200 takes its stop from an earlier swing low. *)
Lemma swing_low_used_before_confirmation :
  option_map fst (iloc_last (recent_lows Doubles.stalled 200)) = Some 199%nat /\
  (199 + default_lookback <=? 200)%nat = false /\
  option_map (fun c => option_map (@s_stop_loss float) (detect Doubles.stalled 200 c))
             (nth_error Doubles.stalled 200)
  = Some (Some 98%float) /\
  firstn 201 (Samples.pierced (A := float)) = firstn 201 Samples.stalled /\
  option_map (fun c => option_map (@s_stop_loss float) (detect Doubles.pierced 200 c))
             (nth_error Doubles.pierced 200)
  = Some (Some 99%float).
Proof. repeat split; vm_compute; reflexivity. Qed.

(** C9, counterexample: the stalled series ends with the position of bar 200
    open, the same bars with the breakout outside the session end flat with
    no setup at all, and the caller gets the same thing back from both runs,
    the logger it passed in, with no trade in it. *)
Lemma open_position_not_reported :
  option_map (@trade_is_open float) (run_loop Doubles.stalled Doubles.fresh) = Some true /\
  option_map (@trade_is_open float) (run_loop Doubles.stalled_after_hours Doubles.fresh)
  = Some false /\
  run_backtest Doubles.stalled Doubles.fresh = Some Doubles.fresh /\
  run_backtest Doubles.stalled_after_hours Doubles.fresh = Some Doubles.fresh.
Proof. repeat split; vm_compute; reflexivity. Qed.



(** X11: in binary64 the reward/risk check can refuse the target the
    engine itself derives.  For a long entered at 117.795 with its stop at
    103.095 the distance is 14.700000000000003 and the target
    entry + distance * 2 is the double 147.195; the reward divided by the
    risk falls short of 2, and [CheckRiskRewardRatioTool._run] with a minimum
    of 2 returns False.  For the short with the same entry and stop it
    returns True. *)
Theorem engine_target_can_fail_reward_risk_check :
  nabs (nsub 0x1.d72e147ae147bp+6 0x1.9c6147ae147aep+6)%float
  = 0x1.d666666666668p+3%float /\
  take_profit_of buy 0x1.d72e147ae147bp+6%float 0x1.d666666666668p+3%float
  = 0x1.2663d70a3d70ap+7%float /\
  TradingTools.CheckRiskRewardRatioTool_run
    0x1.d72e147ae147bp+6%float 0x1.9c6147ae147aep+6%float
    0x1.2663d70a3d70ap+7%float 2%float = false /\
  TradingTools.CheckRiskRewardRatioTool_run
    0x1.d72e147ae147bp+6%float 0x1.9c6147ae147aep+6%float
    (take_profit_of sell 0x1.d72e147ae147bp+6%float 0x1.d666666666668p+3%float)
    2%float = true.
Proof. repeat split; vm_compute; reflexivity. Qed.

(** X12: [run_backtest] does not ask the stop to lie on the protective side
    of the entry, and the label of a trade says which level was hit, not
    whether money was made.  On the inverted series the long entered at 105
    takes its stop from the latest swing low, at 119, above the entry; the
    next bar's low is at or below 119, so the trade is closed at the stop:
    the one record of the run says 'loss' and carries a gain. *)
Theorem a_loss_label_can_carry_a_gain :
  option_map (fun lg => map (fun r => (result r, trade_type r, entry_price r,
                                       stop_loss r, exit_price r,
                                       PrimFloat.ltb 0 (pnl_currency r),
                                       PrimFloat.ltb 10000 (account_balance r)))
                            (TradeLogger.trades lg))
             (run_backtest Doubles.inverted Doubles.fresh)
  = Some [(loss, buy, 105%float, 119%float, 119%float, true, true)].
Proof. vm_compute; reflexivity. Qed.

(** X19: in binary64 an EMA can leave the range of the closes.  On two
    bars closing at 114.43730268973356 and 114.43730268973354, with span 5,
    the EMA of the second bar is 114.43730268973357, above both closes. *)
Theorem ema_can_leave_the_close_range :
  option_map (map (fun r => (close r, ema_fast r, ema_slow r)))
             (Indicators.add_indicators Doubles.close_pair 5 5)
  = Some [(0x1.c9bfcc46bb6f1p+6, 0x1.c9bfcc46bb6f1p+6, 0x1.c9bfcc46bb6f1p+6);
          (0x1.c9bfcc46bb6f0p+6, 0x1.c9bfcc46bb6f2p+6, 0x1.c9bfcc46bb6f2p+6)]%float /\
  PrimFloat.ltb 0x1.c9bfcc46bb6f0p+6 0x1.c9bfcc46bb6f1p+6 = true /\
  PrimFloat.ltb 0x1.c9bfcc46bb6f1p+6 0x1.c9bfcc46bb6f2p+6 = true.
Proof. repeat split; vm_compute; reflexivity. Qed.

(** *** The theorems at the sample series *)

Lemma stop_loss_tested_before_take_profit_witness :
  check_exit buy 98%float 131%float
             (Samples.bar 202 Samples.noon 109 135 98 109 99 100)
  = Some (loss, 98%float) /\
  scan_exit buy 98%float 131%float 201 Doubles.quiet_then_both
  = Some (202%nat, Samples.bar 202 Samples.noon 109 135 98 109 99 100, loss, 98%float).
Proof.
  apply (@stop_loss_tested_before_take_profit float _ buy 98 131 201%nat
           [Samples.drift_bar 201] [Samples.drift_bar 203]
           (Samples.bar 202 Samples.noon 109 135 98 109 99 100)).
  - constructor; [vm_compute; reflexivity|constructor].
  - vm_compute; reflexivity.
  - vm_compute; reflexivity.
Defined.

Lemma session_containment_witness :
  body Doubles.stalled_after_hours Doubles.start = Some (skip_bar Doubles.start).
Proof.
  apply (proj1 (proj2 (@session_containment float _ Doubles.stalled_after_hours
                         Doubles.fresh))
           Doubles.start
           (mk_Row (mk_Timestamp 200 Samples.late_evening) 100 110 99 109 101 100
                   (Some true) (Some false))).
  - vm_compute; reflexivity.
  - vm_compute; reflexivity.
Defined.

Lemma position_size_formula_witness :
  Account.get_position_size (A := float) (Account.init 10000%float) 1 109 109 = 0%float /\
  Account.get_position_size (A := float) (Account.init 10000%float) 1 109 98
  = (10000 * (1 / 100) / PrimFloat.abs (109 - 98))%float.
Proof.
  split.
  - change (Account.get_position_size (A := float) (Account.init 10000) 1 109 109
            = nlit 0).
    apply (proj1 (@position_size_formula float _ (Account.init 10000) 1 109 109)).
    vm_compute; reflexivity.
  - change (Account.get_position_size (A := float) (Account.init 10000) 1 109 98
            = ndiv (nmul (Account.balance (Account.init 10000)) (ndiv 1 (nlit 100)))
                   (nabs (nsub 109 98))).
    apply (proj2 (@position_size_formula float _ (Account.init 10000) 1 109 98)).
    vm_compute; reflexivity.
Defined.

Lemma cursor_increases_and_run_terminates_witness :
  exists st', body Doubles.rally Doubles.start = Some st' /\
              (cursor Doubles.start < cursor st')%nat /\
              (cursor st' <= length Doubles.rally)%nat.
Proof.
  apply (proj1 (@cursor_increases_and_run_terminates float _ Doubles.rally)
           Doubles.start).
  apply Nat.ltb_lt. vm_compute; reflexivity.
Defined.

Lemma scan_resumes_at_exit_bar_witness :
  exists j cj,
    (cursor Doubles.start < j)%nat /\ nth_error Doubles.rally j = Some cj /\
    exit_time Doubles.rally_first_trade = timestamp cj /\
    cursor Doubles.rally_after_first_trade = j /\
    trade_is_open Doubles.rally_after_first_trade = false.
Proof.
  apply (proj1 (@scan_resumes_at_exit_bar float _ Doubles.rally)
           Doubles.start Doubles.rally_after_first_trade Doubles.rally_first_trade).
  - vm_compute; reflexivity.
  - vm_compute; reflexivity.
Defined.

Lemma consulted_swings_precede_cursor_witness :
  (199 < 200)%nat /\
  nth_error Doubles.stalled 199 = Some Doubles.stalled_dip /\
  is_one (swing_low Doubles.stalled_dip) = true.
Proof.
  apply (proj1 (proj2 (@consulted_swings_precede_cursor float _ Doubles.stalled))
           200%nat (199%nat, Doubles.stalled_dip)).
  right; right.
  apply nth_error_In with (n := 189%nat).
  vm_compute; reflexivity.
Defined.

Lemma open_position_at_series_end_witness :
  body Doubles.stalled Doubles.start
  = Some (mk_State (length Doubles.stalled) (account Doubles.start) true
                   (logger Doubles.start)) /\
  (forall fuel,
      while_loop (S fuel) Doubles.stalled Doubles.start
      = Some (mk_State (length Doubles.stalled) (account Doubles.start) true
                       (logger Doubles.start))).
Proof.
  apply (@open_position_at_series_end float _ Doubles.stalled Doubles.start
           (mk_Row (mk_Timestamp 200 Samples.noon) 100 110 99 109 101 100
                   (Some true) (Some false))
           (mk_Setup buy 109 98 MSS_Bullish (Break_of_LH 101))).
  - reflexivity.
  - vm_compute; reflexivity.
  - vm_compute; reflexivity.
  - vm_compute; reflexivity.
  - vm_compute; reflexivity.
  - vm_compute; reflexivity.
  - apply no_exit_after. vm_compute; reflexivity.
Defined.

End Sample_runs.

(** * More of the code *)

(** ** Runs: what every record and the final account satisfy *)

Section Run_records.
Context {A : Type} `{Num A}.

Lemma check_exit_none_conditions (tt : TradeType) (stop tp : A) (c : Row A) :
  check_exit tt stop tp c = None ->
  stop_condition tt stop c = false /\ target_condition tt tp c = false.
Proof.
  unfold check_exit, stop_condition, target_condition.
  destruct tt.
  - destruct (nleb (low c) stop); [discriminate|].
    destruct (ngeb (high c) tp); [discriminate|auto].
  - destruct (ngeb (high c) stop); [discriminate|].
    destruct (nleb (low c) tp); [discriminate|auto].
Qed.

Lemma check_exit_some_conditions (tt : TradeType) (stop tp : A) (c : Row A) res px :
  check_exit tt stop tp c = Some (res, px) ->
  stop_condition tt stop c = true \/ target_condition tt tp c = true.
Proof.
  unfold check_exit, stop_condition, target_condition.
  destruct tt.
  - destruct (nleb (low c) stop); [auto|].
    destruct (ngeb (high c) tp); [auto|discriminate].
  - destruct (ngeb (high c) stop); [auto|].
    destruct (nleb (low c) tp); [auto|discriminate].
Qed.

(** A property of every record the body can log holds of every record a run
    appends. *)
Lemma run_Forall_logged (df : DataFrame A) (P : TradeRecord A -> Prop) :
  (forall st current_candle s j future_candle res px,
      nth_error df (cursor st) = Some current_candle ->
      in_session (ts_time (timestamp current_candle)) = true ->
      detect df (cursor st) current_candle = Some s ->
      nleb (nabs (nsub (s_entry_price s) (s_stop_loss s))) n0_0001 = false ->
      ngtb (Account.get_position_size (account st) (nlit 1)
              (s_entry_price s) (s_stop_loss s)) (nlit 0) = true ->
      scan_exit (s_trade_type s) (s_stop_loss s)
                (take_profit_of (s_trade_type s) (s_entry_price s)
                   (nabs (nsub (s_entry_price s) (s_stop_loss s))))
                (S (cursor st)) (skipn (S (cursor st)) df)
        = Some (j, future_candle, res, px) ->
      P (logged_record (Account.balance (account st))
                       current_candle future_candle s res px)) ->
  forall lg,
    exists st' new,
      run_loop df lg = Some st' /\
      TradeLogger.trades (logger st') = TradeLogger.trades lg ++ new /\
      Forall P new.
Proof.
  intros HP lg.
  destruct (run_loop_total df lg) as (st' & Hrun & _).
  assert (Hinv : exists new,
             TradeLogger.trades (logger st') = TradeLogger.trades lg ++ new /\
             Forall P new).
  { eapply while_loop_invariant
      with (P := fun st => exists new,
                     TradeLogger.trades (logger st) = TradeLogger.trades lg ++ new /\
                     Forall P new); [ | | exact Hrun].
    - intros st st1 (new & Hnew & Hall) _ Hb.
      apply body_transition in Hb.
      destruct Hb as [ | c s j fc res px _ Hc Hs Hd Hmin Hpos Hscan | ].
      + exists new. auto.
      + exists (new ++ [logged_record (Account.balance (account st)) c fc s res px]).
        cbn [logger TradeLogger.log_trade TradeLogger.trades].
        split; [rewrite Hnew, app_assoc; reflexivity|].
        apply Forall_app. split; [exact Hall|].
        constructor; [|constructor]. eapply HP; eauto.
      + exists new. auto.
    - exists []. cbn. rewrite app_nil_r. auto. }
  destruct Hinv as (new & Hnew & Hall). exists st', new. auto.
Qed.

Lemma detect_labels (df : DataFrame A) (i : nat) (c : Row A) (s : Setup A) :
  detect df i c = Some s ->
  s_entry_price s = close c /\
  ((s_trade_type s = buy /\ s_setup_type s = MSS_Bullish /\
    ngtb (ema_fast c) (ema_slow c) = true /\
    exists level, s_trigger_level s = Break_of_LH level) \/
   (s_trade_type s = sell /\ s_setup_type s = MSS_Bearish /\
    ngtb (ema_fast c) (ema_slow c) = false /\
    exists level, s_trigger_level s = Break_of_HL level)).
Proof.
  unfold detect.
  destruct (ngtb (ema_fast c) (ema_slow c)) eqn:Htrend.
  - destruct (iloc_last (potential_lower_highs df i)) as [lh|]; [|discriminate].
    destruct (ngtb (close c) (high (snd lh))); [|discriminate].
    destruct (iloc_last (recent_lows df i)) as [ll|]; [|discriminate].
    intros [= <-]. cbn. split; [reflexivity|]. left. eauto 6.
  - destruct (iloc_last (potential_higher_lows df i)) as [hl|]; [|discriminate].
    destruct (nltb (close c) (low (snd hl))); [|discriminate].
    destruct (iloc_last (recent_highs df i)) as [lh|]; [|discriminate].
    intros [= <-]. cbn. split; [reflexivity|]. right. eauto 6.
Qed.

(** X1: [find_swing_points] only writes the two swing columns: the frame
    keeps its length, and the timestamps, prices and EMAs of every row. *)
Theorem find_swing_points_keeps_bars (df : DataFrame A) (lookback : nat) :
  length (find_swing_points df lookback) = length df /\
  map (@timestamp A) (find_swing_points df lookback) = map (@timestamp A) df /\
  map (@open A) (find_swing_points df lookback) = map (@open A) df /\
  map (@high A) (find_swing_points df lookback) = map (@high A) df /\
  map (@low A) (find_swing_points df lookback) = map (@low A) df /\
  map (@close A) (find_swing_points df lookback) = map (@close A) df /\
  map (@ema_fast A) (find_swing_points df lookback) = map (@ema_fast A) df /\
  map (@ema_slow A) (find_swing_points df lookback) = map (@ema_slow A) df.
Proof.
  assert (Hroll : forall f col, length (rolling_apply f col lookback) = length col).
  { intros f col. unfold rolling_apply. rewrite length_map, length_seq. reflexivity. }
  assert (Hassign : forall (X : Type) (proj : Row A -> X) set (d : DataFrame A) column,
             (forall r v, proj (set r v) = proj r) ->
             length column = length d ->
             map proj (assign set d column) = map proj d).
  { intros X proj set d. unfold assign.
    induction d as [|r d IH]; intros column Hp Hlen; [reflexivity|].
    destruct column as [|v column]; [discriminate|].
    cbn. rewrite Hp. f_equal. apply IH; [exact Hp|]. cbn in Hlen. lia. }
  assert (Hlen : forall set (d : DataFrame A) column,
             length column = length d -> length (assign set d column) = length d).
  { intros set d column Hl. unfold assign.
    rewrite length_map, length_combine. lia. }
  unfold find_swing_points.
  set (df1 := assign set_swing_high df _).
  assert (Hl1 : length df1 = length df).
  { apply Hlen. rewrite Hroll, length_map. reflexivity. }
  assert (Hcol2 : length (rolling_apply (is_window_min lookback) (map (@low A) df1) lookback)
                  = length df1).
  { rewrite Hroll, length_map. reflexivity. }
  assert (Hcol1 : length (rolling_apply (is_window_max lookback) (map (@high A) df) lookback)
                  = length df).
  { rewrite Hroll, length_map. reflexivity. }
  split; [rewrite Hlen; [exact Hl1|exact Hcol2]|].
  repeat split;
    (rewrite Hassign; [ | reflexivity | exact Hcol2];
     unfold df1; rewrite Hassign; [reflexivity | reflexivity | exact Hcol1]).
Qed.

Lemma timeline_length (df : DataFrame A) (l : list (TradeRecord A)) :
  forall lo, timeline df lo l -> l = [] \/ (lo + length l + 1 <= length df)%nat.
Proof.
  induction l as [|r l IH]; intros lo; cbn [timeline]; [auto|].
  intros (i & j & ci & cj & Hlo & Hij & _ & _ & Hcj & _ & Hrest).
  right.
  assert (Hj : (j < length df)%nat) by (apply nth_error_Some; congruence).
  destruct (IH j Hrest) as [->|Hl]; cbn [length]; lia.
Qed.

(** X2: a run appends at most [len(df) - 201] trades: each one takes its
    entry bar, at index 200 or later, and a later exit bar, and the next
    starts no earlier than that exit.  A frame of 201 rows or fewer gives no
    trade at all. *)
Theorem trades_bounded_by_bars (df : DataFrame A) (lg : TradeLogger.t A) :
  exists st' new,
    run_loop df lg = Some st' /\
    TradeLogger.trades (logger st') = TradeLogger.trades lg ++ new /\
    (length new <= length df - 201)%nat.
Proof.
  destruct (run_ledger df lg) as (st' & new & Hrun & Hnew & Hled).
  exists st', new. repeat split; try assumption.
  apply ledger_timeline in Hled. apply timeline_length in Hled.
  destruct Hled as [->|Hl]; cbn [length]; lia.
Qed.

(** X3: a run never logs a degenerate trade: every record it appends has a
    stop distance |entry - stop| that is not <= 0.0001 and a position size
    > 0, and its direction, setup label and trigger label agree (buy with
    "MSS - Bullish" and a broken lower high, sell with "MSS - Bearish" and a
    broken higher low). *)
Theorem no_degenerate_trade (df : DataFrame A) (lg : TradeLogger.t A) :
  exists st' new,
    run_loop df lg = Some st' /\
    TradeLogger.trades (logger st') = TradeLogger.trades lg ++ new /\
    Forall (fun r =>
              nleb (nabs (nsub (entry_price r) (stop_loss r))) n0_0001 = false /\
              ngtb (position_size r) (nlit 0) = true /\
              labels_agree r) new.
Proof.
  apply run_Forall_logged.
  intros st c s j fc res px _ _ Hd Hmin Hpos _.
  unfold logged_record, labels_agree.
  cbn [entry_price stop_loss position_size trade_type setup_type trigger_level].
  repeat split; try assumption.
  apply detect_labels in Hd as (_ & [(Ht & Hs & _ & Hl)|(Ht & Hs & _ & Hl)]); auto.
Qed.

(** X4: every trade of a run is closed on the first bar after its entry bar
    that meets its stop or its target condition: the exit bar meets one of
    them, and no bar strictly between entry and exit meets either. *)
Theorem exit_on_first_hit (df : DataFrame A) (lg : TradeLogger.t A) :
  exists st' new,
    run_loop df lg = Some st' /\
    TradeLogger.trades (logger st') = TradeLogger.trades lg ++ new /\
    Forall (closed_on_first_hit df) new.
Proof.
  apply run_Forall_logged.
  intros st c s j fc res px Hc _ _ _ _ Hscan.
  pose proof (scan_exit_found _ _ _ _ _ Hscan) as (Hle & Hn & Hx & Hpre).
  rewrite nth_error_skipn in Hn.
  replace (S (cursor st) + (j - S (cursor st)))%nat with j in Hn by lia.
  exists (cursor st), j, c, fc.
  unfold logged_record.
  cbn [entry_time exit_time trade_type stop_loss take_profit].
  split; [lia|].
  do 4 (split; [first [assumption|reflexivity]|]).
  split; [eapply check_exit_some_conditions; exact Hx|].
  intros m cm Hm Hcm.
  apply check_exit_none_conditions.
  apply (Hpre (m - S (cursor st))%nat cm); [lia|].
  rewrite nth_error_skipn.
  replace (S (cursor st) + (m - S (cursor st)))%nat with m by lia.
  exact Hcm.
Qed.

Lemma last_cons {X : Type} (l : list X) :
  forall a d, last (a :: l) d = last l a.
Proof.
  induction l as [|b l IH]; intros a d; [reflexivity|].
  change (last (a :: b :: l) d) with (last (b :: l) d).
  rewrite !IH. reflexivity.
Qed.

Lemma ledger_final_balance (df : DataFrame A) (l : list (TradeRecord A)) :
  forall lo prev hi final,
    ledger_from df lo prev l hi final ->
    final = fold_left nadd (map (@pnl_currency A) l) prev /\
    final = last (map (@account_balance A) l) prev.
Proof.
  induction l as [|r l IH]; intros lo prev hi final; cbn [ledger_from].
  - intros [_ ->]. cbn. auto.
  - intros (i & j & _ & Hem & Hrest).
    destruct (emitted_fields Hem) as (Hbal & _).
    destruct (IH _ _ _ _ Hrest) as [Hf Hl].
    cbn [map fold_left]. rewrite <- Hbal. split; [exact Hf|].
    rewrite Hl. symmetry. apply last_cons.
Qed.

(** X5: when a run ends, the account balance is the initial 10000 with the
    P&L of the appended trades added one after the other, in order; it is
    also the [account_balance] of the last appended record (10000 if there
    is none), and [initial_balance] is still 10000. *)
Theorem final_balance_is_running_sum (df : DataFrame A) (lg : TradeLogger.t A) :
  exists st' new,
    run_loop df lg = Some st' /\
    TradeLogger.trades (logger st') = TradeLogger.trades lg ++ new /\
    Account.balance (account st')
    = fold_left nadd (map (@pnl_currency A) new) (nlit 10000) /\
    Account.balance (account st')
    = last (map (@account_balance A) new) (nlit 10000) /\
    Account.initial_balance (account st') = nlit 10000.
Proof.
  destruct (run_ledger df lg) as (st' & new & Hrun & Hnew & Hled).
  exists st', new.
  destruct (ledger_final_balance _ _ _ _ _ _ Hled) as [Hf Hl].
  repeat split; try assumption.
  eapply while_loop_invariant
    with (P := fun st => Account.initial_balance (account st) = nlit 10000);
    [ | | exact Hrun].
  - intros st st1 Hst _ Hb. apply body_transition in Hb.
    destruct Hb; cbn; assumption.
  - reflexivity.
Qed.

End Run_records.

(** ** The session window *)

Lemma after_open_by_hour (t : time) :
  time_leb (mk_time 8 0 0 0) t = true <-> (8 <= hour t)%nat.
Proof.
  unfold time_leb, time_compare. destruct t as [h m s u].
  cbn [hour minute second microsecond].
  destruct (Nat.compare_spec 8 h); [|split; [lia|reflexivity]|split; [discriminate|lia]].
  destruct (Nat.compare_spec 0 m); [|split; [lia|reflexivity]|lia].
  destruct (Nat.compare_spec 0 s); [|split; [lia|reflexivity]|lia].
  destruct (Nat.compare_spec 0 u); [split; [lia|reflexivity]|split; [lia|reflexivity]|lia].
Qed.

Lemma before_close_by_hour (t : time) :
  time_leb t (mk_time 22 0 0 0) = true <->
  (hour t < 22)%nat \/
  (hour t = 22%nat /\ minute t = 0%nat /\ second t = 0%nat /\ microsecond t = 0%nat).
Proof.
  unfold time_leb, time_compare. destruct t as [h m s u].
  cbn [hour minute second microsecond].
  destruct (Nat.compare_spec h 22);
    [|split; [intros _; left; assumption|reflexivity]
     |split; [discriminate|intros [?|(? & _)]; lia]].
  destruct (Nat.compare_spec m 0);
    [|lia|split; [discriminate|intros [?|(_ & ? & _)]; lia]].
  destruct (Nat.compare_spec s 0);
    [|lia|split; [discriminate|intros [?|(_ & _ & ? & _)]; lia]].
  destruct (Nat.compare_spec u 0);
    [split; [intros _; right; auto|reflexivity]
    |lia|split; [discriminate|intros [?|(_ & _ & _ & ?)]; lia]].
Qed.

(** X6: the session test accepts exactly the times of day from 08:00:00 up
    to 21:59:59.999999 and the instant 22:00:00.000000: it holds iff the
    hour is 8..21, or the time is 22:00 sharp.  [CheckSessionHoursTool] of
    [trading_tools.py] is the same test. *)
Theorem session_window_by_hour (t : time) :
  (in_session t = true <->
   (8 <= hour t <= 21)%nat \/
   (hour t = 22%nat /\ minute t = 0%nat /\ second t = 0%nat /\ microsecond t = 0%nat)) /\
  (forall d, TradingTools.CheckSessionHoursTool_run (mk_Timestamp d t) = in_session t).
Proof.
  split; [|reflexivity].
  unfold in_session, london_open, ny_close.
  rewrite andb_true_iff, after_open_by_hour, before_close_by_hour.
  split.
  - intros [H8 [Hlt|Heq]]; [left; lia|right; exact Heq].
  - intros [Hh|Heq]; [split; [lia|left; lia]|].
    split; [destruct Heq as [-> _]; lia|right; exact Heq].
Qed.

(** ** Signal detection: which swings a setup rests on *)

Section Detection.
Context {A : Type} `{Num A}.

Lemma combine_seq_lower (l : DataFrame A) :
  forall start p, In p (combine (seq start (length l)) l) -> (start <= fst p)%nat.
Proof.
  intros start [k r] Hin. apply in_combine_l in Hin. apply in_seq in Hin. cbn. lia.
Qed.

Lemma indexed_sorted (df : DataFrame A) : StronglySorted fst_lt (indexed df).
Proof.
  unfold indexed. generalize 0%nat.
  induction df as [|r df IH]; intros start; cbn; constructor.
  - apply IH.
  - apply Forall_forall. intros q Hq. apply combine_seq_lower in Hq.
    unfold fst_lt. cbn. lia.
Qed.

Lemma filter_sorted (f : nat * Row A -> bool) (l : Frame A) :
  StronglySorted fst_lt l -> StronglySorted fst_lt (filter f l).
Proof.
  induction 1 as [|a l Hs IH Ha]; cbn; [constructor|].
  destruct (f a); [|exact IH].
  constructor; [exact IH|].
  apply Forall_forall. intros q Hq. apply filter_In in Hq as [Hq _].
  rewrite Forall_forall in Ha. apply Ha. exact Hq.
Qed.

(** The last row of a frame sorted by label has the greatest label. *)
Lemma iloc_last_sorted (l : Frame A) (p : nat * Row A) :
  StronglySorted fst_lt l -> iloc_last l = Some p ->
  In p l /\ (forall q, In q l -> (fst q <= fst p)%nat).
Proof.
  unfold iloc_last. induction 1 as [|a l Hs IH Ha]; cbn [rev]; [discriminate|].
  destruct (rev l) as [|x t] eqn:Hrev.
  - cbn. intros [= <-].
    assert (l = []) by (apply (f_equal (@rev _)) in Hrev; rewrite rev_involutive in Hrev;
                        exact Hrev).
    subst l. split; [left; reflexivity|]. intros q [<-|[]]. lia.
  - cbn. intros [= <-].
    destruct (IH eq_refl) as [Hin Hmax].
    split; [right; exact Hin|].
    intros q [<-|Hq]; [|apply Hmax; exact Hq].
    rewrite Forall_forall in Ha. specialize (Ha x Hin). unfold fst_lt in Ha. lia.
Qed.

Lemma indexed_member (df : DataFrame A) (k : nat) (r : Row A) :
  nth_error df k = Some r -> In (k, r) (indexed df).
Proof.
  intros Hk. unfold indexed.
  apply nth_error_In with (n := k).
  rewrite nth_error_combine, nth_error_seq, Hk.
  assert (Hlt : (k < length df)%nat) by (apply nth_error_Some; congruence).
  apply Nat.ltb_lt in Hlt. rewrite Hlt. reflexivity.
Qed.

(** The last row of [frame[frame.index < i]], for a frame selected from
    [df] by a test on rows, is the latest row before [i] passing it. *)
Lemma iloc_last_latest (df : DataFrame A) (i : nat) (f : Row A -> bool)
      (p : nat * Row A) :
  iloc_last (index_lt (filter (fun q => f (snd q)) (indexed df)) i) = Some p ->
  latest_before df i f (fst p) (snd p).
Proof.
  intros Hlast.
  apply iloc_last_sorted in Hlast as [Hin Hmax].
  2:{ unfold index_lt. apply filter_sorted, filter_sorted, indexed_sorted. }
  unfold index_lt in Hin, Hmax.
  apply filter_In in Hin as [Hin Hlt]. apply filter_In in Hin as [Hin Hf].
  apply Nat.ltb_lt in Hlt.
  repeat split; try assumption.
  - apply indexed_lookup. exact Hin.
  - intros k' r' Hk' Hr' Hf'.
    apply (Hmax (k', r')).
    apply filter_In. split; [|apply Nat.ltb_lt; exact Hk'].
    apply filter_In. split; [apply indexed_member; exact Hr'|exact Hf'].
Qed.

Lemma iloc_last_latest2 (df : DataFrame A) (i : nat) (f g : Row A -> bool)
      (p : nat * Row A) :
  iloc_last (filter (fun q => g (snd q))
                    (index_lt (filter (fun q => f (snd q)) (indexed df)) i)) = Some p ->
  latest_before df i (fun r => f r && g r) (fst p) (snd p).
Proof.
  intros Hlast.
  apply iloc_last_sorted in Hlast as [Hin Hmax].
  2:{ unfold index_lt. apply filter_sorted, filter_sorted, filter_sorted, indexed_sorted. }
  unfold index_lt in Hin, Hmax.
  apply filter_In in Hin as [Hin Hg].
  apply filter_In in Hin as [Hin Hlt]. apply filter_In in Hin as [Hin Hf].
  apply Nat.ltb_lt in Hlt. cbn [snd] in Hg, Hf.
  repeat split; try assumption.
  - apply indexed_lookup. exact Hin.
  - rewrite Hf, Hg. reflexivity.
  - intros k' r' Hk' Hr' Hfg. apply andb_true_iff in Hfg as [Hf' Hg'].
    apply (Hmax (k', r')).
    apply filter_In. split; [|exact Hg'].
    apply filter_In. split; [|apply Nat.ltb_lt; exact Hk'].
    apply filter_In. split; [apply indexed_member; exact Hr'|exact Hf'].
Qed.

(** X7: a setup found at cursor [i] is entered at the close of the cursor
    bar.  A long needs [ema_fast > ema_slow] on the cursor bar; its trigger is
    the latest row before [i] flagged as swing high with
    [ema_fast < ema_slow], whose high the close exceeds, and its stop is the
    low of the latest row before [i] flagged as swing low, whatever the EMAs
    there.  A short is the mirror image, with the trend test failing on the
    cursor bar (so also on a tie). *)
Theorem detect_rests_on_latest_swings
        (df : DataFrame A) (i : nat) (c : Row A) (s : Setup A) :
  detect df i c = Some s ->
  s_entry_price s = close c /\
  match s_trade_type s with
  | buy =>
      ngtb (ema_fast c) (ema_slow c) = true /\
      (exists kh rh,
          latest_before df i
            (fun r => is_one (swing_high r) && nltb (ema_fast r) (ema_slow r)) kh rh /\
          ngtb (close c) (high rh) = true /\
          s_trigger_level s = Break_of_LH (high rh)) /\
      (exists kl rl,
          latest_before df i (fun r => is_one (swing_low r)) kl rl /\
          s_stop_loss s = low rl)
  | sell =>
      ngtb (ema_fast c) (ema_slow c) = false /\
      (exists kl rl,
          latest_before df i
            (fun r => is_one (swing_low r) && ngtb (ema_fast r) (ema_slow r)) kl rl /\
          nltb (close c) (low rl) = true /\
          s_trigger_level s = Break_of_HL (low rl)) /\
      (exists kh rh,
          latest_before df i (fun r => is_one (swing_high r)) kh rh /\
          s_stop_loss s = high rh)
  end.
Proof.
  unfold detect.
  destruct (ngtb (ema_fast c) (ema_slow c)) eqn:Htrend.
  - destruct (iloc_last (potential_lower_highs df i)) as [lh|] eqn:Hlh; [|discriminate].
    destruct (ngtb (close c) (high (snd lh))) eqn:Hbreak; [|discriminate].
    destruct (iloc_last (recent_lows df i)) as [ll|] eqn:Hll; [|discriminate].
    intros [= <-]. cbn. split; [reflexivity|]. split; [reflexivity|]. split.
    + exists (fst lh), (snd lh). split; [|split; [exact Hbreak|reflexivity]].
      apply (iloc_last_latest2 df i (fun r => is_one (swing_high r))
               (fun r => nltb (ema_fast r) (ema_slow r))). exact Hlh.
    + exists (fst ll), (snd ll). split; [|reflexivity].
      apply (iloc_last_latest df i (fun r => is_one (swing_low r))). exact Hll.
  - destruct (iloc_last (potential_higher_lows df i)) as [hl|] eqn:Hhl; [|discriminate].
    destruct (nltb (close c) (low (snd hl))) eqn:Hbreak; [|discriminate].
    destruct (iloc_last (recent_highs df i)) as [lh|] eqn:Hlh; [|discriminate].
    intros [= <-]. cbn. split; [reflexivity|]. split; [reflexivity|]. split.
    + exists (fst hl), (snd hl). split; [|split; [exact Hbreak|reflexivity]].
      apply (iloc_last_latest2 df i (fun r => is_one (swing_low r))
               (fun r => ngtb (ema_fast r) (ema_slow r))). exact Hhl.
    + exists (fst lh), (snd lh). split; [|reflexivity].
      apply (iloc_last_latest df i (fun r => is_one (swing_high r))). exact Hlh.
Qed.

End Detection.

(** ** The ledger by the clock *)

Section Clock.

Ltac compare_cases :=
  repeat match goal with
         | |- context [Nat.compare ?x ?y] =>
             destruct (Nat.compare_spec x y); try subst; try lia; try discriminate
         end.

Lemma time_compare_refl (a : time) : time_compare a a = Eq.
Proof. unfold time_compare. rewrite !Nat.compare_refl. reflexivity. Qed.

Lemma time_compare_lt_asym (a b : time) :
  time_compare a b = Lt -> time_compare b a = Gt.
Proof.
  destruct a as [h1 m1 s1 u1], b as [h2 m2 s2 u2].
  unfold time_compare. cbn [hour minute second microsecond].
  compare_cases; congruence.
Qed.

Lemma time_compare_lt_trans (a b c : time) :
  time_compare a b = Lt -> time_compare b c = Lt -> time_compare a c = Lt.
Proof.
  destruct a as [h1 m1 s1 u1], b as [h2 m2 s2 u2], c as [h3 m3 s3 u3].
  unfold time_compare. cbn [hour minute second microsecond].
  compare_cases; congruence.
Qed.

Lemma ts_ltb_irrefl (a : Timestamp) : ts_ltb a a = false.
Proof.
  unfold ts_ltb. rewrite Z.ltb_irrefl, Z.eqb_refl, time_compare_refl. reflexivity.
Qed.

Lemma ts_ltb_asym (a b : Timestamp) : ts_ltb a b = true -> ts_ltb b a = false.
Proof.
  unfold ts_ltb. intros Hab.
  apply orb_true_iff in Hab as [Hlt|Heq].
  - apply Z.ltb_lt in Hlt.
    assert (H1 : (ts_date b <? ts_date a)%Z = false) by (apply Z.ltb_ge; lia).
    assert (H2 : (ts_date b =? ts_date a)%Z = false) by (apply Z.eqb_neq; lia).
    rewrite H1, H2. reflexivity.
  - apply andb_true_iff in Heq as [Hd Ht]. apply Z.eqb_eq in Hd.
    assert (H1 : (ts_date b <? ts_date a)%Z = false) by (apply Z.ltb_ge; lia).
    rewrite H1, Hd, Z.eqb_refl. cbn.
    destruct (time_compare (ts_time a) (ts_time b)) eqn:Hc; try discriminate.
    rewrite (time_compare_lt_asym _ _ Hc). reflexivity.
Qed.

Lemma ts_ltb_trans (a b c : Timestamp) :
  ts_ltb a b = true -> ts_ltb b c = true -> ts_ltb a c = true.
Proof.
  unfold ts_ltb. intros Hab Hbc.
  apply orb_true_iff in Hab. apply orb_true_iff in Hbc. apply orb_true_iff.
  destruct Hab as [Hab|Hab], Hbc as [Hbc|Hbc];
    rewrite ?andb_true_iff, ?Z.ltb_lt, ?Z.eqb_eq in *.
  - left. lia.
  - left. lia.
  - left. lia.
  - right. destruct Hab as [Hd1 Ht1], Hbc as [Hd2 Ht2]. split; [lia|].
    destruct (time_compare (ts_time a) (ts_time b)) eqn:H1; try discriminate.
    destruct (time_compare (ts_time b) (ts_time c)) eqn:H2; try discriminate.
    rewrite (time_compare_lt_trans _ _ _ H1 H2). reflexivity.
Qed.

Context {A : Type} `{Num A}.

Lemma increasing_timestamps_sound (df : DataFrame A) :
  increasing_timestamps df = true -> timestamps_increase df.
Proof.
  unfold timestamps_increase.
  induction df as [|a df IH]; intros Hc k x y Hx Hy; [destruct k; discriminate|].
  destruct df as [|b df]; [destruct k as [|[|k]]; discriminate|].
  cbn [increasing_timestamps] in Hc. apply andb_true_iff in Hc as [Hab Hrest].
  destruct k as [|k].
  - cbn in Hx, Hy. injection Hx as <-. injection Hy as <-. exact Hab.
  - apply (IH Hrest k x y); assumption.
Qed.

Lemma timestamps_monotone (df : DataFrame A) :
  timestamps_increase df ->
  forall n a b ca cb,
    (b = a + S n)%nat -> nth_error df a = Some ca -> nth_error df b = Some cb ->
    ts_ltb (timestamp ca) (timestamp cb) = true.
Proof.
  intros Hinc. induction n as [|n IH]; intros a b ca cb -> Ha Hb.
  - replace (a + 1)%nat with (S a) in Hb by lia. exact (Hinc a ca cb Ha Hb).
  - assert (Hlt : (a + S n < length df)%nat).
    { assert (a + S (S n) < length df)%nat by (apply nth_error_Some; congruence). lia. }
    destruct (nth_error df (a + S n)) as [cm|] eqn:Hm.
    2:{ apply nth_error_None in Hm. lia. }
    replace (a + S (S n))%nat with (S (a + S n)) in Hb by lia.
    apply ts_ltb_trans with (b := timestamp cm).
    + exact (IH a (a + S n)%nat ca cm eq_refl Ha Hm).
    + exact (Hinc (a + S n)%nat cm cb Hm Hb).
Qed.

Lemma timeline_chronological (df : DataFrame A) (l : list (TradeRecord A)) :
  timestamps_increase df ->
  forall lo, timeline df lo l ->
             chronological l /\
             match l with
             | [] => True
             | r :: _ => forall k ck, (k <= lo)%nat -> nth_error df k = Some ck ->
                                      ts_ltb (entry_time r) (timestamp ck) = false
             end.
Proof.
  intros Hinc. induction l as [|r l IH]; intros lo; cbn [timeline chronological];
    [auto|].
  intros (i & j & ci & cj & Hlo & Hij & Hci & Hent & Hcj & Hex & Hrest).
  destruct (IH j Hrest) as [Hchr Hnext].
  assert (Hmono := timestamps_monotone Hinc).
  split; [split; [|split]|].
  - rewrite Hent, Hex. apply (Hmono (j - i - 1)%nat i j); [lia|assumption|assumption].
  - destruct l as [|r' l']; [trivial|].
    rewrite Hex. apply (Hnext j cj); [lia|exact Hcj].
  - exact Hchr.
  - intros k ck Hk Hck. rewrite Hent.
    destruct (Nat.eq_dec k i) as [->|Hne].
    + rewrite Hci in Hck. injection Hck as <-. apply ts_ltb_irrefl.
    + apply ts_ltb_asym.
      apply (Hmono (i - k - 1)%nat k i); [lia|assumption|assumption].
Qed.

(** X8: on a frame whose consecutive bars carry strictly increasing
    timestamps, the ledger of a run is in time order: every trade's
    exit_time is after its entry_time, and the next trade's entry_time is
    not before that exit_time (it can equal it). *)
Theorem ledger_in_time_order (df : DataFrame A) (lg : TradeLogger.t A) :
  timestamps_increase df ->
  exists st' new,
    run_loop df lg = Some st' /\
    TradeLogger.trades (logger st') = TradeLogger.trades lg ++ new /\
    chronological new.
Proof.
  intros Hinc.
  destruct (run_ledger df lg) as (st' & new & Hrun & Hnew & Hled).
  exists st', new. repeat split; try assumption.
  apply ledger_timeline in Hled.
  destruct (timeline_chronological new Hinc 200 Hled) as [Hchr _]. exact Hchr.
Qed.

End Clock.

(** ** Swing points, in exact arithmetic *)

Section Swing_points.

Local Open Scope Q_scope.

Lemma fold_max_spec (l : list Q) :
  forall a,
    let m := fold_left (fun m v => if nltb m v then v else m) l a in
    (m = a \/ In m l) /\ a <= m /\ (forall v, In v l -> v <= m).
Proof.
  induction l as [|v l IH]; intros a; cbn [fold_left].
  - repeat split; [left; reflexivity|apply Qle_refl|intros v []].
  - change (nltb a v) with (negb (Qle_bool v a)).
    destruct (Qle_bool v a) eqn:Hva; cbn [negb].
    + apply Qle_bool_iff in Hva.
      destruct (IH a) as (Hin & Hle & Hall).
      repeat split.
      * destruct Hin as [->|Hin]; [left; reflexivity|right; right; exact Hin].
      * exact Hle.
      * intros w [<-|Hw]; [eapply Qle_trans; eauto|apply Hall; exact Hw].
    + assert (Hav : a <= v).
      { destruct (Qlt_le_dec a v) as [Hlt|Hle]; [apply Qlt_le_weak; exact Hlt|].
        apply Qle_bool_iff in Hle. congruence. }
      destruct (IH v) as (Hin & Hle & Hall).
      repeat split.
      * right. destruct Hin as [->|Hin]; [left; reflexivity|right; exact Hin].
      * eapply Qle_trans; eauto.
      * intros w [<-|Hw]; [exact Hle|apply Hall; exact Hw].
Qed.

Lemma fold_min_spec (l : list Q) :
  forall a,
    let m := fold_left (fun m v => if nltb v m then v else m) l a in
    (m = a \/ In m l) /\ m <= a /\ (forall v, In v l -> m <= v).
Proof.
  induction l as [|v l IH]; intros a; cbn [fold_left].
  - repeat split; [left; reflexivity|apply Qle_refl|intros v []].
  - change (nltb v a) with (negb (Qle_bool a v)).
    destruct (Qle_bool a v) eqn:Hav; cbn [negb].
    + apply Qle_bool_iff in Hav.
      destruct (IH a) as (Hin & Hle & Hall).
      repeat split.
      * destruct Hin as [->|Hin]; [left; reflexivity|right; right; exact Hin].
      * exact Hle.
      * intros w [<-|Hw]; [eapply Qle_trans; eauto|apply Hall; exact Hw].
    + assert (Hva : v <= a).
      { destruct (Qlt_le_dec v a) as [Hlt|Hle]; [apply Qlt_le_weak; exact Hlt|].
        apply Qle_bool_iff in Hle. congruence. }
      destruct (IH v) as (Hin & Hle & Hall).
      repeat split.
      * right. destruct Hin as [->|Hin]; [left; reflexivity|right; exact Hin].
      * eapply Qle_trans; eauto.
      * intros w [<-|Hw]; [exact Hle|apply Hall; exact Hw].
Qed.

Lemma window_max_iff (x : list Q) (lookback : nat) :
  (lookback < length x)%nat ->
  (is_window_max lookback x = true <->
   forall v, In v x -> v <= nth lookback x (nlit 0)).
Proof.
  intros Hlen. unfold is_window_max, series_max.
  destruct x as [|a l]; [cbn in Hlen; lia|].
  destruct (fold_max_spec l a) as (Hin & Hle & Hall).
  set (m := fold_left _ l a) in *.
  assert (Hm : In m (a :: l)) by (destruct Hin as [->|Hin]; [left|right]; auto).
  assert (Hup : forall v, In v (a :: l) -> v <= m).
  { intros v [<-|Hv]; [exact Hle|apply Hall; exact Hv]. }
  assert (Hc : In (nth lookback (a :: l) (nlit 0)) (a :: l)) by (apply nth_In; exact Hlen).
  cbn [neqb Num_Q]. rewrite Qeq_bool_iff. split.
  - intros Heq v Hv. rewrite Heq. apply Hup. exact Hv.
  - intros Hall'. apply Qle_antisym; [apply Hup; exact Hc|apply Hall'; exact Hm].
Qed.

Lemma window_min_iff (x : list Q) (lookback : nat) :
  (lookback < length x)%nat ->
  (is_window_min lookback x = true <->
   forall v, In v x -> nth lookback x (nlit 0) <= v).
Proof.
  intros Hlen. unfold is_window_min, series_min.
  destruct x as [|a l]; [cbn in Hlen; lia|].
  destruct (fold_min_spec l a) as (Hin & Hle & Hall).
  set (m := fold_left _ l a) in *.
  assert (Hm : In m (a :: l)) by (destruct Hin as [->|Hin]; [left|right]; auto).
  assert (Hlow : forall v, In v (a :: l) -> m <= v).
  { intros v [<-|Hv]; [exact Hle|apply Hall; exact Hv]. }
  assert (Hc : In (nth lookback (a :: l) (nlit 0)) (a :: l)) by (apply nth_In; exact Hlen).
  cbn [neqb Num_Q]. rewrite Qeq_bool_iff. split.
  - intros Heq v Hv. rewrite Heq. apply Hlow. exact Hv.
  - intros Hall'. apply Qle_antisym; [apply Hall'; exact Hm|apply Hlow; exact Hc].
Qed.

(** The window at [k], when it is full: its centre and its members. *)
Lemma centered_window_members (col : list Q) (lookback k : nat) :
  (lookback <= k)%nat -> (k + lookback < length col)%nat ->
  exists x,
    centered_window col lookback k = Some x /\
    (lookback < length x)%nat /\
    nth_error col k = Some (nth lookback x (nlit 0)) /\
    (forall v, In v x <->
               exists m, (k - lookback <= m <= k + lookback)%nat /\
                         nth_error col m = Some v).
Proof.
  intros H1 H2. unfold centered_window.
  assert (Hb : (lookback <=? k) && (k + lookback <? length col) = true).
  { apply andb_true_iff. split; [apply Nat.leb_le|apply Nat.ltb_lt]; assumption. }
  rewrite Hb. eexists. split; [reflexivity|].
  set (x := firstn (2 * lookback + 1) (skipn (k - lookback) col)).
  assert (Hlen : length x = (2 * lookback + 1)%nat).
  { unfold x. rewrite length_firstn, length_skipn. lia. }
  assert (Hnth : forall t, (t < 2 * lookback + 1)%nat ->
                           nth_error x t = nth_error col (k - lookback + t)).
  { intros t Ht. unfold x. rewrite nth_error_firstn.
    apply Nat.ltb_lt in Ht. rewrite Ht. apply nth_error_skipn. }
  split; [lia|]. split.
  - rewrite <- (nth_error_nth' x (nlit 0)) by lia.
    rewrite Hnth by lia. f_equal. lia.
  - intros v. split.
    + intros Hin. apply In_nth_error in Hin as [t Ht].
      assert (Htl : (t < length x)%nat) by (apply nth_error_Some; congruence).
      exists (k - lookback + t)%nat. split; [lia|].
      rewrite <- Hnth by lia. exact Ht.
    + intros (m & Hm & Hv).
      apply nth_error_In with (n := (m - (k - lookback))%nat).
      rewrite Hnth by lia. rewrite <- Hv. f_equal. lia.
Qed.

Lemma rolling_apply_lookup (f : list Q -> bool) (col : list Q) (lookback k : nat)
      (v : option bool) :
  nth_error (rolling_apply f col lookback) k = Some v ->
  v = option_map f (centered_window col lookback k).
Proof.
  unfold rolling_apply. rewrite nth_error_map, nth_error_seq.
  destruct (k <? length col); [|discriminate].
  cbn [option_map Nat.add]. intros [= <-].
  destruct (centered_window col lookback k) as [x|]; [|reflexivity].
  assert (Hn : existsb (not_finite (A := Q)) x = false).
  { induction x as [|a x IHx]; [reflexivity|]. cbn [existsb]. exact IHx. }
  rewrite Hn. reflexivity.
Qed.

Lemma assign_keeps {X : Type} (proj : Row Q -> X) set (d : DataFrame Q) :
  forall column,
    (forall r v, proj (set r v) = proj r) ->
    length column = length d ->
    map proj (assign set d column) = map proj d.
Proof.
  unfold assign. induction d as [|r d IH]; intros column Hp Hlen; [reflexivity|].
  destruct column as [|v column]; [discriminate|].
  cbn. rewrite Hp. f_equal. apply IH; [exact Hp|]. cbn in Hlen. lia.
Qed.

Lemma centered_window_none (col : list Q) (lookback k : nat) :
  centered_window col lookback k = None <->
  ~ ((lookback <= k)%nat /\ (k + lookback < length col)%nat).
Proof.
  unfold centered_window.
  destruct ((lookback <=? k) && (k + lookback <? length col)) eqn:Hb.
  - apply andb_true_iff in Hb as [H1 H2].
    apply Nat.leb_le in H1. apply Nat.ltb_lt in H2.
    split; [discriminate|intros Hn; exfalso; apply Hn; auto].
  - split; [|reflexivity]. intros _ [H1 H2].
    apply Nat.leb_le in H1. apply Nat.ltb_lt in H2.
    rewrite H1, H2 in Hb. discriminate.
Qed.

(** X9: what the flags of [find_swing_points] mean, prices being exact: the
    row at [k] is flagged swing high iff the rows [k-L .. k+L] all exist and
    none of them has a high above the high of row [k] (ties are flagged
    too); swing low likewise with no low below; and the flag is NaN exactly
    on the first and last [L] rows. *)
Theorem swing_flags_mark_window_extremes
        (bars : DataFrame Q) (lookback k : nat) (row : Row Q) :
  nth_error (find_swing_points bars lookback) k = Some row ->
  (swing_high row = Some true <->
   (lookback <= k)%nat /\ (k + lookback < length bars)%nat /\
   forall m cm, (k - lookback <= m <= k + lookback)%nat ->
                nth_error bars m = Some cm -> high cm <= high row) /\
  (swing_low row = Some true <->
   (lookback <= k)%nat /\ (k + lookback < length bars)%nat /\
   forall m cm, (k - lookback <= m <= k + lookback)%nat ->
                nth_error bars m = Some cm -> low row <= low cm) /\
  (swing_high row = None <->
   ~ ((lookback <= k)%nat /\ (k + lookback < length bars)%nat)) /\
  (swing_low row = None <->
   ~ ((lookback <= k)%nat /\ (k + lookback < length bars)%nat)).
Proof.
  unfold find_swing_points. intros Hrow.
  set (col1 := rolling_apply (is_window_max lookback) (map (@high Q) bars) lookback) in *.
  set (df1 := assign set_swing_high bars col1) in *.
  assert (Hlen1 : length col1 = length bars).
  { unfold col1, rolling_apply. rewrite length_map, length_seq, length_map. reflexivity. }
  assert (Hlow1 : map (@low Q) df1 = map (@low Q) bars).
  { unfold df1. apply assign_keeps; [reflexivity|exact Hlen1]. }
  rewrite Hlow1 in Hrow.
  apply assign_lookup in Hrow as (r1 & v2 & Hr1 & Hv2 & ->).
  apply assign_lookup in Hr1 as (r0 & v1 & Hr0 & Hv1 & ->).
  apply rolling_apply_lookup in Hv1. apply rolling_apply_lookup in Hv2.
  cbn [swing_high swing_low high low set_swing_high set_swing_low].
  assert (Hwin : forall (proj : Row Q -> Q) (f : list Q -> bool) (v : option bool)
                        (P : Q -> Q -> Prop),
             v = option_map f (centered_window (map proj bars) lookback k) ->
             (forall x, (lookback < length x)%nat ->
                        (f x = true <->
                         forall w, In w x -> P w (nth lookback x (nlit 0)))) ->
             (v = Some true <->
              (lookback <= k)%nat /\ (k + lookback < length bars)%nat /\
              forall m cm, (k - lookback <= m <= k + lookback)%nat ->
                           nth_error bars m = Some cm -> P (proj cm) (proj r0))).
  { intros proj f v P Hv Hf. split.
    - intros ->.
      destruct (centered_window (map proj bars) lookback k) as [x|] eqn:Hx;
        [|discriminate].
      assert (Hb : (lookback <= k)%nat /\ (k + lookback < length (map proj bars))%nat).
      { destruct (Nat.le_gt_cases lookback k) as [H1|H1];
          destruct (Nat.lt_ge_cases (k + lookback) (length (map proj bars))) as [H2|H2];
          try (split; assumption);
          exfalso;
          assert (Hn : centered_window (map proj bars) lookback k = None)
            by (apply centered_window_none; lia);
          congruence. }
      destruct Hb as [H1 H2].
      destruct (centered_window_members (map proj bars) H1 H2)
        as (x' & Hx' & Hl & Hc & Hmem).
      rewrite Hx in Hx'. injection Hx' as <-.
      rewrite length_map in H2. repeat split; try assumption.
      intros m cm Hm Hcm.
      cbn in Hv. injection Hv as Hv. symmetry in Hv.
      rewrite (Hf x Hl) in Hv.
      assert (Hc' : proj r0 = nth lookback x (nlit 0)).
      { rewrite nth_error_map, Hr0 in Hc. cbn [option_map] in Hc. congruence. }
      rewrite Hc'. apply Hv. apply Hmem. exists m. split; [exact Hm|].
      rewrite nth_error_map, Hcm. reflexivity.
    - intros (H1 & H2 & Hall).
      assert (H2' : (k + lookback < length (map proj bars))%nat)
        by (rewrite length_map; exact H2).
      destruct (centered_window_members (map proj bars) H1 H2')
        as (x & Hx & Hl & Hc & Hmem).
      rewrite Hx in Hv. cbn in Hv. rewrite Hv. f_equal.
      apply (Hf x Hl). intros w Hw.
      apply Hmem in Hw as (m & Hm & Hw).
      rewrite nth_error_map in Hw.
      destruct (nth_error bars m) as [cm|] eqn:Hcm; [|discriminate].
      cbn in Hw. injection Hw as <-.
      assert (Hc' : proj r0 = nth lookback x (nlit 0)).
      { rewrite nth_error_map, Hr0 in Hc. cbn [option_map] in Hc. congruence. }
      rewrite <- Hc'. apply (Hall m cm Hm Hcm). }
  assert (Hnone : forall (proj : Row Q -> Q) (f : list Q -> bool) (v : option bool),
             v = option_map f (centered_window (map proj bars) lookback k) ->
             (v = None <->
              ~ ((lookback <= k)%nat /\ (k + lookback < length bars)%nat))).
  { intros proj f v Hv.
    rewrite <- (length_map proj bars), <- centered_window_none.
    rewrite Hv. destruct (centered_window (map proj bars) lookback k);
      cbn; split; congruence. }
  split; [|split; [|split]].
  - apply (Hwin (@high Q) (is_window_max lookback) v1 (fun w c => w <= c) Hv1).
    intros x Hl. apply window_max_iff. exact Hl.
  - apply (Hwin (@low Q) (is_window_min lookback) v2 (fun w c => c <= w) Hv2).
    intros x Hl. apply window_min_iff. exact Hl.
  - apply (Hnone (@high Q) _ v1 Hv1).
  - apply (Hnone (@low Q) _ v2 Hv2).
Qed.

End Swing_points.

(** ** The sizing tool *)

Section Sizing_tool.
Context {A : Type} `{Num A}.

(** X10: [CalculatePositionSizeTool] of [trading_tools.py] is the sizing of
    the backtester: for every balance, risk percentage, entry and stop, NaN
    and infinite values included, it returns what
    [Account.get_position_size] returns on an account with that balance, in
    the same arithmetic. *)
Theorem position_size_tool_matches_account
        (self : Account.t A) (risk_percent entry_price sl_price : A) :
  TradingTools.CalculatePositionSizeTool_run
    (Account.balance self) risk_percent entry_price sl_price
  = Account.get_position_size self risk_percent entry_price sl_price.
Proof. reflexivity. Qed.

End Sizing_tool.

(** ** [add_indicators] *)

Section Indicator_columns.
Context {A : Type} `{Num A}.

Import Indicators.

Lemma ewm_scan_length (alpha : A) (vals : list A) :
  forall st, length (ewm_scan alpha st vals) = length vals.
Proof.
  induction vals as [|cur rest IH]; intros st; cbn; [reflexivity|].
  rewrite IH. reflexivity.
Qed.

Lemma ewm_recursion_length (alpha : A) (vals : list A) :
  length (ewm_recursion alpha vals) = length vals.
Proof.
  destruct vals as [|v0 rest]; cbn; [reflexivity|].
  rewrite ewm_scan_length. reflexivity.
Qed.

Lemma ewm_mean_length (alpha : A) (vals : list A) :
  length (ewm_mean alpha vals) = length vals.
Proof.
  unfold ewm_mean. rewrite ewm_recursion_length, length_map. reflexivity.
Qed.

Lemma ewm_scan_firstn (alpha : A) (vals : list A) :
  forall n st, firstn n (ewm_scan alpha st vals) = ewm_scan alpha st (firstn n vals).
Proof.
  induction vals as [|cur rest IH]; intros n st.
  - destruct n; reflexivity.
  - destruct n as [|n]; [reflexivity|]. cbn. rewrite IH. reflexivity.
Qed.

Lemma ewm_mean_firstn (alpha : A) (vals : list A) (n : nat) :
  firstn n (ewm_mean alpha vals) = ewm_mean alpha (firstn n vals).
Proof.
  unfold ewm_mean. rewrite <- firstn_map.
  generalize (map prep_value vals) as pvals. intros pvals.
  destruct pvals as [|v0 rest]; [destruct n; reflexivity|].
  destruct n as [|n]; [reflexivity|]. cbn. rewrite ewm_scan_firstn. reflexivity.
Qed.

Lemma assign_column_keeps {X : Type} (proj : Row A -> X) set (d : DataFrame A) :
  forall column,
    (forall r v, proj (set r v) = proj r) ->
    length column = length d ->
    map proj (assign_column set d column) = map proj d.
Proof.
  unfold assign_column. induction d as [|r d IH]; intros column Hp Hlen; [reflexivity|].
  destruct column as [|v column]; [discriminate|].
  cbn. rewrite Hp. f_equal. apply IH; [exact Hp|]. cbn in Hlen. lia.
Qed.

Lemma assign_column_length set (d : DataFrame A) (column : list A) :
  length column = length d -> length (assign_column set d column) = length d.
Proof.
  intros Hl. unfold assign_column. rewrite length_map, length_combine. lia.
Qed.

Lemma assign_column_firstn set (d : DataFrame A) (column : list A) (n : nat) :
  firstn n (assign_column set d column)
  = assign_column set (firstn n d) (firstn n column).
Proof.
  unfold assign_column. rewrite firstn_map, combine_firstn. reflexivity.
Qed.

Lemma assign_column_lookup set (d : DataFrame A) (column : list A) (k : nat) (row : Row A) :
  nth_error (assign_column set d column) k = Some row ->
  exists r0 v, nth_error d k = Some r0 /\ nth_error column k = Some v /\ row = set r0 v.
Proof.
  unfold assign_column. rewrite nth_error_map, nth_error_combine.
  destruct (nth_error d k) as [r0|]; [|discriminate].
  destruct (nth_error column k) as [v|]; [|discriminate].
  cbn. intros [= <-]. eauto.
Qed.

(** When the spans are accepted, the frame that comes back. *)
Lemma add_indicators_accepts (df : DataFrame A) (fast_ema slow_ema : Z) :
  (1 <= fast_ema)%Z -> (1 <= slow_ema)%Z ->
  add_indicators df fast_ema slow_ema
  = Some (assign_column set_ema_slow
            (assign_column set_ema_fast df
               (ewm_mean (alpha_of_span fast_ema) (map (@close A) df)))
            (ewm_mean (alpha_of_span slow_ema)
               (map (@close A)
                  (assign_column set_ema_fast df
                     (ewm_mean (alpha_of_span fast_ema) (map (@close A) df)))))).
Proof.
  intros Hf Hs. unfold add_indicators.
  destruct (fast_ema <? 1)%Z eqn:Ef; [apply Z.ltb_lt in Ef; lia|].
  destruct (slow_ema <? 1)%Z eqn:Es; [apply Z.ltb_lt in Es; lia|].
  reflexivity.
Qed.

Lemma add_indicators_spans (df out : DataFrame A) (fast_ema slow_ema : Z) :
  add_indicators df fast_ema slow_ema = Some out ->
  (1 <= fast_ema)%Z /\ (1 <= slow_ema)%Z.
Proof.
  unfold add_indicators.
  destruct (fast_ema <? 1)%Z eqn:Ef; [discriminate|].
  destruct (slow_ema <? 1)%Z eqn:Es; [discriminate|].
  intros _. apply Z.ltb_ge in Ef. apply Z.ltb_ge in Es. lia.
Qed.

(** X13: [add_indicators] raises exactly when a span is below 1; otherwise
    it writes the two EMA columns and nothing else: the frame keeps its
    length, and the timestamps, prices and swing flags of every row. *)
Theorem add_indicators_keeps_bars (df : DataFrame A) (fast_ema slow_ema : Z) :
  match add_indicators df fast_ema slow_ema with
  | None => (fast_ema < 1)%Z \/ (slow_ema < 1)%Z
  | Some out =>
      (1 <= fast_ema)%Z /\ (1 <= slow_ema)%Z /\
      length out = length df /\
      map (@timestamp A) out = map (@timestamp A) df /\
      map (@open A) out = map (@open A) df /\
      map (@high A) out = map (@high A) df /\
      map (@low A) out = map (@low A) df /\
      map (@close A) out = map (@close A) df /\
      map (@swing_high A) out = map (@swing_high A) df /\
      map (@swing_low A) out = map (@swing_low A) df
  end.
Proof.
  unfold add_indicators.
  destruct (fast_ema <? 1)%Z eqn:Hf; [left; apply Z.ltb_lt; exact Hf|].
  destruct (slow_ema <? 1)%Z eqn:Hs; [right; apply Z.ltb_lt; exact Hs|].
  apply Z.ltb_ge in Hf. apply Z.ltb_ge in Hs.
  set (col1 := ewm_mean (alpha_of_span fast_ema) (map (@close A) df)).
  set (df1 := assign_column set_ema_fast df col1).
  set (col2 := ewm_mean (alpha_of_span slow_ema) (map (@close A) df1)).
  assert (Hc1 : length col1 = length df).
  { unfold col1. rewrite ewm_mean_length, length_map. reflexivity. }
  assert (Hl1 : length df1 = length df) by (apply assign_column_length; exact Hc1).
  assert (Hc2 : length col2 = length df1).
  { unfold col2. rewrite ewm_mean_length, length_map. reflexivity. }
  split; [exact Hf|]. split; [exact Hs|].
  split; [rewrite assign_column_length; [exact Hl1|exact Hc2]|].
  repeat split;
    (rewrite assign_column_keeps; [ | reflexivity | exact Hc2];
     unfold df1; rewrite assign_column_keeps; [reflexivity | reflexivity | exact Hc1]).
Qed.

(** X14: the EMA columns do not look ahead: [add_indicators] of the first
    [n] rows of [df] raises when [add_indicators(df)] raises, and otherwise
    gives the first [n] rows of [add_indicators(df)], for every [n]; the
    EMAs of a bar are settled by the bars up to it. *)
Theorem add_indicators_is_causal (df : DataFrame A) (fast_ema slow_ema : Z) (n : nat) :
  add_indicators (firstn n df) fast_ema slow_ema
  = option_map (firstn n) (add_indicators df fast_ema slow_ema).
Proof.
  unfold add_indicators.
  destruct (fast_ema <? 1)%Z; [reflexivity|].
  destruct (slow_ema <? 1)%Z; [reflexivity|].
  cbn [option_map]. f_equal.
  rewrite assign_column_firstn, ewm_mean_firstn, firstn_map.
  rewrite assign_column_firstn, ewm_mean_firstn, firstn_map.
  reflexivity.
Qed.

(** On a column that holds one finite value throughout, the average is that
    value throughout. *)
Lemma ewm_mean_constant (alpha v : A) (vals : list A) :
  is_finite v = true -> neqb v v = true ->
  (forall x, In x vals -> x = v) ->
  ewm_mean alpha vals = vals.
Proof.
  intros Hfin Heq Hall.
  unfold is_finite in Hfin. apply andb_true_iff in Hfin as [Hnan Hinf].
  apply negb_true_iff in Hnan. apply negb_true_iff in Hinf.
  assert (Hprep : map prep_value vals = vals).
  { rewrite <- (map_id vals) at 2. apply map_ext_in. intros x Hx.
    rewrite (Hall x Hx). unfold prep_value. rewrite Hinf. reflexivity. }
  unfold ewm_mean. rewrite Hprep.
  destruct vals as [|v0 rest]; [reflexivity|].
  assert (Hv0 : v0 = v) by (apply Hall; left; reflexivity). subst v0.
  cbn [ewm_recursion]. f_equal.
  assert (Hrest : forall x, In x rest -> x = v) by (intros x Hx; apply Hall; right; exact Hx).
  clear Hall Hprep. generalize (nlit 1 : A) as w.
  induction rest as [|x rest IH]; intros w; [reflexivity|].
  assert (Hx : x = v) by (apply Hrest; left; reflexivity). subst x.
  cbn [ewm_scan]. unfold ewm_step at 1 2. cbn [weighted old_wt].
  rewrite Hnan, Heq. cbn [weighted]. f_equal.
  apply IH. intros y Hy. apply Hrest. right. exact Hy.
Qed.

(** The EMAs of a row that comes back are the entries of the two averages
    at its place. *)
Lemma add_indicators_lookup (df out : DataFrame A) (fast_ema slow_ema : Z)
      (k : nat) (row : Row A) :
  add_indicators df fast_ema slow_ema = Some out ->
  nth_error out k = Some row ->
  exists r0,
    nth_error df k = Some r0 /\ close row = close r0 /\
    nth_error (ewm_mean (alpha_of_span fast_ema) (map (@close A) df)) k
    = Some (ema_fast row) /\
    nth_error (ewm_mean (alpha_of_span slow_ema) (map (@close A) df)) k
    = Some (ema_slow row).
Proof.
  intros Hadd. destruct (add_indicators_spans _ _ _ Hadd) as [Hf Hs].
  rewrite (add_indicators_accepts df Hf Hs) in Hadd. injection Hadd as <-.
  set (col1 := ewm_mean (alpha_of_span fast_ema) (map (@close A) df)).
  set (df1 := assign_column set_ema_fast df col1).
  assert (Hc1 : length col1 = length df).
  { unfold col1. rewrite ewm_mean_length, length_map. reflexivity. }
  assert (Hclose1 : map (@close A) df1 = map (@close A) df).
  { unfold df1. apply assign_column_keeps; [reflexivity|exact Hc1]. }
  rewrite Hclose1. intros Hrow.
  apply assign_column_lookup in Hrow as (r1 & v2 & Hr1 & Hv2 & ->).
  apply assign_column_lookup in Hr1 as (r0 & v1 & Hr0 & Hv1 & ->).
  exists r0. cbn. auto.
Qed.

(** A step of the recursion on a number, the weight of the past being 1. *)
Lemma ewm_step_update (alpha : A) (st : ewm_state A) (cur : A) :
  old_wt st = nlit 1 -> nisnan cur = false ->
  old_wt (ewm_step alpha st cur) = nlit 1 /\
  weighted (ewm_step alpha st cur) = ema_update alpha (weighted st) cur.
Proof.
  intros Hw Hcur. unfold ewm_step, ema_update. rewrite Hw, Hcur.
  destruct (nisnan (weighted st)); cbn [weighted old_wt]; [auto|].
  destruct (neqb (weighted st) cur); cbn [weighted old_wt]; auto.
Qed.

Lemma ewm_scan_update (alpha : A) (vals : list A) :
  forall st t a b x,
    old_wt st = nlit 1 ->
    (forall y, In y vals -> nisnan y = false) ->
    nth_error (weighted st :: ewm_scan alpha st vals) t = Some a ->
    nth_error (ewm_scan alpha st vals) t = Some b ->
    nth_error vals t = Some x ->
    b = ema_update alpha a x.
Proof.
  induction vals as [|cur rest IH]; intros st t a b x Hw Hall Ha Hb Hx.
  - destruct t; discriminate.
  - destruct (@ewm_step_update alpha st cur Hw (Hall cur (or_introl eq_refl)))
      as [Hw' Hstep].
    destruct t as [|t]; cbn [ewm_scan nth_error] in *.
    + injection Ha as <-. injection Hb as <-. injection Hx as <-. exact Hstep.
    + apply (IH (ewm_step alpha st cur) t a b x); try assumption.
      intros y Hy. apply Hall. right. exact Hy.
Qed.

(** X18: the EMA columns follow the recursion of [ewm(adjust=False)], in the
    arithmetic of the code: when [add_indicators] returns and every close is
    a finite number, the first row has [ema_fast = ema_slow = close], and on
    every later row each EMA comes from its value on the row before and the
    close of the row alone: it is kept when it equals that close, and is
    ((1 - alpha) * previous + alpha * close) / ((1 - alpha) + alpha)
    otherwise, with alpha = 1 / (1 + (span - 1) / 2). *)
Theorem ema_follows_recurrence
        (df out : DataFrame A) (fast_ema slow_ema : Z) :
  add_indicators df fast_ema slow_ema = Some out ->
  (forall c, In c df -> is_finite (close c) = true) ->
  (forall r0, nth_error out 0 = Some r0 ->
              ema_fast r0 = close r0 /\ ema_slow r0 = close r0) /\
  (forall t a b,
      nth_error out t = Some a -> nth_error out (S t) = Some b ->
      ema_fast b = ema_update (alpha_of_span fast_ema) (ema_fast a) (close b) /\
      ema_slow b = ema_update (alpha_of_span slow_ema) (ema_slow a) (close b)).
Proof.
  intros Hadd Hfin.
  assert (Hprep : map prep_value (map (@close A) df) = map (@close A) df).
  { rewrite <- (map_id (map (@close A) df)) at 2. apply map_ext_in.
    intros x Hx. apply in_map_iff in Hx as (c & <- & Hc).
    specialize (Hfin c Hc). unfold is_finite in Hfin.
    apply andb_true_iff in Hfin as [_ Hinf]. apply negb_true_iff in Hinf.
    unfold prep_value. rewrite Hinf. reflexivity. }
  assert (Hnum : forall y, In y (map (@close A) df) -> nisnan y = false).
  { intros y Hy. apply in_map_iff in Hy as (c & <- & Hc).
    specialize (Hfin c Hc). unfold is_finite in Hfin.
    apply andb_true_iff in Hfin as [Hnan _]. apply negb_true_iff in Hnan. exact Hnan. }
  split.
  - intros r0 Hr0.
    destruct (@add_indicators_lookup _ _ _ _ _ _ Hadd Hr0) as (c0 & Hc0 & Hclose & Hfast & Hslow).
    unfold ewm_mean in Hfast, Hslow. rewrite Hprep in Hfast, Hslow.
    destruct df as [|c df]; [discriminate|].
    cbn in Hc0, Hfast, Hslow. injection Hc0 as <-.
    injection Hfast as Hfast. injection Hslow as Hslow.
    rewrite Hclose. auto.
  - intros t a b Ha Hb.
    destruct (@add_indicators_lookup _ _ _ _ _ _ Hadd Ha) as (ca & Hca & _ & Hfa & Hsa).
    destruct (@add_indicators_lookup _ _ _ _ _ _ Hadd Hb) as (cb & Hcb & Hclose & Hfb & Hsb).
    rewrite Hclose.
    unfold ewm_mean in Hfa, Hfb, Hsa, Hsb. rewrite Hprep in Hfa, Hfb, Hsa, Hsb.
    destruct df as [|c0 rest]; [destruct t; discriminate|].
    cbn [map ewm_recursion] in Hfa, Hfb, Hsa, Hsb.
    cbn [nth_error] in Hfb, Hsb, Hcb.
    assert (Hx : nth_error (map (@close A) rest) t = Some (close cb)).
    { rewrite nth_error_map, Hcb. reflexivity. }
    assert (Hrest : forall y, In y (map (@close A) rest) -> nisnan y = false).
    { intros y Hy. apply Hnum. right. exact Hy. }
    split.
    + apply (@ewm_scan_update (alpha_of_span fast_ema) (map (@close A) rest)
               (mk_ewm (close c0) (nlit 1)) t); auto.
    + apply (@ewm_scan_update (alpha_of_span slow_ema) (map (@close A) rest)
               (mk_ewm (close c0) (nlit 1)) t); auto.
Qed.

End Indicator_columns.

(** ** From constant closes to an empty ledger *)

Section Flat_market.
Context {A : Type} `{Num A}.

Import Indicators.

Lemma assign_column_sets {X : Type} (proj : Row A -> X) (inj : A -> X) set (d : DataFrame A) :
  forall column,
    (forall r v, proj (set r v) = inj v) ->
    length column = length d ->
    map proj (assign_column set d column) = map inj column.
Proof.
  unfold assign_column. induction d as [|r d IH]; intros column Hp Hlen.
  - destruct column; [reflexivity|discriminate].
  - destruct column as [|v column]; [discriminate|].
    cbn. rewrite Hp. f_equal. apply IH; [exact Hp|]. cbn in Hlen. lia.
Qed.

Lemma assign_flag_keeps {X : Type} (proj : Row A -> X) set (d : DataFrame A) :
  forall column,
    (forall r v, proj (set r v) = proj r) ->
    length column = length d ->
    map proj (assign set d column) = map proj d.
Proof.
  unfold assign. induction d as [|r d IH]; intros column Hp Hlen; [reflexivity|].
  destruct column as [|v column]; [discriminate|].
  cbn. rewrite Hp. f_equal. apply IH; [exact Hp|]. cbn in Hlen. lia.
Qed.

Lemma find_swing_points_keeps {X : Type} (proj : Row A -> X) (df : DataFrame A) (lookback : nat) :
  (forall r v, proj (set_swing_high r v) = proj r) ->
  (forall r v, proj (set_swing_low r v) = proj r) ->
  map proj (find_swing_points df lookback) = map proj df.
Proof.
  intros Hh Hl. unfold find_swing_points.
  assert (Hroll : forall f col, length (rolling_apply f col lookback) = length col).
  { intros f col. unfold rolling_apply. rewrite length_map, length_seq. reflexivity. }
  set (df1 := assign set_swing_high df _).
  assert (Hl1 : length df1 = length df).
  { unfold df1, assign. rewrite length_map, length_combine, Hroll, length_map. lia. }
  rewrite assign_flag_keeps; [ | exact Hl | rewrite Hroll, length_map; reflexivity].
  unfold df1. apply assign_flag_keeps; [exact Hh|].
  rewrite Hroll, length_map. reflexivity.
Qed.

(** With no setup anywhere in the frame, a run hands the logger back. *)
Lemma run_without_setups (df : DataFrame A) (lg : TradeLogger.t A) :
  (forall i c, nth_error df i = Some c -> detect df i c = None) ->
  run_backtest df lg = Some lg.
Proof.
  intros Hnone. unfold run_backtest.
  destruct (run_loop_total df lg) as (st' & Hrun & _). rewrite Hrun. cbn. f_equal.
  eapply while_loop_invariant with (P := fun st => logger st = lg); [ | | exact Hrun].
  - intros st st1 Hst _ Hb. apply body_transition in Hb.
    destruct Hb as [ | c s j fc res px _ Hc _ Hd _ _ _ | c s _ Hc _ Hd _ _ _ ].
    + exact Hst.
    + rewrite (Hnone _ _ Hc) in Hd. discriminate.
    + rewrite (Hnone _ _ Hc) in Hd. discriminate.
  - reflexivity.
Qed.

Lemma detect_none_on_equal_emas (df : DataFrame A) (i : nat) (c : Row A) :
  (forall r, In r df -> ngtb (ema_fast r) (ema_slow r) = false) ->
  In c df -> detect df i c = None.
Proof.
  intros Hflat Hc. unfold detect. rewrite (Hflat c Hc).
  assert (Hempty : potential_higher_lows df i = []).
  { unfold potential_higher_lows.
    destruct (filter _ (relevant_swing_lows df i)) as [|p l] eqn:Hf; [reflexivity|].
    assert (Hin : In p (filter (fun p => ngtb (ema_fast (snd p)) (ema_slow (snd p)))
                          (relevant_swing_lows df i))) by (rewrite Hf; left; reflexivity).
    apply filter_In in Hin as [Hin Hgt].
    unfold relevant_swing_lows in Hin. apply index_lt_In in Hin as [Hin _].
    apply swing_lows_In in Hin as [Hrow _].
    apply nth_error_In in Hrow. rewrite (Hflat _ Hrow) in Hgt. discriminate. }
  rewrite Hempty. reflexivity.
Qed.

(** X15: a series whose close never changes is never traded: whatever the
    highs, lows and lookback, for spans of at least 1, if every close is the
    same finite number [v], [add_indicators] returns a frame with
    [ema_fast = ema_slow = v] on every row, the trend is 'Bearish'
    throughout with no higher low to break, and [run_backtest] on the
    prepared frame returns the logger with nothing appended. *)
Theorem constant_close_is_never_traded
        (bars : DataFrame A) (fast_ema slow_ema : Z) (lookback : nat)
        (v : A) (lg : TradeLogger.t A) :
  (1 <= fast_ema)%Z -> (1 <= slow_ema)%Z ->
  is_finite v = true -> neqb v v = true -> nltb v v = false ->
  (forall c, In c bars -> close c = v) ->
  exists out,
    add_indicators bars fast_ema slow_ema = Some out /\
    (forall r, In r out -> ema_fast r = v /\ ema_slow r = v) /\
    run_backtest (find_swing_points out lookback) lg = Some lg.
Proof.
  intros Hfast_span Hslow_span Hfin Heq Hlt Hclose.
  rewrite (add_indicators_accepts bars Hfast_span Hslow_span).
  eexists. split; [reflexivity|].
  set (col1 := ewm_mean (alpha_of_span fast_ema) (map (@close A) bars)).
  set (df1 := assign_column set_ema_fast bars col1).
  set (out := assign_column set_ema_slow df1
                (ewm_mean (alpha_of_span slow_ema) (map (@close A) df1))).
  assert (Hcols : map (@ema_fast A) out = map (@close A) bars /\
                  map (@ema_slow A) out = map (@close A) bars).
  { unfold out.
    assert (Hconst : forall x, In x (map (@close A) bars) -> x = v).
    { intros x Hx. apply in_map_iff in Hx as (c & <- & Hc). apply Hclose. exact Hc. }
    assert (Hcol1 : col1 = map (@close A) bars).
    { unfold col1. apply ewm_mean_constant with (v := v); assumption. }
    assert (Hc1 : length col1 = length bars) by (rewrite Hcol1, length_map; reflexivity).
    assert (Hclose1 : map (@close A) df1 = map (@close A) bars).
    { unfold df1. apply assign_column_keeps; [reflexivity|exact Hc1]. }
    assert (Hl1 : length df1 = length bars).
    { unfold df1. apply assign_column_length. exact Hc1. }
    rewrite Hclose1.
    assert (Hcol2 : ewm_mean (alpha_of_span slow_ema) (map (@close A) bars)
                    = map (@close A) bars).
    { apply ewm_mean_constant with (v := v); assumption. }
    rewrite Hcol2. split.
    - rewrite assign_column_keeps; [ | reflexivity | rewrite length_map; exact (eq_sym Hl1)].
      unfold df1.
      rewrite (assign_column_sets (@ema_fast A) (fun x => x)); [ | reflexivity | exact Hc1].
      rewrite map_id. exact Hcol1.
    - rewrite (assign_column_sets (@ema_slow A) (fun x => x));
        [ | reflexivity | rewrite length_map; exact (eq_sym Hl1)].
      apply map_id. }
  destruct Hcols as [Hfast Hslow].
  assert (Hrows : forall (d : DataFrame A),
             map (@ema_fast A) d = map (@close A) bars ->
             map (@ema_slow A) d = map (@close A) bars ->
             forall r, In r d -> ema_fast r = v /\ ema_slow r = v).
  { intros d Hf Hs r Hr. split.
    - assert (Hin : In (ema_fast r) (map (@close A) bars))
        by (rewrite <- Hf; apply in_map; exact Hr).
      apply in_map_iff in Hin as (c & Hc & Hcin). rewrite <- Hc. apply Hclose. exact Hcin.
    - assert (Hin : In (ema_slow r) (map (@close A) bars))
        by (rewrite <- Hs; apply in_map; exact Hr).
      apply in_map_iff in Hin as (c & Hc & Hcin). rewrite <- Hc. apply Hclose. exact Hcin. }
  split; [apply Hrows; assumption|].
  apply run_without_setups. intros i c Hc.
  apply detect_none_on_equal_emas; [|apply nth_error_In in Hc; exact Hc].
  intros r Hr.
  destruct (Hrows (find_swing_points out lookback)) with (r := r) as [Hf Hs];
    try assumption.
  - rewrite find_swing_points_keeps; [exact Hfast|reflexivity|reflexivity].
  - rewrite find_swing_points_keeps; [exact Hslow|reflexivity|reflexivity].
  - unfold ngtb. rewrite Hf, Hs. exact Hlt.
Qed.

(** X16: the live engine and the backtester find the same setups: on a
    frame [df] with its swing selections, [get_market_structure_shift] at
    [current_index] with the session hours 08:00 and 22:00 returns None
    outside the session and otherwise the setup the backtester detects at
    that cursor (trade type, entry price, stop and trigger level); it raises
    where [df.iloc] does. *)
Theorem live_signal_is_backtest_setup (df : DataFrame A) (current_index : nat) :
  (forall c,
      nth_error df current_index = Some c ->
      MarketStructureEngine.get_market_structure_shift
        df (swing_highs df) (swing_lows df) current_index london_open ny_close
      = Some (if in_session (ts_time (timestamp c))
              then option_map signal_of_setup (detect df current_index c)
              else None)) /\
  (nth_error df current_index = None ->
   MarketStructureEngine.get_market_structure_shift
     df (swing_highs df) (swing_lows df) current_index london_open ny_close
   = None).
Proof.
  unfold MarketStructureEngine.get_market_structure_shift.
  split.
  - intros c Hc. rewrite Hc. unfold in_session.
    destruct (time_leb london_open (ts_time (timestamp c))
              && time_leb (ts_time (timestamp c)) ny_close); cbn [negb]; [|reflexivity].
    unfold detect, potential_lower_highs, potential_higher_lows,
      relevant_swing_highs, relevant_swing_lows, recent_lows, recent_highs.
    destruct (ngtb (ema_fast c) (ema_slow c)).
    + destruct (iloc_last _) as [lh|]; [|reflexivity].
      destruct (ngtb (close c) (high (snd lh))); [|reflexivity].
      destruct (iloc_last _) as [ll|]; reflexivity.
    + destruct (iloc_last _) as [hl|]; [|reflexivity].
      destruct (nltb (close c) (low (snd hl))); [|reflexivity].
      destruct (iloc_last _) as [lh|]; reflexivity.
  - intros Hc. rewrite Hc. reflexivity.
Qed.

Lemma loc_upto_unflagged (df : DataFrame A) (f : Row A -> bool) (i : nat) (c : Row A) :
  nth_error df i = Some c -> f c = false ->
  TradingTools.loc_upto (filter (fun q => f (snd q)) (indexed df)) i
  = index_lt (filter (fun q => f (snd q)) (indexed df)) i.
Proof.
  intros Hc Hf. unfold TradingTools.loc_upto, index_lt.
  apply filter_ext_in. intros [k r] Hin. cbn [fst].
  apply filter_In in Hin as [Hin Hfr]. cbn [snd] in Hfr.
  apply indexed_lookup in Hin. cbn [fst snd] in Hin.
  destruct (Nat.eq_dec k i) as [->|Hne].
  - rewrite Hc in Hin. injection Hin as <-. congruence.
  - destruct (k <=? i) eqn:Hle; destruct (k <? i) eqn:Hlt; try reflexivity.
    + apply Nat.leb_le in Hle. apply Nat.ltb_ge in Hlt. lia.
    + apply Nat.leb_gt in Hle. apply Nat.ltb_lt in Hlt. lia.
Qed.

(** X17: [IdentifyMSSSetupTool] against the backtester: the tool selects
    swings up to and including the cursor row ([.loc[:name]]) where the
    backtester takes those strictly before it.  When the cursor row is
    flagged neither swing high nor swing low the two selections coincide,
    and the tool returns the backtester's setup at that cursor if its stop
    distance is > 0.0001, and None otherwise. *)
Theorem identify_setup_tool_matches_detect (df : DataFrame A) (i : nat) (c : Row A) :
  nth_error df i = Some c ->
  is_one (swing_high c) = false -> is_one (swing_low c) = false ->
  TradingTools.IdentifyMSSSetupTool_run df i
  = Some match detect df i c with
         | Some s =>
             if ngtb (nabs (nsub (s_entry_price s) (s_stop_loss s))) n0_0001
             then Some (details_of_setup i s)
             else None
         | None => None
         end.
Proof.
  intros Hc Hh Hl. unfold TradingTools.IdentifyMSSSetupTool_run. rewrite Hc.
  unfold swing_highs, swing_lows.
  rewrite (@loc_upto_unflagged df (fun r => is_one (swing_high r)) i c Hc Hh).
  rewrite (@loc_upto_unflagged df (fun r => is_one (swing_low r)) i c Hc Hl).
  unfold detect, potential_lower_highs, potential_higher_lows,
    relevant_swing_highs, relevant_swing_lows, recent_lows, recent_highs,
    swing_highs, swing_lows.
  destruct (ngtb (ema_fast c) (ema_slow c)).
  - destruct (index_lt (filter (fun q => is_one (swing_high (snd q))) (indexed df)) i)
      as [|p fr] eqn:Hfr; [reflexivity|].
    destruct (iloc_last _) as [lh|]; [|reflexivity].
    destruct (ngtb (close c) (high (snd lh))); [|reflexivity].
    destruct (iloc_last _) as [ll|]; [|reflexivity].
    cbn [s_entry_price s_stop_loss].
    destruct (ngtb _ n0_0001); reflexivity.
  - destruct (index_lt (filter (fun q => is_one (swing_low (snd q))) (indexed df)) i)
      as [|p fr] eqn:Hfr; [reflexivity|].
    destruct (iloc_last _) as [hl|]; [|reflexivity].
    destruct (nltb (close c) (low (snd hl))); [|reflexivity].
    destruct (iloc_last _) as [lh|]; [|reflexivity].
    cbn [s_entry_price s_stop_loss].
    destruct (ngtb _ n0_0001); reflexivity.
Qed.

End Flat_market.

(** ** The recursive average, in exact arithmetic *)

Section Exact_ema.

Import Indicators.
Local Open Scope Q_scope.

Lemma prep_exact (vals : list Q) : map prep_value vals = vals.
Proof.
  induction vals as [|x vals IH]; [reflexivity|].
  cbn [map]. rewrite IH. reflexivity.
Qed.

Lemma ewm_step_exact (alpha : Q) (st : ewm_state Q) (cur : Q) :
  old_wt st = nlit 1 ->
  old_wt (ewm_step alpha st cur) = nlit 1 /\
  weighted (ewm_step alpha st cur) == (1 - alpha) * weighted st + alpha * cur.
Proof.
  intros Hw. unfold ewm_step. rewrite Hw.
  cbn [nisnan nadd nsub nmul ndiv neqb nlit Num_Q].
  change (inject_Z 1) with 1.
  destruct (Qeq_bool (weighted st) cur) eqn:E; cbn [weighted old_wt].
  - split; [reflexivity|]. apply Qeq_bool_eq in E. rewrite <- E. ring.
  - split; [reflexivity|]. field.
    intros F. ring_simplify in F. discriminate.
Qed.

Lemma convex_between (alpha w x lo hi : Q) :
  0 <= alpha -> alpha <= 1 -> lo <= w <= hi -> lo <= x <= hi ->
  lo <= (1 - alpha) * w + alpha * x <= hi.
Proof.
  intros Ha0 Ha1 [Hw1 Hw2] [Hx1 Hx2].
  assert (Hb : 0 <= 1 - alpha).
  { apply Qplus_le_l with (z := alpha). ring_simplify. exact Ha1. }
  split.
  - setoid_replace lo with ((1 - alpha) * lo + alpha * lo) at 1 by ring.
    apply Qplus_le_compat.
    + rewrite !(Qmult_comm (1 - alpha)). apply Qmult_le_compat_r; assumption.
    + rewrite !(Qmult_comm alpha). apply Qmult_le_compat_r; assumption.
  - setoid_replace hi with ((1 - alpha) * hi + alpha * hi) at 1 by ring.
    apply Qplus_le_compat.
    + rewrite !(Qmult_comm (1 - alpha)). apply Qmult_le_compat_r; assumption.
    + rewrite !(Qmult_comm alpha). apply Qmult_le_compat_r; assumption.
Qed.

Lemma ewm_scan_between (alpha lo hi : Q) (vals : list Q) :
  0 <= alpha -> alpha <= 1 ->
  forall st,
    old_wt st = nlit 1 -> lo <= weighted st <= hi ->
    (forall x, In x vals -> lo <= x <= hi) ->
    forall y, In y (ewm_scan alpha st vals) -> lo <= y <= hi.
Proof.
  intros Ha0 Ha1. induction vals as [|cur rest IH]; intros st Hw Hst Hall y Hy.
  - destruct Hy.
  - destruct (ewm_step_exact alpha st cur Hw) as [Hw' Hstep].
    assert (Hnew : lo <= weighted (ewm_step alpha st cur) <= hi).
    { rewrite Hstep. apply convex_between; try assumption.
      apply Hall. left. reflexivity. }
    cbn [ewm_scan] in Hy. destruct Hy as [<-|Hy]; [exact Hnew|].
    apply (IH (ewm_step alpha st cur)); try assumption.
    intros x Hx. apply Hall. right. exact Hx.
Qed.

Lemma ewm_mean_between (alpha lo hi : Q) (vals : list Q) :
  0 <= alpha -> alpha <= 1 ->
  (forall x, In x vals -> lo <= x <= hi) ->
  forall y, In y (ewm_mean alpha vals) -> lo <= y <= hi.
Proof.
  intros Ha0 Ha1 Hall y Hy.
  unfold ewm_mean in Hy. rewrite prep_exact in Hy.
  destruct vals as [|v0 rest]; [destruct Hy|].
  cbn [ewm_recursion] in Hy. destruct Hy as [<-|Hy]; [apply Hall; left; reflexivity|].
  apply (@ewm_scan_between alpha lo hi rest Ha0 Ha1 (mk_ewm v0 (nlit 1)));
    [reflexivity | | | exact Hy].
  - apply Hall. left. reflexivity.
  - intros x Hx. apply Hall. right. exact Hx.
Qed.

End Exact_ema.

(** ** The opposite-trade simulation of the analyzer *)

Section Opposite_trade.
Context {A : Type} `{Num A}.

Import TradeAnalyzer.

(** The loop stops at the first row that meets the target or the stop, and
    takes the target when the row meets it. *)
Lemma scan_future_first_hit (tt : TradeType) (sl tp entry_price : A)
      (future : list (PriceRow A)) :
  scan_future tt sl tp entry_price future
  = match find (fun r => opposite_target_hit tt tp entry_price r
                         || opposite_stop_hit tt sl entry_price r) future with
    | Some r =>
        Some (if opposite_target_hit tt tp entry_price r then tp else sl, _get_time r)
    | None => None
    end.
Proof.
  induction future as [|r rest IH]; [reflexivity|].
  cbn [scan_future find].
  destruct tt; cbn [opposite_target_hit opposite_stop_hit] in *.
  - destruct (ngeb _ tp) eqn:Htp; cbn [orb]; [rewrite Htp; reflexivity|].
    destruct (nleb _ sl) eqn:Hsl; [rewrite Htp; reflexivity|]. exact IH.
  - destruct (nleb _ tp) eqn:Htp; cbn [orb]; [rewrite Htp; reflexivity|].
    destruct (ngeb _ sl) eqn:Hsl; [rewrite Htp; reflexivity|]. exact IH.
Qed.

Lemma find_after_misses {X : Type} (f : X -> bool) (pre post : list X) (x : X) :
  (forall y, In y pre -> f y = false) -> f x = true ->
  find f (pre ++ x :: post) = Some x.
Proof.
  intros Hpre Hx. induction pre as [|y pre IH]; cbn.
  - rewrite Hx. reflexivity.
  - rewrite (Hpre y (or_introl eq_refl)). apply IH.
    intros z Hz. apply Hpre. right. exact Hz.
Qed.

Lemma find_all_miss {X : Type} (f : X -> bool) (l : list X) :
  (forall y, In y l -> f y = false) -> find f l = None.
Proof.
  intros Hall. induction l as [|y l IH]; cbn; [reflexivity|].
  rewrite (Hall y (or_introl eq_refl)). apply IH.
  intros z Hz. apply Hall. right. exact Hz.
Qed.

Lemma loc_from_incl (price_df : list (PriceRow A)) (t : Timestamp) (r : PriceRow A) :
  In r (loc_from price_df t) -> In r price_df.
Proof.
  induction price_df as [|x rest IH]; cbn [loc_from]; [auto|].
  destruct (ts_ltb (pr_label x) t); [intros Hin; right; apply IH; exact Hin|auto].
Qed.

Lemma iloc_1_301_incl (rows : list (PriceRow A)) (r : PriceRow A) :
  In r (iloc_1_301 rows) -> In r rows.
Proof.
  unfold iloc_1_301. intros Hin.
  rewrite <- (firstn_skipn 1 rows). apply in_or_app. right.
  rewrite <- (firstn_skipn 300 (skipn 1 rows)). apply in_or_app. left. exact Hin.
Qed.

(** X20: the opposite-trade simulation tests the target before the stop,
    the other way round from the backtester: when the first row of the
    300-row horizon that meets either condition meets both, the simulated
    trade exits at its take-profit. *)
Theorem opposite_trade_takes_target_first
        (price_df : list (PriceRow A)) (entry_time : Timestamp)
        (entry_price risk_distance rr : A) (tt : TradeType)
        (pre post : list (PriceRow A)) (fc : PriceRow A) :
  iloc_1_301 (loc_from price_df entry_time) = pre ++ fc :: post ->
  (forall r, In r pre ->
             opposite_target_hit tt (opposite_tp tt entry_price risk_distance rr)
                                 entry_price r = false /\
             opposite_stop_hit tt (opposite_sl tt entry_price risk_distance)
                               entry_price r = false) ->
  opposite_target_hit tt (opposite_tp tt entry_price risk_distance rr)
                      entry_price fc = true ->
  opposite_stop_hit tt (opposite_sl tt entry_price risk_distance)
                    entry_price fc = true ->
  _simulate_opposite price_df entry_time entry_price tt risk_distance rr
  = (opposite_sl tt entry_price risk_distance,
     opposite_tp tt entry_price risk_distance rr,
     opposite_tp tt entry_price risk_distance rr,
     _get_time fc).
Proof.
  intros Hfut Hpre Htp _.
  unfold _simulate_opposite.
  change (match tt with
          | buy => nsub entry_price risk_distance
          | sell => nadd entry_price risk_distance
          end) with (opposite_sl tt entry_price risk_distance).
  change (match tt with
          | buy => nadd entry_price (nmul rr risk_distance)
          | sell => nsub entry_price (nmul rr risk_distance)
          end) with (opposite_tp tt entry_price risk_distance rr).
  rewrite scan_future_first_hit, Hfut.
  rewrite find_after_misses.
  - rewrite Htp. reflexivity.
  - intros y Hy. destruct (Hpre y Hy) as [-> ->]. reflexivity.
  - rewrite Htp. reflexivity.
Qed.

(** X21: the simulation looks at no more than 300 rows, those after the
    first row that is not before the entry time; when none of them meets
    the target or the stop it returns the entry price as exit price and the
    entry time as exit time, whatever the frame holds further on. *)
Theorem opposite_trade_without_exit
        (price_df : list (PriceRow A)) (entry_time : Timestamp)
        (entry_price risk_distance rr : A) (tt : TradeType) :
  (length (iloc_1_301 (loc_from price_df entry_time)) <= 300)%nat /\
  ((forall r, In r (iloc_1_301 (loc_from price_df entry_time)) ->
              opposite_target_hit tt (opposite_tp tt entry_price risk_distance rr)
                                  entry_price r = false /\
              opposite_stop_hit tt (opposite_sl tt entry_price risk_distance)
                                entry_price r = false) ->
   _simulate_opposite price_df entry_time entry_price tt risk_distance rr
   = (opposite_sl tt entry_price risk_distance,
      opposite_tp tt entry_price risk_distance rr,
      entry_price, Some entry_time)).
Proof.
  split; [unfold iloc_1_301; apply firstn_le_length|].
  intros Hall. unfold _simulate_opposite.
  change (match tt with
          | buy => nsub entry_price risk_distance
          | sell => nadd entry_price risk_distance
          end) with (opposite_sl tt entry_price risk_distance).
  change (match tt with
          | buy => nadd entry_price (nmul rr risk_distance)
          | sell => nsub entry_price (nmul rr risk_distance)
          end) with (opposite_tp tt entry_price risk_distance rr).
  rewrite scan_future_first_hit, find_all_miss.
  - reflexivity.
  - intros y Hy. destruct (Hall y Hy) as [-> ->]. reflexivity.
Qed.

(** X22: on a price frame that is indexed by time and has no [time] or
    [timestamp] column, as [analyze_trades] builds it from a file that has
    a [time] column and no [timestamp] column, the simulation cannot name
    the exit bar: the exit time it returns is None whenever a row of the
    horizon meets the target or the stop, and the entry time otherwise. *)
Theorem opposite_trade_exit_time
        (price_df : list (PriceRow A)) (entry_time : Timestamp)
        (entry_price risk_distance rr : A) (tt : TradeType) :
  (forall r, In r price_df -> pr_time r = None /\ pr_timestamp r = None) ->
  snd (_simulate_opposite price_df entry_time entry_price tt risk_distance rr)
  = if existsb (fun r =>
                  opposite_target_hit tt (opposite_tp tt entry_price risk_distance rr)
                                      entry_price r
                  || opposite_stop_hit tt (opposite_sl tt entry_price risk_distance)
                                       entry_price r)
               (iloc_1_301 (loc_from price_df entry_time))
    then None else Some entry_time.
Proof.
  intros Hcols. unfold _simulate_opposite.
  change (match tt with
          | buy => nsub entry_price risk_distance
          | sell => nadd entry_price risk_distance
          end) with (opposite_sl tt entry_price risk_distance).
  change (match tt with
          | buy => nadd entry_price (nmul rr risk_distance)
          | sell => nsub entry_price (nmul rr risk_distance)
          end) with (opposite_tp tt entry_price risk_distance rr).
  rewrite scan_future_first_hit.
  set (f := fun r => opposite_target_hit tt (opposite_tp tt entry_price risk_distance rr)
                                         entry_price r
                     || opposite_stop_hit tt (opposite_sl tt entry_price risk_distance)
                                          entry_price r).
  assert (Hsub : forall r, In r (iloc_1_301 (loc_from price_df entry_time)) ->
                           _get_time r = None).
  { intros r Hr. apply iloc_1_301_incl, loc_from_incl in Hr.
    destruct (Hcols r Hr) as [Ht Hts]. unfold _get_time. rewrite Ht, Hts. reflexivity. }
  revert Hsub. generalize (iloc_1_301 (loc_from price_df entry_time)) as rows.
  induction rows as [|r rows IH]; intros Hsub; [reflexivity|].
  cbn [find existsb].
  destruct (f r) eqn:Hf; cbn [orb].
  - cbn [snd]. apply Hsub. left. reflexivity.
  - apply IH. intros y Hy. apply Hsub. right. exact Hy.
Qed.

End Opposite_trade.

(** ** The tools in sequence *)

(** On doubles, [x > y] rules out [x <= y]. *)
Lemma SFcompare_antisym (x y : SpecFloat.spec_float) :
  SpecFloat.SFcompare x y = option_map CompOpp (SpecFloat.SFcompare y x).
Proof.
  destruct x as [sx|sx| |sx mx ex], y as [sy|sy| |sy my ey];
    cbn [SpecFloat.SFcompare option_map CompOpp];
    try reflexivity;
    try (destruct sx; reflexivity);
    try (destruct sy; reflexivity);
    try (destruct sx, sy; reflexivity).
  destruct sx, sy; cbn [CompOpp]; try reflexivity.
  - rewrite (Z.compare_antisym ey ex).
    destruct (ey ?= ex)%Z; cbn [CompOpp]; try reflexivity.
    pose proof (Pos.compare_cont_antisym mx my Eq) as Ha. cbn [CompOpp] in Ha.
    destruct (Pos.compare_cont Eq mx my), (Pos.compare_cont Eq my mx);
      cbn [CompOpp] in Ha |- *; try reflexivity; discriminate Ha.
  - rewrite (Z.compare_antisym ey ex).
    destruct (ey ?= ex)%Z; cbn [CompOpp]; try reflexivity.
    pose proof (Pos.compare_cont_antisym mx my Eq) as Ha. cbn [CompOpp] in Ha.
    destruct (Pos.compare_cont Eq mx my), (Pos.compare_cont Eq my mx);
      cbn [CompOpp] in Ha |- *; try reflexivity; discriminate Ha.
Qed.

Lemma float_gt_not_le (x y : float) :
  ngtb x y = true -> nleb x y = false.
Proof.
  unfold ngtb. cbn [nltb nleb Num_float].
  rewrite ltb_spec, leb_spec. unfold SpecFloat.SFltb, SpecFloat.SFleb.
  rewrite (SFcompare_antisym (Prim2SF x) (Prim2SF y)).
  destruct (SpecFloat.SFcompare (Prim2SF y) (Prim2SF x)) as [[| |]|];
    cbn [option_map CompOpp]; intros Hlt; try discriminate; reflexivity.
Qed.

Lemma exact_gt_not_le (x y : Q) :
  ngtb x y = true -> nleb x y = false.
Proof.
  unfold ngtb. cbn [nltb nleb Num_Q]. intros Hlt.
  apply negb_true_iff in Hlt. exact Hlt.
Qed.

Section Tool_chain.
Context {A : Type} `{Num A}.

Import TradingTools.

(** A setup that [IdentifyMSSSetupTool] returns has passed its test of the
    stop distance. *)
Lemma identified_stop_distance (df : DataFrame A) (i : nat) (d : SetupDetails A) :
  IdentifyMSSSetupTool_run df i = Some (Some d) ->
  ngtb (nabs (nsub (sd_entry_price d) (sd_stop_loss d))) n0_0001 = true.
Proof.
  unfold IdentifyMSSSetupTool_run.
  destruct (nth_error df i) as [c|]; [|discriminate].
  destruct (ngtb (ema_fast c) (ema_slow c)).
  - destruct (loc_upto (swing_highs df) i) as [|x xs]; [discriminate|].
    destruct (iloc_last _) as [lh|]; [|discriminate].
    destruct (ngtb (close c) (high (snd lh))); [|discriminate].
    destruct (iloc_last _) as [ll|]; [|discriminate].
    destruct (ngtb _ n0_0001) eqn:Hd; [|discriminate].
    intros Heq. injection Heq as <-. exact Hd.
  - destruct (loc_upto (swing_lows df) i) as [|x xs]; [discriminate|].
    destruct (iloc_last _) as [hl|]; [|discriminate].
    destruct (nltb (close c) (low (snd hl))); [|discriminate].
    destruct (iloc_last _) as [lh|]; [|discriminate].
    destruct (ngtb _ n0_0001) eqn:Hd; [|discriminate].
    intros Heq. injection Heq as <-. exact Hd.
Qed.

(** X26: [CalculateTradeParametersTool] on a setup that
    [IdentifyMSSSetupTool] has returned, for numbers on which [x > y] rules
    out [x <= y], as it does on doubles: the tool never answers that the stop
    distance is too small; it gives the take-profit the backtester sets,
    entry +/- 2 * |entry - stop|, unless the entry or the stop price is zero,
    which it reports as missing details. *)
Theorem identified_setup_gets_backtest_target
        (df : DataFrame A) (i : nat) (d : SetupDetails A) :
  (forall x y : A, ngtb x y = true -> nleb x y = false) ->
  IdentifyMSSSetupTool_run df i = Some (Some d) ->
  CalculateTradeParametersTool_run
    (Some (sd_trade_type d)) (Some (sd_entry_price d)) (Some (sd_stop_loss d))
  = if neqb (sd_entry_price d) (nlit 0) || neqb (sd_stop_loss d) (nlit 0)
    then missing_details
    else with_take_profit
           (take_profit_of (sd_trade_type d) (sd_entry_price d)
                           (nabs (nsub (sd_entry_price d) (sd_stop_loss d)))).
Proof.
  intros Horder Hid.
  pose proof (Horder _ _ (identified_stop_distance df i Hid)) as Hdist.
  unfold CalculateTradeParametersTool_run, truthy.
  destruct (neqb (sd_entry_price d) (nlit 0)); cbn [negb andb orb]; [reflexivity|].
  destruct (neqb (sd_stop_loss d) (nlit 0)); cbn [negb andb orb]; [reflexivity|].
  rewrite Hdist. unfold take_profit_of. reflexivity.
Qed.

End Tool_chain.

(** ** The log after [analyze_trades] *)

Section Log_rewriting.
Context {A : Type} `{Num A}.

Import TradeAnalyzer.

Lemma has_label_In (fr : TradeFrame A) (k : nat) :
  has_label fr k = true <-> In k (map fst fr).
Proof.
  unfold has_label. rewrite existsb_exists. split.
  - intros (p & Hin & Hp). apply Nat.eqb_eq in Hp. subst k.
    apply in_map. exact Hin.
  - intros Hin. apply in_map_iff in Hin as (p & Hp & Hin).
    exists p. split; [exact Hin|]. apply Nat.eqb_eq. exact Hp.
Qed.

Lemma loc_get_member (fr : TradeFrame A) (k : nat) (row : LogRow A) :
  NoDup (map fst fr) -> In (k, row) fr -> loc_get fr k = Some row.
Proof.
  unfold loc_get.
  induction fr as [|[k' r'] fr IH]; cbn [map fst find]; intros Hnd Hin;
    [contradiction|].
  inversion Hnd as [|? ? Hnotin Hnd']; subst.
  destruct Hin as [Heq|Hin].
  - inversion Heq; subst. rewrite Nat.eqb_refl. reflexivity.
  - destruct (k' =? k) eqn:E.
    + apply Nat.eqb_eq in E. subst. exfalso. apply Hnotin.
      apply (in_map fst) in Hin. exact Hin.
    + apply IH; assumption.
Qed.

Lemma dict_set_new (d : list (nat * LogRow A)) (k : nat) (v : LogRow A) :
  ~ In k (map fst d) -> dict_set d k v = d ++ [(k, v)].
Proof.
  induction d as [|[k' v'] d IH]; cbn [dict_set map fst app]; intros Hn;
    [reflexivity|].
  destruct (k' =? k) eqn:E.
  - apply Nat.eqb_eq in E. exfalso. apply Hn. left. exact E.
  - rewrite IH; [reflexivity|]. intros Hin. apply Hn. right. exact Hin.
Qed.

Lemma find_key_absent (d : list (nat * LogRow A)) (k : nat) :
  ~ In k (map fst d) -> find (fun kv => fst kv =? k) d = None.
Proof.
  induction d as [|[k' v'] d IH]; cbn [find map fst]; intros Hn; [reflexivity|].
  destruct (k' =? k) eqn:E.
  - apply Nat.eqb_eq in E. exfalso. apply Hn. left. exact E.
  - apply IH. intros Hin. apply Hn. right. exact Hin.
Qed.

Lemma find_key_app (d : list (nat * LogRow A)) (k k' : nat) (v : LogRow A) :
  k' <> k ->
  find (fun kv => fst kv =? k) (d ++ [(k', v)]) = find (fun kv => fst kv =? k) d.
Proof.
  intros Hne. induction d as [|[k0 v0] d IH]; cbn [find app fst].
  - destruct (k' =? k) eqn:E; [apply Nat.eqb_eq in E; contradiction|reflexivity].
  - destruct (k0 =? k); [reflexivity|exact IH].
Qed.

Lemma find_key_last (d : list (nat * LogRow A)) (k : nat) (v : LogRow A) :
  ~ In k (map fst d) ->
  find (fun kv => fst kv =? k) (d ++ [(k, v)]) = Some (k, v).
Proof.
  induction d as [|[k0 v0] d IH]; cbn [find app fst map]; intros Hn.
  - rewrite Nat.eqb_refl. reflexivity.
  - destruct (k0 =? k) eqn:E.
    + apply Nat.eqb_eq in E. exfalso. apply Hn. left. exact E.
    + apply IH. intros Hin. apply Hn. right. exact Hin.
Qed.

Lemma existsb_label_absent (td : list nat) (k : nat) :
  ~ In k td -> existsb (Nat.eqb k) td = false.
Proof.
  intros Hn. destruct (existsb (Nat.eqb k) td) eqn:E; [|reflexivity].
  apply existsb_exists in E as (x & Hin & Hx). apply Nat.eqb_eq in Hx. subst x.
  contradiction.
Qed.

(** Writing the replacements one after the other puts each at its label. *)
Lemma fold_loc_set (rp : list (nat * LogRow A)) (fr : TradeFrame A) :
  NoDup (map fst rp) -> incl (map fst rp) (map fst fr) ->
  fold_left (fun fr kv => loc_set fr (fst kv) (snd kv)) rp fr
  = map (fun p => (fst p, replacement_for rp p)) fr.
Proof.
  revert fr. induction rp as [|[k v] rp IH]; intros fr Hnd Hincl.
  - cbn [fold_left]. rewrite <- (map_id fr) at 1. apply map_ext.
    intros [a b]. reflexivity.
  - cbn [fold_left fst snd].
    inversion Hnd as [|? ? Hnotin Hnd']; subst.
    assert (Hk : has_label fr k = true).
    { apply has_label_In. apply Hincl. left. reflexivity. }
    assert (Hset : loc_set fr k v
                   = map (fun p => if fst p =? k then (fst p, v) else p) fr).
    { unfold loc_set. rewrite Hk. reflexivity. }
    rewrite Hset.
    assert (Hlab : map fst (map (fun p : nat * LogRow A =>
                                   if fst p =? k then (fst p, v) else p) fr)
                   = map fst fr).
    { rewrite map_map. apply map_ext. intros p. destruct (fst p =? k); reflexivity. }
    rewrite IH; [|exact Hnd'|].
    + rewrite map_map. apply map_ext. intros [a b]. cbn [fst].
      unfold replacement_for. cbn [find fst snd].
      destruct (a =? k) eqn:E.
      * apply Nat.eqb_eq in E. subst a. cbn [fst snd].
        rewrite Nat.eqb_refl. rewrite find_key_absent by exact Hnotin. reflexivity.
      * rewrite Nat.eqb_sym, E. reflexivity.
    + rewrite Hlab. intros x Hx. apply Hincl. right. exact Hx.
Qed.

Lemma drop_present (td : list nat) (fr : TradeFrame A) :
  incl td (map fst fr) ->
  drop fr td = Some (filter (fun p => negb (existsb (Nat.eqb (fst p)) td)) fr).
Proof.
  intros Hincl. unfold drop.
  assert (Hall : forallb (has_label fr) td = true).
  { apply forallb_forall. intros k Hk. apply has_label_In. apply Hincl. exact Hk. }
  rewrite Hall. reflexivity.
Qed.

Lemma rows_after_frame (td : list nat) (rp : list (nat * LogRow A)) (fr : TradeFrame A) :
  map snd (filter (fun p => negb (existsb (Nat.eqb (fst p)) td))
                  (map (fun p => (fst p, replacement_for rp p)) fr))
  = rows_after td rp fr.
Proof.
  unfold rows_after. induction fr as [|p fr IH]; [reflexivity|].
  cbn [map filter flat_map fst].
  destruct (existsb (Nat.eqb (fst p)) td); cbn [negb map app snd]; rewrite IH;
    reflexivity.
Qed.

Lemma keep_all (l : TradeFrame A) :
  filter (fun p => negb (existsb (Nat.eqb (fst p)) [])) l = l.
Proof.
  induction l as [|x l IHl]; [reflexivity|].
  cbn [filter existsb negb]. f_equal. exact IHl.
Qed.

(** What the three closing steps of [analyze_trades] leave in the file. *)
Lemma written_rows (td : list nat) (rp : list (nat * LogRow A)) (fr : TradeFrame A) :
  NoDup (map fst rp) -> incl (map fst rp) (map fst fr) -> incl td (map fst fr) ->
  match
    match td with
    | [] => Some match rp with
                 | [] => fr
                 | _ :: _ => fold_left (fun fr kv => loc_set fr (fst kv) (snd kv)) rp fr
                 end
    | _ :: _ => drop match rp with
                     | [] => fr
                     | _ :: _ =>
                         fold_left (fun fr kv => loc_set fr (fst kv) (snd kv)) rp fr
                     end td
    end
  with
  | None => None
  | Some fr' => Some (Some (map snd fr'))
  end = Some (Some (rows_after td rp fr)).
Proof.
  intros Hnd Hrp Htd.
  assert (Hfold : match rp with
                  | [] => fr
                  | _ :: _ => fold_left (fun fr kv => loc_set fr (fst kv) (snd kv)) rp fr
                  end = map (fun p => (fst p, replacement_for rp p)) fr).
  { rewrite <- fold_loc_set by assumption. destruct rp; reflexivity. }
  rewrite Hfold.
  assert (Hlab : map fst (map (fun p : nat * LogRow A =>
                                 (fst p, replacement_for rp p)) fr) = map fst fr).
  { rewrite map_map. apply map_ext. intros p. reflexivity. }
  destruct td as [|k td'].
  - rewrite <- rows_after_frame. rewrite keep_all. reflexivity.
  - rewrite drop_present by (rewrite Hlab; exact Htd).
    rewrite rows_after_frame. reflexivity.
Qed.

Lemma rows_after_same (td td' : list nat) (rp rp' : list (nat * LogRow A))
      (fr : TradeFrame A) :
  (forall p, In p fr ->
             existsb (Nat.eqb (fst p)) td = existsb (Nat.eqb (fst p)) td' /\
             replacement_for rp p = replacement_for rp' p) ->
  rows_after td rp fr = rows_after td' rp' fr.
Proof.
  unfold rows_after. intros Hsame. induction fr as [|p fr IH]; [reflexivity|].
  cbn [flat_map]. destruct (Hsame p (or_introl eq_refl)) as [-> ->].
  rewrite IH; [reflexivity|]. intros q Hq. apply Hsame. right. exact Hq.
Qed.

Lemma rows_after_app (td : list nat) (rp : list (nat * LogRow A))
      (fr1 fr2 : TradeFrame A) :
  rows_after td rp (fr1 ++ fr2) = rows_after td rp fr1 ++ rows_after td rp fr2.
Proof. unfold rows_after. apply flat_map_app. Qed.

Lemma NoDup_snoc (l : list nat) (k : nat) :
  NoDup l -> ~ In k l -> NoDup (l ++ [k]).
Proof.
  intros Hnd Hn. induction l as [|x l IH]; cbn [app].
  - constructor; [intros []|constructor].
  - inversion Hnd as [|? ? Hx Hl]; subst. constructor.
    + intros Hin. apply in_app_or in Hin as [Hin|[Heq|[]]].
      * contradiction.
      * apply Hn. left. symmetry. exact Heq.
    + apply IH; [exact Hl|]. intros Hin. apply Hn. right. exact Hin.
Qed.

Lemma worked_on (count : nat) :
  (count mod 3 =? 0) || (count mod 3 =? 1) = (count mod 3 <? 2).
Proof.
  destruct (count mod 3) as [|[|[|m]]]; reflexivity.
Qed.

(** The loop, from any row of the log on: it does not raise, and what it
    collects for the rows still to come rewrites them as
    [two_of_three_reworked] says. *)
Lemma lose_loop_rewrites (price : list (PriceRow A)) (suf pre : TradeFrame A)
      (count : nat) (td : list nat) (rp : list (nat * LogRow A)) :
  NoDup (map fst (pre ++ suf)) ->
  incl td (map fst pre) -> incl (map fst rp) (map fst pre) -> NoDup (map fst rp) ->
  exists td' rp',
    lose_loop price (pre ++ suf)
              (map fst (filter (fun p => losing (snd p)) suf)) count td rp
    = Some (td', rp') /\
    incl td' (map fst (pre ++ suf)) /\
    incl (map fst rp') (map fst (pre ++ suf)) /\
    NoDup (map fst rp') /\
    rows_after td' rp' (pre ++ suf)
    = rows_after td rp pre ++ two_of_three_reworked price count (map snd suf).
Proof.
  revert pre count td rp.
  induction suf as [|[lab row] suf IH]; intros pre count td rp Hnd Htd Hrp Hrpnd.
  - cbn [filter map lose_loop two_of_three_reworked]. exists td, rp.
    rewrite !app_nil_r. repeat split; assumption.
  - assert (Hsplit : pre ++ (lab, row) :: suf = (pre ++ [(lab, row)]) ++ suf)
      by (rewrite <- app_assoc; reflexivity).
    assert (Hfresh : ~ In lab (map fst pre)).
    { rewrite map_app in Hnd. cbn [map fst] in Hnd.
      apply NoDup_remove_2 in Hnd. intros Hin. apply Hnd.
      apply in_or_app. left. exact Hin. }
    assert (Hpre1 : map fst (pre ++ [(lab, row)]) = map fst pre ++ [lab])
      by (rewrite map_app; reflexivity).
    assert (Hlab_td : existsb (Nat.eqb lab) td = false).
    { apply existsb_label_absent. intros Hin. apply Hfresh, Htd, Hin. }
    assert (Hlab_rp : ~ In lab (map fst rp)).
    { intros Hin. apply Hfresh, Hrp, Hin. }
    assert (Hother : forall p, In p pre -> fst p <> lab).
    { intros p Hp Heq. apply Hfresh. rewrite <- Heq. apply in_map. exact Hp. }
    cbn [filter snd map two_of_three_reworked].
    destruct (losing row) eqn:Hlose.
    + cbn [map fst lose_loop]. rewrite worked_on, Nat.add_1_r.
      destruct (count mod 3 <? 2) eqn:Hwork.
      * assert (Hget : loc_get (pre ++ (lab, row) :: suf) lab = Some row).
        { apply loc_get_member; [exact Hnd|]. apply in_or_app. right. left.
          reflexivity. }
        rewrite Hget.
        destruct (reverse_row price row) as [new_row|] eqn:Hrev.
        -- rewrite dict_set_new by exact Hlab_rp.
           rewrite Hsplit in Hnd |- *.
           destruct (IH (pre ++ [(lab, row)]) (S count) td (rp ++ [(lab, new_row)]))
             as (td' & rp' & Hloop & Htd' & Hrp' & Hnd' & Hrows).
           ++ exact Hnd.
           ++ rewrite Hpre1. intros x Hx. apply in_or_app. left. apply Htd, Hx.
           ++ rewrite Hpre1, map_app. cbn [map fst].
              intros x Hx. apply in_app_or in Hx as [Hx|Hx];
                apply in_or_app; [left; apply Hrp, Hx|right; exact Hx].
           ++ rewrite map_app. cbn [map fst].
              apply NoDup_snoc; assumption.
           ++ exists td', rp'. repeat split; try assumption.
              rewrite Hrows, rows_after_app, <- app_assoc. f_equal.
              ** apply rows_after_same. intros p Hp. split; [reflexivity|].
                 unfold replacement_for.
                 rewrite find_key_app; [reflexivity|].
                 intros Heq. apply (Hother p Hp). symmetry. exact Heq.
              ** unfold rows_after. cbn [flat_map fst app].
                 rewrite Hlab_td. unfold replacement_for. cbn [fst].
                 rewrite find_key_last by exact Hlab_rp. reflexivity.
        -- rewrite Hsplit in Hnd |- *.
           destruct (IH (pre ++ [(lab, row)]) (S count) (td ++ [lab]) rp)
             as (td' & rp' & Hloop & Htd' & Hrp' & Hnd' & Hrows).
           ++ exact Hnd.
           ++ rewrite Hpre1. intros x Hx. apply in_app_or in Hx as [Hx|Hx];
                apply in_or_app; [left; apply Htd, Hx|right; exact Hx].
           ++ rewrite Hpre1. intros x Hx. apply in_or_app. left. apply Hrp, Hx.
           ++ exact Hrpnd.
           ++ exists td', rp'. repeat split; try assumption.
              rewrite Hrows, rows_after_app, <- app_assoc. f_equal.
              ** apply rows_after_same. intros p Hp. split; [|reflexivity].
                 rewrite existsb_app. cbn [existsb].
                 destruct (fst p =? lab) eqn:E;
                   [apply Nat.eqb_eq in E; destruct (Hother p Hp E)|].
                 rewrite !orb_false_r. reflexivity.
              ** unfold rows_after. cbn [flat_map fst app].
                 rewrite existsb_app. cbn [existsb]. rewrite Nat.eqb_refl.
                 rewrite orb_true_r. reflexivity.
      * rewrite Hsplit in Hnd |- *.
        destruct (IH (pre ++ [(lab, row)]) (S count) td rp)
          as (td' & rp' & Hloop & Htd' & Hrp' & Hnd' & Hrows).
        -- exact Hnd.
        -- rewrite Hpre1. intros x Hx. apply in_or_app. left. apply Htd, Hx.
        -- rewrite Hpre1. intros x Hx. apply in_or_app. left. apply Hrp, Hx.
        -- exact Hrpnd.
        -- exists td', rp'. repeat split; try assumption.
           rewrite Hrows, rows_after_app, <- app_assoc. f_equal.
           unfold rows_after. cbn [flat_map fst app].
           rewrite Hlab_td. unfold replacement_for. cbn [fst snd].
           rewrite find_key_absent by exact Hlab_rp. reflexivity.
    + rewrite Hsplit in Hnd |- *.
      destruct (IH (pre ++ [(lab, row)]) count td rp)
        as (td' & rp' & Hloop & Htd' & Hrp' & Hnd' & Hrows).
      * exact Hnd.
      * rewrite Hpre1. intros x Hx. apply in_or_app. left. apply Htd, Hx.
      * rewrite Hpre1. intros x Hx. apply in_or_app. left. apply Hrp, Hx.
      * exact Hrpnd.
      * exists td', rp'. repeat split; try assumption.
        rewrite Hrows, rows_after_app, <- app_assoc. f_equal.
        unfold rows_after. cbn [flat_map fst app].
        rewrite Hlab_td. unfold replacement_for. cbn [fst snd].
        rewrite find_key_absent by exact Hlab_rp. reflexivity.
Qed.

Lemma labelled_labels (log : list (LogRow A)) :
  map fst (labelled log) = seq 0 (length log).
Proof.
  unfold labelled. generalize 0%nat.
  induction log as [|r log IH]; intros s; [reflexivity|].
  cbn [length seq combine map fst]. rewrite IH. reflexivity.
Qed.

Lemma labelled_rows (log : list (LogRow A)) :
  map snd (labelled log) = log.
Proof.
  unfold labelled. generalize 0%nat.
  induction log as [|r log IH]; intros s; [reflexivity|].
  cbn [length seq combine map snd]. rewrite IH. reflexivity.
Qed.

(** [analyze_trades] raises nothing, and writes the log reworked row by row. *)
Lemma analyze_trades_rows (price : list (PriceRow A)) (log : list (LogRow A)) :
  analyze_trades price log
  = Some match log with
         | [] => None
         | _ :: _ => Some (two_of_three_reworked price 0 log)
         end.
Proof.
  unfold analyze_trades.
  destruct (@lose_loop_rewrites price (labelled log) [] 0 [] [])
    as (td & rp & Hloop & Htd & Hrp & Hnd & Hrows).
  - cbn [app]. rewrite labelled_labels. apply seq_NoDup.
  - intros x [].
  - intros x [].
  - constructor.
  - cbn [app] in *. rewrite labelled_rows in Hrows. cbn [rows_after flat_map app] in Hrows.
    destruct log as [|r log]; [reflexivity|].
    remember (labelled (r :: log)) as fr eqn:Hfr.
    destruct fr as [|x fr]; [discriminate Hfr|].
    rewrite Hloop. rewrite written_rows by assumption.
    rewrite Hrows. reflexivity.
Qed.

Lemma reworked_length (price : list (PriceRow A)) (count : nat) (log : list (LogRow A)) :
  (length (two_of_three_reworked price count log) <= length log)%nat.
Proof.
  revert count. induction log as [|row log IH]; intros count; [apply le_n|].
  cbn [two_of_three_reworked length].
  destruct (losing row).
  - rewrite length_app. specialize (IH (S count)).
    destruct (count mod 3 <? 2); [destruct (reverse_row price row)|]; cbn [length]; lia.
  - cbn [length]. specialize (IH count). lia.
Qed.

(** What a row that the loop reverses looks like. *)
Lemma reverse_row_fields (price : list (PriceRow A)) (row new_row : LogRow A) :
  reverse_row price row = Some new_row ->
  exists entry_time,
    lr_entry_time row = Some entry_time /\
    lr_trade_type new_row = opposite_of (lr_trade_type row) /\
    lr_result new_row = win /\
    ngtb (lr_pnl_currency new_row) (nlit 0) = true /\
    lr_exit_time new_row
    = snd (_simulate_opposite price entry_time (lr_entry_price row)
                              (opposite_of (lr_trade_type row))
                              (nabs (nsub (lr_entry_price row) (lr_stop_loss row)))
                              (nlit 2)) /\
    lr_pnl_currency new_row
    = nmul (nmul (match opposite_of (lr_trade_type row) with
                  | buy => nsub (lr_exit_price new_row) (lr_entry_price row)
                  | sell => nsub (lr_entry_price row) (lr_exit_price new_row)
                  end) (nlit 100000)) (lr_position_size row) /\
    lr_exit_price new_row
    = snd (fst (_simulate_opposite price entry_time (lr_entry_price row)
                                   (opposite_of (lr_trade_type row))
                                   (nabs (nsub (lr_entry_price row) (lr_stop_loss row)))
                                   (nlit 2))).
Proof.
  unfold reverse_row. intros Hrev.
  destruct (lr_entry_time row) as [entry_time|]; [|discriminate].
  destruct (nisnan (lr_entry_price row) || nisnan (lr_stop_loss row)); [discriminate|].
  destruct (_simulate_opposite price entry_time (lr_entry_price row)
                               (opposite_of (lr_trade_type row))
                               (nabs (nsub (lr_entry_price row) (lr_stop_loss row)))
                               (nlit 2)) as [[[sl tp] exit_price] exit_time] eqn:Hsim.
  destruct (ngtb _ (nlit 0)) eqn:Hpnl; [|discriminate].
  injection Hrev as <-. exists entry_time. rewrite Hsim.
  cbn [lr_entry_time lr_exit_time lr_trade_type lr_result lr_pnl_currency
       lr_exit_price snd fst].
  repeat split; try reflexivity.
  - destruct (opposite_of (lr_trade_type row)); exact Hpnl.
  - destruct (opposite_of (lr_trade_type row)); reflexivity.
Qed.

Lemma reworked_rows (price : list (PriceRow A)) (count : nat) (log : list (LogRow A)) :
  Forall (fun r => In r log \/
                   exists row, In row log /\ losing row = true /\
                               reverse_row price row = Some r)
         (two_of_three_reworked price count log).
Proof.
  revert count. induction log as [|row log IH]; intros count; [constructor|].
  assert (Hrest : forall c,
             Forall (fun r => In r (row :: log) \/
                              exists row0, In row0 (row :: log) /\ losing row0 = true /\
                                           reverse_row price row0 = Some r)
                    (two_of_three_reworked price c log)).
  { intros c. eapply Forall_impl; [|exact (IH c)].
    intros r [Hin|(row0 & Hin & Hl & Hr)].
    - left. right. exact Hin.
    - right. exists row0. split; [right; exact Hin|]. split; assumption. }
  cbn [two_of_three_reworked].
  destruct (losing row) eqn:Hlose.
  - apply Forall_app. split; [|apply Hrest].
    destruct (count mod 3 <? 2).
    + destruct (reverse_row price row) as [new_row|] eqn:Hrev; [|constructor].
      constructor; [|constructor]. right. exists row.
      split; [left; reflexivity|]. split; assumption.
    + constructor; [|constructor]. left. left. reflexivity.
  - constructor; [|apply Hrest]. left. left. reflexivity.
Qed.

(** X23: [analyze_trades] on any log and price frame raises nothing; on an
    empty log it writes nothing, and otherwise it writes the log with the
    rows that are not losing left as they are and in place, every third
    losing row (the third, sixth, ...) left as it is, and each of the other
    losing rows replaced by its reversal, a win with a P&L > 0 in the
    opposite direction, or removed when the reversal does not gain.  The
    written log is no longer than the one read. *)
Theorem losses_reworked_two_of_three (price : list (PriceRow A)) (log : list (LogRow A)) :
  analyze_trades price log
  = Some match log with
         | [] => None
         | _ :: _ => Some (two_of_three_reworked price 0 log)
         end /\
  (length (two_of_three_reworked price 0 log) <= length log)%nat /\
  Forall (fun r => In r log \/
                   exists row, In row log /\ losing row = true /\
                               reverse_row price row = Some r /\
                               lr_trade_type r = opposite_of (lr_trade_type row) /\
                               lr_result r = win /\
                               ngtb (lr_pnl_currency r) (nlit 0) = true)
         (two_of_three_reworked price 0 log).
Proof.
  split; [apply analyze_trades_rows|]. split; [apply reworked_length|].
  eapply Forall_impl; [|apply reworked_rows].
  intros r [Hin|(row & Hin & Hl & Hr)]; [left; exact Hin|].
  right. exists row.
  destruct (reverse_row_fields price row Hr) as (et & _ & Htt & Hres & Hpnl & _).
  repeat split; assumption.
Qed.

(** The rows the loop passes by. *)
Lemma scan_future_timeless (tt : TradeType) (sl tp entry_price : A)
      (future : list (PriceRow A)) (exit_price : A) (exit_time : option Timestamp) :
  (forall r, In r future -> _get_time r = None) ->
  scan_future tt sl tp entry_price future = Some (exit_price, exit_time) ->
  exit_time = None.
Proof.
  intros Hcols. rewrite scan_future_first_hit.
  destruct (find _ future) as [r|] eqn:Hfind; [|discriminate].
  apply find_some in Hfind as [Hin _].
  intros Heq. injection Heq as _ <-. apply Hcols. exact Hin.
Qed.

End Log_rewriting.

Section Exact_log.

Import TradeAnalyzer.

Local Open Scope Q_scope.

(** A reversal gains, so it is not a losing row. *)
Lemma reversed_not_losing (price : list (PriceRow Q)) (row new_row : LogRow Q) :
  reverse_row price row = Some new_row ->
  0 < lr_pnl_currency new_row /\ losing new_row = false.
Proof.
  intros Hrev.
  destruct (reverse_row_fields price row Hrev) as (_ & _ & _ & _ & Hpnl & _).
  unfold ngtb in Hpnl. cbn [nltb nlit Num_Q] in Hpnl.
  apply negb_true_iff in Hpnl.
  assert (Hpos : 0 < lr_pnl_currency new_row).
  { apply Qnot_le_lt. intros Hle. apply Qle_bool_iff in Hle.
    change (inject_Z 0) with 0 in Hpnl. congruence. }
  split; [exact Hpos|].
  unfold losing. cbn [nltb nlit Num_Q]. apply negb_false_iff.
  apply Qle_bool_iff. apply Qlt_le_weak. exact Hpos.
Qed.

Lemma third_step (count n : nat) :
  ((S n + count mod 3) / 3
   = (if count mod 3 <? 2 then 0 else 1) + (n + S count mod 3) / 3)%nat.
Proof.
  pose proof (Nat.div_mod_eq count 3) as Hc.
  pose proof (Nat.mod_upper_bound count 3 ltac:(discriminate)) as Hcb.
  pose proof (Nat.div_mod_eq (S count) 3) as Hs.
  pose proof (Nat.mod_upper_bound (S count) 3 ltac:(discriminate)) as Hsb.
  pose proof (Nat.div_mod_eq (S n + count mod 3) 3) as Hl.
  pose proof (Nat.mod_upper_bound (S n + count mod 3) 3 ltac:(discriminate)) as Hlb.
  pose proof (Nat.div_mod_eq (n + S count mod 3) 3) as Hr.
  pose proof (Nat.mod_upper_bound (n + S count mod 3) 3 ltac:(discriminate)) as Hrb.
  destruct (count mod 3 <? 2) eqn:E;
    [apply Nat.ltb_lt in E|apply Nat.ltb_ge in E]; lia.
Qed.

Lemma remaining_losses (price : list (PriceRow Q)) (count : nat) (log : list (LogRow Q)) :
  length (filter losing (two_of_three_reworked price count log))
  = ((length (filter losing log) + count mod 3) / 3)%nat.
Proof.
  revert count. induction log as [|row log IH]; intros count.
  - cbn [two_of_three_reworked filter length plus].
    symmetry. apply Nat.div_small. apply Nat.mod_upper_bound. discriminate.
  - cbn [two_of_three_reworked filter].
    destruct (losing row) eqn:Hlose.
    + rewrite filter_app, length_app, IH. cbn [length].
      rewrite third_step. f_equal.
      destruct (count mod 3 <? 2).
      * destruct (reverse_row price row) as [new_row|] eqn:Hrev; [|reflexivity].
        cbn [filter]. destruct (reversed_not_losing price row Hrev) as [_ ->].
        reflexivity.
      * cbn [filter]. rewrite Hlose. reflexivity.
    + cbn [filter]. rewrite Hlose. apply IH.
Qed.

(** X24: in exact arithmetic, of the losing rows of the log exactly a third
    (rounded down) are left when [analyze_trades] has run, and each losing
    row it writes is a row it read. *)
Theorem a_third_of_the_losses_remain (price : list (PriceRow Q)) (log : list (LogRow Q)) :
  exists out,
    analyze_trades price log
    = Some match log with
           | [] => None
           | _ :: _ => Some out
           end /\
    length (filter losing out) = (length (filter losing log) / 3)%nat /\
    Forall (fun r => losing r = true -> In r log) out.
Proof.
  exists (two_of_three_reworked price 0 log).
  split; [apply analyze_trades_rows|]. split.
  - rewrite remaining_losses. change (0 mod 3)%nat with 0%nat.
    rewrite Nat.add_0_r. reflexivity.
  - eapply Forall_impl; [|apply reworked_rows].
    intros r [Hin|(row & _ & _ & Hrev)] Hl; [exact Hin|].
    destruct (reversed_not_losing price row Hrev) as [_ Hnot]. congruence.
Qed.

(** X25: in exact arithmetic and on a price frame without [time] and
    [timestamp] columns, as [set_index("time")] leaves it, every row that
    [analyze_trades] writes is a row it read or a reversal that has lost its
    exit time: it is a win with a P&L > 0 and [exit_time] None. *)
Theorem reversed_trades_have_no_exit_time
        (price : list (PriceRow Q)) (log : list (LogRow Q)) :
  (forall r, In r price -> pr_time r = None /\ pr_timestamp r = None) ->
  exists out,
    analyze_trades price log
    = Some match log with
           | [] => None
           | _ :: _ => Some out
           end /\
    Forall (fun r => In r log \/
                     (lr_exit_time r = None /\ lr_result r = win /\
                      0 < lr_pnl_currency r)) out.
Proof.
  intros Hcols. exists (two_of_three_reworked price 0 log).
  split; [apply analyze_trades_rows|].
  eapply Forall_impl; [|apply reworked_rows].
  intros r [Hin|(row & _ & _ & Hrev)]; [left; exact Hin|]. right.
  destruct (reversed_not_losing price row Hrev) as [Hpos _].
  destruct (reverse_row_fields price row Hrev)
    as (et & _ & _ & Hres & _ & Htime & Hpnl & Hprice).
  split; [|split; assumption].
  rewrite Htime. revert Hpnl Hprice. unfold _simulate_opposite.
  destruct (scan_future _ _ _ _ _) as [[ep t]|] eqn:Hscan.
  - intros _ _. cbn [snd].
    apply (@scan_future_timeless Q _ _ _ _ _ _ ep t) in Hscan; [exact Hscan|].
    intros x Hx. apply iloc_1_301_incl, loc_from_incl in Hx.
    destruct (Hcols x Hx) as [Ht Hts]. unfold _get_time. rewrite Ht, Hts. reflexivity.
  - cbn [snd fst]. intros Hpnl Hprice. exfalso.
    rewrite Hprice in Hpnl.
    assert (Hzero : lr_pnl_currency r == 0).
    { rewrite Hpnl. cbn [nmul nsub nlit Num_Q].
      destruct (opposite_of (lr_trade_type row)); ring. }
    rewrite Hzero in Hpos. apply (Qlt_irrefl 0). exact Hpos.
Qed.

End Exact_log.

(** ** The report on the ledger of a run *)

Section Report_order.
Context {A : Type} `{Num A}.

Import Reporting.

Lemma insert_last (r : TradeRecord A) (sorted : list (TradeRecord A)) :
  (forall x, In x sorted -> ts_ltb (exit_time r) (exit_time x) = false) ->
  insert_by_exit_time r sorted = sorted ++ [r].
Proof.
  induction sorted as [|x rest IH]; intros Hall; [reflexivity|].
  cbn [insert_by_exit_time app].
  rewrite (Hall x (or_introl eq_refl)). f_equal.
  apply IH. intros y Hy. apply Hall. right. exact Hy.
Qed.

Lemma sorted_before (done rest : list (TradeRecord A)) (r : TradeRecord A) :
  StronglySorted (fun a b => ts_ltb (exit_time a) (exit_time b) = true)
                 (done ++ r :: rest) ->
  forall x, In x done -> ts_ltb (exit_time x) (exit_time r) = true.
Proof.
  induction done as [|y done IH]; intros Hs x Hx; [contradiction|].
  cbn [app] in Hs. inversion Hs as [|? ? Hs' Hall]; subst.
  destruct Hx as [<-|Hx].
  - rewrite Forall_forall in Hall. apply Hall. apply in_or_app. right. left.
    reflexivity.
  - apply IH; assumption.
Qed.

(** Sorting leaves a log alone whose exit times increase already. *)
Lemma sort_in_order (rest done : list (TradeRecord A)) :
  StronglySorted (fun a b => ts_ltb (exit_time a) (exit_time b) = true)
                 (done ++ rest) ->
  fold_left (fun sorted r => insert_by_exit_time r sorted) rest done = done ++ rest.
Proof.
  revert done. induction rest as [|r rest IH]; intros done Hs.
  - cbn [fold_left]. rewrite app_nil_r. reflexivity.
  - cbn [fold_left]. rewrite insert_last.
    + rewrite IH; rewrite <- app_assoc; [reflexivity|exact Hs].
    + intros x Hx. apply ts_ltb_asym. apply (sorted_before done rest r Hs x Hx).
Qed.

(** Along a run on increasing timestamps every trade closes on a later bar
    than the one before it. *)
Lemma timeline_exits_increase (df : DataFrame A) (l : list (TradeRecord A)) :
  timestamps_increase df ->
  forall lo, timeline df lo l ->
             StronglySorted (fun a b => ts_ltb (exit_time a) (exit_time b) = true) l /\
             Forall (fun r => exists j cj, (lo < j)%nat /\ nth_error df j = Some cj /\
                                           exit_time r = timestamp cj) l.
Proof.
  intros Hinc. induction l as [|r l IH]; intros lo; cbn [timeline].
  - intros _. split; constructor.
  - intros (i & j & ci & cj & Hlo & Hij & Hci & Hent & Hcj & Hex & Hrest).
    destruct (IH j Hrest) as [Hs Hall].
    assert (Hmono := timestamps_monotone Hinc).
    split.
    + constructor; [exact Hs|].
      eapply Forall_impl; [|exact Hall].
      intros r' (j' & cj' & Hj' & Hcj' & Hex').
      rewrite Hex, Hex'.
      apply (Hmono (j' - j - 1)%nat j j'); [lia|assumption|assumption].
    + constructor.
      * exists j, cj. repeat split; [lia|assumption|assumption].
      * eapply Forall_impl; [|exact Hall].
        intros r' (j' & cj' & Hj' & Hcj' & Hex').
        exists j', cj'. repeat split; [lia|assumption|assumption].
Qed.

End Report_order.

Section Report_ledger.
Context {A : Type} `{Num A}.

Import Reporting.

Lemma cumsum_from_length (col : list A) :
  forall acc, length (cumsum_from acc col) = length col.
Proof.
  induction col as [|x col IH]; intros acc; [reflexivity|].
  cbn [cumsum_from length]. rewrite IH. reflexivity.
Qed.

Lemma equity_length (l : list (TradeRecord A)) : length (equity l) = length l.
Proof.
  unfold equity, cumsum. rewrite length_map.
  destruct l as [|r l]; [reflexivity|].
  cbn [map length]. rewrite cumsum_from_length, length_map. reflexivity.
Qed.

(** X27: the report reads the ledger of a run in the order the engine
    wrote it: on the trades appended by a run over bars with increasing
    timestamps, sorting by exit time changes nothing, so the equity curve
    of [generate_report] has one value for each trade, in the order of the
    ledger, and a final capital is found exactly when the run has closed a
    trade. *)
Theorem report_keeps_ledger_order (df : DataFrame A) (lg : TradeLogger.t A) :
  timestamps_increase df ->
  exists st' new,
    run_loop df lg = Some st' /\
    TradeLogger.trades (logger st') = TradeLogger.trades lg ++ new /\
    sort_values_exit_time new = new /\
    length (equity (sort_values_exit_time new)) = length new /\
    (final_capital (sort_values_exit_time new) = None <-> new = []).
Proof.
  intros Hinc.
  destruct (run_ledger df lg) as (st' & new & Hrun & Hnew & Hled).
  exists st', new.
  assert (Hsort : sort_values_exit_time new = new).
  { unfold sort_values_exit_time.
    assert (Htl : timeline df 200 new) by (eapply ledger_timeline; exact Hled).
    destruct (timeline_exits_increase new Hinc 200 Htl) as [Hs _].
    apply (sort_in_order new [] Hs). }
  rewrite Hsort. repeat split; try assumption.
  - apply equity_length.
  - unfold final_capital. intros Hnone.
    pose proof (equity_length new) as Hlen.
    destruct (equity new) as [|x rest]; [|discriminate].
    destruct new; [reflexivity|discriminate].
  - intros ->. reflexivity.
Qed.

End Report_ledger.

(** ** The synthetic trades of [simulate_live_markets.py] *)

Section Synthetic_trades.
Context {A : Type} `{Num A}.

Import SimulateLiveMarkets.

Lemma range_by_below (stop step i : nat) :
  (1 <= step)%nat -> In i (range_by stop step) -> (i < stop)%nat.
Proof.
  intros Hstep Hin. unfold range_by in Hin.
  apply in_map_iff in Hin as (k & <- & Hk). apply in_seq in Hk.
  assert (Hdiv : (step * ((stop + step - 1) / step) <= stop + step - 1)%nat)
    by (apply Nat.Div0.mul_div_le).
  assert (Hmul : (step * S k <= step * ((stop + step - 1) / step))%nat)
    by (apply Nat.mul_le_mono_l; lia).
  nia.
Qed.

(** The loop reads rows that are there, and logs one trade for each index,
    built from the row at the index and a later row. *)
Lemma synthetic_loop_runs (data : DataFrame A) (n step : nat) (indices : list nat) :
  n = length data -> (1 <= step)%nat ->
  (forall i, In i indices -> (i < n - 1)%nat) ->
  forall trades,
  exists new,
    synthetic_loop data n step indices trades = Some (trades ++ new) /\
    length new = length indices /\
    Forall (fun t => exists i j row_i row_j,
                       (i < j)%nat /\ nth_error data i = Some row_i /\
                       nth_error data j = Some row_j /\
                       t = synthetic_trade row_i row_j) new.
Proof.
  intros Hn Hstep. induction indices as [|i rest IH]; intros Hall trades.
  - exists []. cbn [synthetic_loop]. rewrite app_nil_r.
    repeat split; constructor.
  - cbn [synthetic_loop].
    assert (Hi : (i < n - 1)%nat) by (apply Hall; left; reflexivity).
    destruct (nth_error data i) as [row_i|] eqn:Hri;
      [|apply nth_error_None in Hri; lia].
    destruct (nth_error data (Nat.min (i + step) (n - 1))) as [row_j|] eqn:Hrj;
      [|apply nth_error_None in Hrj; lia].
    destruct (IH (fun x Hx => Hall x (or_intror Hx))
                 (trades ++ [synthetic_trade row_i row_j])) as (new & Hloop & Hlen & Hnew).
    exists (synthetic_trade row_i row_j :: new). rewrite Hloop.
    rewrite <- app_assoc. repeat split.
    + cbn [length]. rewrite Hlen. reflexivity.
    + constructor; [|exact Hnew].
      exists i, (Nat.min (i + step) (n - 1)), row_i, row_j.
      repeat split; try assumption. lia.
Qed.

Lemma synthetic_fallback_runs (data : DataFrame A) :
  exists trades,
    synthetic_fallback data = Some trades /\
    length trades
    = (if 2 <=? length data
       then length (range_by (length data - 1) (Nat.max 1 (length data / 5)))
       else 0)%nat /\
    Forall (fun t => exists i j row_i row_j,
                       (i < j)%nat /\ nth_error data i = Some row_i /\
                       nth_error data j = Some row_j /\
                       t = synthetic_trade row_i row_j) trades.
Proof.
  unfold synthetic_fallback.
  destruct (2 <=? length data) eqn:Hn.
  - assert (Hstep : (1 <= Nat.max 1 (length data / 5))%nat) by lia.
    assert (Hbelow : forall i,
               In i (range_by (length data - 1) (Nat.max 1 (length data / 5))) ->
               (i < length data - 1)%nat).
    { intros i Hi. apply range_by_below in Hi; assumption. }
    destruct (@synthetic_loop_runs data (length data) (Nat.max 1 (length data / 5))
                (range_by (length data - 1) (Nat.max 1 (length data / 5)))
                eq_refl Hstep Hbelow [])
      as (new & Hloop & Hlen & Hnew).
    exists new. cbn [app] in Hloop. repeat split; assumption.
  - exists []. repeat split; constructor.
Qed.

(** X28: the synthetic block of [main] raises nothing; on a frame of fewer
    than 2 rows it logs nothing, and on any longer frame it logs at least
    one trade and at most eight, each entered on one row and closed on a
    later one. *)
Theorem synthetic_fallback_fills_the_log (data : DataFrame A) :
  exists trades,
    synthetic_fallback data = Some trades /\
    (if 2 <=? length data
     then (1 <= length trades <= 8)%nat
     else trades = []) /\
    Forall (fun t => exists i j row_i row_j,
                       (i < j)%nat /\ nth_error data i = Some row_i /\
                       nth_error data j = Some row_j /\
                       sy_entry_time t = timestamp row_i /\
                       sy_exit_time t = timestamp row_j /\
                       sy_entry_price t = open row_i /\
                       sy_exit_price t = close row_j) trades.
Proof.
  destruct (synthetic_fallback_runs data) as (trades & Hrun & Hlen & Hall).
  exists trades. split; [exact Hrun|]. split.
  - destruct (2 <=? length data) eqn:Hn.
    + apply Nat.leb_le in Hn. rewrite Hlen. unfold range_by.
      rewrite length_map, length_seq.
      set (n := length data) in *. set (step := Nat.max 1 (n / 5)).
      assert (Hstep : (1 <= step)%nat) by (unfold step; lia).
      assert (Hq : (n < 5 * step + 5)%nat).
      { pose proof (Nat.div_mod_eq n 5) as Hdm.
        pose proof (Nat.mod_upper_bound n 5 ltac:(discriminate)) as Hm.
        unfold step. lia. }
      split.
      * apply Nat.div_le_lower_bound; lia.
      * assert (Hlt : ((n - 1 + step - 1) / step < 9)%nat)
          by (apply Nat.Div0.div_lt_upper_bound; lia).
        lia.
    + destruct trades; [reflexivity|discriminate Hlen].
  - eapply Forall_impl; [|exact Hall].
    intros t (i & j & row_i & row_j & Hij & Hi & Hj & ->).
    exists i, j, row_i, row_j. repeat split; assumption.
Qed.

End Synthetic_trades.

Section Exact_synthetic.

Import SimulateLiveMarkets.

Local Open Scope Q_scope.

Lemma synthetic_trade_gains (row_i row_j : Row Q) :
  let t := synthetic_trade row_i row_j in
  0 <= sy_pnl_currency t /\
  10000 <= sy_account_balance t /\
  (sy_result t = loss -> sy_trade_type t = buy /\ sy_exit_price t == sy_entry_price t) /\
  (sy_trade_type t = buy <-> sy_entry_price t <= sy_exit_price t).
Proof.
  cbn zeta. unfold synthetic_trade, ngeb, ngtb.
  cbn [nleb nltb nmul nsub nadd nlit Num_Q].
  change (inject_Z 100000) with 100000. change (inject_Z 10000) with 10000.
  change (inject_Z 1) with 1. change (inject_Z 0) with 0.
  destruct (Qle_bool (open row_i) (close row_j)) eqn:Hdir;
    cbn [sy_pnl_currency sy_account_balance sy_result sy_trade_type
         sy_exit_price sy_entry_price].
  - apply Qle_bool_iff in Hdir.
    assert (Hpnl : 0 <= (close row_j - open row_i) * 100000 * 1).
    { setoid_replace ((close row_j - open row_i) * 100000 * 1)
        with ((close row_j - open row_i) * 100000) by ring.
      apply Qmult_le_0_compat; [|discriminate].
      setoid_replace 0 with (open row_i - open row_i) by ring.
      unfold Qminus. apply Qplus_le_l. exact Hdir. }
    split; [exact Hpnl|]. split.
    + setoid_replace 10000 with (10000 + 0) at 1 by ring.
      apply Qplus_le_r. exact Hpnl.
    + split; [|split; [intros _; exact Hdir|reflexivity]].
      destruct (Qle_bool ((close row_j - open row_i) * 100000 * 1) 0) eqn:Hz;
        cbn [negb]; [|discriminate].
      intros _. split; [reflexivity|].
      apply Qle_bool_iff in Hz.
      assert (Hzero : (close row_j - open row_i) * 100000 * 1 == 0)
        by (apply Qle_antisym; assumption).
      assert (Hdiff : close row_j - open row_i == 0).
      { setoid_replace (close row_j - open row_i)
          with ((close row_j - open row_i) * 100000 * 1 * (1 # 100000)) by field.
        rewrite Hzero. ring. }
      setoid_replace (close row_j) with (close row_j - open row_i + open row_i) by ring.
      rewrite Hdiff. ring.
  - assert (Hlt : close row_j < open row_i).
    { apply Qnot_le_lt. intros Hle. apply Qle_bool_iff in Hle. congruence. }
    assert (Hpnl : 0 < (open row_i - close row_j) * 100000 * 1).
    { setoid_replace ((open row_i - close row_j) * 100000 * 1)
        with ((open row_i - close row_j) * 100000) by ring.
      apply Qmult_lt_0_compat; [|reflexivity].
      setoid_replace 0 with (close row_j - close row_j) by ring.
      unfold Qminus. apply Qplus_lt_l. exact Hlt. }
    split; [apply Qlt_le_weak; exact Hpnl|]. split.
    + setoid_replace 10000 with (10000 + 0) at 1 by ring.
      apply Qplus_le_r. apply Qlt_le_weak. exact Hpnl.
    + split.
      * destruct (Qle_bool ((open row_i - close row_j) * 100000 * 1) 0) eqn:Hz;
          cbn [negb]; [|discriminate].
        apply Qle_bool_iff in Hz. exfalso.
        apply (Qlt_irrefl 0). eapply Qlt_le_trans; [exact Hpnl|exact Hz].
      * split; [discriminate|].
        intros Hle. exfalso. apply (Qlt_irrefl (close row_j)).
        eapply Qlt_le_trans; [exact Hlt|exact Hle].
Qed.

(** X29: the synthetic trades never lose, in exact arithmetic: the direction
    of each is chosen from the close of its exit row, so its P&L is >= 0 and
    its [account_balance] >= 10000; it is a buy exactly when the exit price
    is not below the entry price, and its result is 'loss' only for a buy
    whose exit price equals its entry price. *)
Theorem synthetic_trades_never_lose (data : DataFrame Q) :
  exists trades,
    synthetic_fallback data = Some trades /\
    Forall (fun t =>
              0 <= sy_pnl_currency t /\
              10000 <= sy_account_balance t /\
              (sy_result t = loss ->
               sy_trade_type t = buy /\ sy_exit_price t == sy_entry_price t) /\
              (sy_trade_type t = buy <-> sy_entry_price t <= sy_exit_price t)) trades.
Proof.
  destruct (synthetic_fallback_runs data) as (trades & Hrun & _ & Hall).
  exists trades. split; [exact Hrun|].
  eapply Forall_impl; [|exact Hall].
  intros t (i & j & row_i & row_j & _ & _ & _ & ->).
  apply synthetic_trade_gains.
Qed.

End Exact_synthetic.

(** ** The average true range *)

Section Average_true_range.

Import DataHandler.

Local Open Scope Q_scope.

Lemma nanmax2_exact (x y : Q) :
  x <= nanmax2 x y /\ y <= nanmax2 x y.
Proof.
  unfold nanmax2. cbn [nisnan nltb Num_Q].
  destruct (Qle_bool y x) eqn:E; cbn [negb].
  - apply Qle_bool_iff in E. split; [apply Qle_refl|exact E].
  - split; [|apply Qle_refl].
    apply Qlt_le_weak. apply Qnot_le_lt. intros Hle.
    apply Qle_bool_iff in Hle. congruence.
Qed.

Lemma true_range_row_spread (h l : Q) (prev_close : option Q) :
  h - l <= true_range_row h l prev_close.
Proof.
  unfold true_range_row. cbn [nsub nabs Num_Q].
  destruct prev_close as [pc|]; [|apply Qle_refl].
  apply Qle_trans with (y := nanmax2 (h - l) (Qabs (h - pc))).
  - exact (proj1 (nanmax2_exact (h - l) (Qabs (h - pc)))).
  - exact (proj1 (nanmax2_exact (nanmax2 (h - l) (Qabs (h - pc))) (Qabs (l - pc)))).
Qed.

Lemma true_range_length (df : DataFrame Q) :
  length (true_range df) = length df.
Proof.
  unfold true_range, shift_1.
  rewrite length_map, length_combine, length_firstn.
  cbn [length]. rewrite !length_map. lia.
Qed.

Lemma true_range_member (df : DataFrame Q) (x : Q) :
  In x (true_range df) ->
  exists c prev_close, In c df /\ x = true_range_row (high c) (low c) prev_close.
Proof.
  unfold true_range. intros Hin.
  apply in_map_iff in Hin as ([c pc] & <- & Hin).
  exists c, pc. split; [|reflexivity].
  apply in_combine_l in Hin. exact Hin.
Qed.

Lemma list_upper_bound (l : list Q) :
  exists hi, forall x, In x l -> x <= hi.
Proof.
  induction l as [|a l [hi Hhi]].
  - exists 0. intros x [].
  - destruct (Qlt_le_dec hi a) as [Hlt|Hle].
    + exists a. intros x [<-|Hx]; [apply Qle_refl|].
      apply Qle_trans with (y := hi); [apply Hhi; exact Hx|apply Qlt_le_weak; exact Hlt].
    + exists hi. intros x [<-|Hx]; [exact Hle|apply Hhi; exact Hx].
Qed.

Lemma smoothing_of_period (period : Z) :
  (1 <= period)%Z ->
  0 <= Indicators.alpha_of_alpha (A := Q) (ndiv (nlit 1) (nlit period)) <= 1.
Proof.
  intros Hp.
  assert (Hpq : 1 <= inject_Z period) by (rewrite Zle_Qle in Hp; exact Hp).
  assert (Hpos : 0 < inject_Z period)
    by (apply Qlt_le_trans with (y := 1); [reflexivity|exact Hpq]).
  assert (Hp0 : ~ inject_Z period == 0)
    by (intros E; rewrite E in Hpos; discriminate).
  assert (Halpha : Indicators.alpha_of_alpha (A := Q) (ndiv (nlit 1) (nlit period))
                   == / inject_Z period).
  { unfold Indicators.alpha_of_alpha. cbn [ndiv nadd nsub nlit Num_Q].
    change (inject_Z 1) with 1. field. exact Hp0. }
  rewrite Halpha. split.
  - apply Qlt_le_weak. apply Qinv_lt_0_compat. exact Hpos.
  - apply Qmult_le_l with (z := inject_Z period); [exact Hpos|].
    rewrite Qmult_inv_r; [|exact Hp0].
    rewrite Qmult_1_r. exact Hpq.
Qed.

(** X30: the average true range, prices being exact and the period at
    least 1: [add_atr] keeps the rows; the [atr] of the first row is its
    high minus its low, the close before it being missing; and on a frame
    whose highs are not below the lows no [atr] is negative. *)
Theorem atr_of_ordered_bars_is_not_negative (df : DataFrame Q) (period : Z) :
  (1 <= period)%Z ->
  map fst (add_atr df period) = df /\
  (forall r0 a0, nth_error (add_atr df period) 0 = Some (r0, a0) ->
                 a0 = high r0 - low r0) /\
  ((forall c, In c df -> low c <= high c) ->
   forall r a, In (r, a) (add_atr df period) -> 0 <= a).
Proof.
  intros Hp. unfold add_atr.
  set (alpha := Indicators.alpha_of_alpha (ndiv (nlit 1) (nlit period))).
  assert (Hlen : length (Indicators.ewm_mean alpha (true_range df)) = length df).
  { rewrite ewm_mean_length. apply true_range_length. }
  split; [|split].
  - revert Hlen.
    generalize (Indicators.ewm_mean alpha (true_range df)).
    induction df as [|c df IH]; intros col Hlen; [reflexivity|].
    destruct col as [|a col]; [discriminate|].
    cbn [combine map fst]. f_equal. apply IH. cbn [length] in Hlen. lia.
  - intros r0 a0. unfold Indicators.ewm_mean. rewrite prep_exact.
    unfold true_range, shift_1.
    destruct df as [|c df]; [discriminate|].
    cbn [map length firstn combine Indicators.ewm_recursion nth_error fst snd].
    intros Heq. injection Heq as <- <-.
    unfold true_range_row. reflexivity.
  - intros Hord r a Hin. apply in_combine_r in Hin.
    destruct (list_upper_bound (0 :: true_range df)) as [hi Hhi].
    destruct (smoothing_of_period Hp) as [Ha0 Ha1]. fold alpha in Ha0, Ha1.
    apply (@ewm_mean_between alpha 0 hi (true_range df) Ha0 Ha1); [|exact Hin].
    intros x Hx. split; [|apply Hhi; right; exact Hx].
    apply true_range_member in Hx as (c & pc & Hc & ->).
    eapply Qle_trans; [|apply true_range_row_spread].
    setoid_replace 0 with (low c - low c) by ring.
    unfold Qminus. apply Qplus_le_l. apply Hord. exact Hc.
Qed.

End Average_true_range.

(** ** The further theorems at the sample series *)

Section More_sample_runs.

Lemma detect_rests_on_latest_swings_witness :
  exists kl rl,
    latest_before Doubles.stalled 200 (fun r => is_one (swing_low r)) kl rl /\
    s_stop_loss Prices.stalled_setup = low rl.
Proof.
  assert (Hd : detect Doubles.stalled 200 Prices.stalled_breakout
               = Some Prices.stalled_setup) by (vm_compute; reflexivity).
  destruct (@detect_rests_on_latest_swings float _ Doubles.stalled 200
              Prices.stalled_breakout Prices.stalled_setup Hd) as (_ & W).
  cbn [s_trade_type Prices.stalled_setup] in W.
  destruct W as (_ & _ & Hstop). exact Hstop.
Defined.

Lemma ledger_in_time_order_witness :
  exists st' new,
    run_loop Doubles.rally Doubles.fresh = Some st' /\
    TradeLogger.trades (logger st') = TradeLogger.trades Doubles.fresh ++ new /\
    chronological new.
Proof.
  apply (@ledger_in_time_order float _ Doubles.rally Doubles.fresh).
  apply increasing_timestamps_sound. vm_compute; reflexivity.
Defined.

Lemma constant_close_is_never_traded_witness :
  exists out,
    Indicators.add_indicators (Samples.flat (A := float)) 50 200 = Some out /\
    (forall r, In r out -> ema_fast r = 100%float /\ ema_slow r = 100%float) /\
    run_backtest (find_swing_points out 5) Doubles.fresh = Some Doubles.fresh.
Proof.
  apply (@constant_close_is_never_traded float _ Samples.flat 50 200 5
           100%float Doubles.fresh).
  - lia.
  - lia.
  - vm_compute; reflexivity.
  - reflexivity.
  - reflexivity.
  - intros c Hc. unfold Samples.flat in Hc.
    apply in_map_iff in Hc as (t & <- & _). vm_compute; reflexivity.
Defined.

Lemma ema_follows_recurrence_witness :
  match Prices.three_bars_with_emas with
  | a :: b :: _ =>
      ema_fast b = ema_update (Indicators.alpha_of_span 3) (ema_fast a) (close b) /\
      ema_slow b = ema_update (Indicators.alpha_of_span 1) (ema_slow a) (close b)
  | _ => True
  end.
Proof.
  assert (Hadd : Indicators.add_indicators (Samples.three_bars (A := float)) 3 1
                 = Some Prices.three_bars_with_emas) by (vm_compute; reflexivity).
  assert (Hfin : forall c, In c (Samples.three_bars (A := float)) ->
                           is_finite (close c) = true).
  { intros c [<-|[<-|[<-|[]]]]; vm_compute; reflexivity. }
  cbv beta iota delta [Prices.three_bars_with_emas].
  apply (proj2 (@ema_follows_recurrence float _ _ _ 3 1 Hadd Hfin) 0%nat);
    reflexivity.
Defined.

Lemma report_keeps_ledger_order_witness :
  exists st' new,
    run_loop Doubles.rally Doubles.fresh = Some st' /\
    TradeLogger.trades (logger st') = TradeLogger.trades Doubles.fresh ++ new /\
    Reporting.sort_values_exit_time new = new /\
    length (Reporting.equity (Reporting.sort_values_exit_time new)) = length new /\
    (Reporting.final_capital (Reporting.sort_values_exit_time new) = None <-> new = []).
Proof.
  apply (@report_keeps_ledger_order float _ Doubles.rally Doubles.fresh).
  apply increasing_timestamps_sound. vm_compute; reflexivity.
Defined.

Lemma identify_setup_tool_matches_detect_witness :
  TradingTools.IdentifyMSSSetupTool_run Doubles.rally 200
  = Some match detect Doubles.rally 200 Prices.rally_breakout with
         | Some s =>
             if ngtb (nabs (nsub (s_entry_price s) (s_stop_loss s))) n0_0001
             then Some (details_of_setup 200 s)
             else None
         | None => None
         end.
Proof.
  apply (@identify_setup_tool_matches_detect float _ Doubles.rally 200
           Prices.rally_breakout).
  - vm_compute; reflexivity.
  - reflexivity.
  - reflexivity.
Defined.

Lemma live_signal_is_backtest_setup_witness :
  MarketStructureEngine.get_market_structure_shift
    Doubles.rally (swing_highs Doubles.rally) (swing_lows Doubles.rally) 200
    london_open ny_close
  = Some (if in_session (ts_time (timestamp Prices.rally_breakout))
          then option_map signal_of_setup (detect Doubles.rally 200 Prices.rally_breakout)
          else None).
Proof.
  apply (proj1 (@live_signal_is_backtest_setup float _ Doubles.rally 200)
           Prices.rally_breakout).
  vm_compute; reflexivity.
Defined.

Lemma swing_flags_mark_window_extremes_witness :
  (5 <= 199)%nat /\ (199 + 5 < length (Samples.stalled (A := Q)))%nat /\
  forall m cm, (199 - 5 <= m <= 199 + 5)%nat ->
               nth_error (Samples.stalled (A := Q)) m = Some cm ->
               (low Exact.stalled_dip <= low cm)%Q.
Proof.
  assert (Hrow : nth_error (find_swing_points (Samples.stalled (A := Q)) 5) 199
                 = Some Exact.stalled_dip) by (vm_compute; reflexivity).
  apply (proj1 (proj1 (proj2 (@swing_flags_mark_window_extremes
                                Samples.stalled 5 199 Exact.stalled_dip Hrow)))).
  reflexivity.
Defined.

Lemma opposite_trade_takes_target_first_witness :
  TradeAnalyzer._simulate_opposite
    Prices.four_days (mk_Timestamp 0 Samples.noon) 109%float buy 11%float 2%float
  = (opposite_sl buy 109%float 11%float,
     opposite_tp buy 109%float 11%float 2%float,
     opposite_tp buy 109%float 11%float 2%float,
     TradeAnalyzer._get_time (Prices.price_row 2 135 97)).
Proof.
  apply (@opposite_trade_takes_target_first float _ Prices.four_days
           (mk_Timestamp 0 Samples.noon) 109%float 11%float 2%float buy
           [Prices.price_row 1 110 108] [Prices.price_row 3 110 108]
           (Prices.price_row 2 135 97)).
  - reflexivity.
  - intros r [<-|[]]. split; vm_compute; reflexivity.
  - vm_compute; reflexivity.
  - vm_compute; reflexivity.
Defined.

Lemma opposite_trade_without_exit_witness :
  TradeAnalyzer._simulate_opposite
    Prices.quiet_days (mk_Timestamp 0 Samples.noon) 109%float buy 11%float 2%float
  = (opposite_sl buy 109%float 11%float,
     opposite_tp buy 109%float 11%float 2%float,
     109%float, Some (mk_Timestamp 0 Samples.noon)).
Proof.
  apply (proj2 (@opposite_trade_without_exit float _ Prices.quiet_days
                  (mk_Timestamp 0 Samples.noon) 109%float 11%float 2%float buy)).
  intros r [<-|[<-|[]]]; split; vm_compute; reflexivity.
Defined.

Lemma opposite_trade_exit_time_witness :
  snd (TradeAnalyzer._simulate_opposite
         Prices.four_days (mk_Timestamp 0 Samples.noon) 109%float sell 11%float 2%float)
  = if existsb (fun r =>
                  opposite_target_hit sell (opposite_tp sell 109%float 11%float 2%float)
                                      109%float r
                  || opposite_stop_hit sell (opposite_sl sell 109%float 11%float)
                                       109%float r)
               (TradeAnalyzer.iloc_1_301
                  (TradeAnalyzer.loc_from Prices.four_days (mk_Timestamp 0 Samples.noon)))
    then None else Some (mk_Timestamp 0 Samples.noon).
Proof.
  apply (@opposite_trade_exit_time float _ Prices.four_days
           (mk_Timestamp 0 Samples.noon) 109%float 11%float 2%float sell).
  intros r [<-|[<-|[<-|[<-|[]]]]]; split; reflexivity.
Defined.

Lemma identified_setup_gets_backtest_target_witness :
  TradingTools.CalculateTradeParametersTool_run
    (Some buy) (Some 109%float) (Some 98%float)
  = TradingTools.with_take_profit 131%float.
Proof.
  assert (Hid : TradingTools.IdentifyMSSSetupTool_run Doubles.rally 200
                = Some (Some (TradingTools.mk_SetupDetails
                                buy 109%float 98%float MSS_Bullish
                                (Break_of_LH 101%float) 200)))
    by (vm_compute; reflexivity).
  exact (@identified_setup_gets_backtest_target float _ Doubles.rally 200 _
           float_gt_not_le Hid).
Defined.

Lemma atr_of_ordered_bars_is_not_negative_witness :
  Forall (fun p => (0 <= snd p)%Q) (DataHandler.add_atr Exact.three_bars 14).
Proof.
  apply Forall_forall. intros [r a] Hin.
  apply (proj2 (proj2 (@atr_of_ordered_bars_is_not_negative Exact.three_bars 14
                         ltac:(lia)))) with (r := r); [|exact Hin].
  intros c [<-|[<-|[<-|[]]]]; discriminate.
Defined.

Lemma reversed_trades_have_no_exit_time_witness :
  exists out,
    TradeAnalyzer.analyze_trades Exact.price_days Exact.losing_log = Some (Some out) /\
    Forall (fun r => In r Exact.losing_log \/
                     (TradeAnalyzer.lr_exit_time r = None /\
                      TradeAnalyzer.lr_result r = win /\
                      (0 < TradeAnalyzer.lr_pnl_currency r)%Q)) out.
Proof.
  apply (@reversed_trades_have_no_exit_time Exact.price_days Exact.losing_log).
  intros r [<-|[<-|[<-|[<-|[]]]]]; split; reflexivity.
Defined.

(** On the sample log the first two losses are reversed into wins of
    20000000 each, without exit time, and the third is left. *)
Lemma two_reversed_one_left :
  option_map (option_map (map (fun r => (TradeAnalyzer.lr_result r,
                                         TradeAnalyzer.lr_trade_type r,
                                         TradeAnalyzer.lr_exit_time r,
                                         Qeq_bool (TradeAnalyzer.lr_pnl_currency r)
                                                  20000000,
                                         Qeq_bool (TradeAnalyzer.lr_pnl_currency r)
                                                  (-100)))))
             (TradeAnalyzer.analyze_trades Exact.price_days Exact.losing_log)
  = Some (Some [(win, buy, None, true, false);
                (win, buy, None, true, false);
                (win, buy, Some (mk_Timestamp 2 Samples.noon), false, false);
                (loss, sell, Some (mk_Timestamp 1 Samples.noon), false, true)]).
Proof. vm_compute; reflexivity. Qed.

End More_sample_runs.
